(** * STORMSIGHT-AI: the track loader and the track-data endpoint

  A shallow embedding of [load_track_data.py] (archive lookup, placemark
  extraction, description decoding, store replacement) and of
  [backend.py] (the [/track_data] query resolution), followed by the
  properties of the written specification that were checked against it
  and by further properties read off the two scripts.

  Conventions.
  - A Python [str] is a [string]; every [ascii] stands for one code point
    below 256.  Library predicates ([str.isspace], [str.isdigit], the
    regular-expression class [\d]) are given on that range.
  - An exception raised by a library call is the [None] of an [option];
    every [try]/[except] of the source is a [match] on it.
  - What the scripts print is a list of [Msg] values, oldest first. *)

From Stdlib Require Import ZArith List String Ascii Bool Lia.
From Stdlib Require Import Permutation Sorted.
Import ListNotations.

Open Scope string_scope.
Open Scope Z_scope.

(* ================================================================== *)
(** * Python built-ins used by the two scripts *)
(* ================================================================== *)

Module Py.

Definition code (c : ascii) : Z := Z.of_nat (nat_of_ascii c).

Definition between (lo hi : Z) (c : ascii) : bool :=
  (lo <=? code c) && (code c <=? hi).

(** [str.isspace] of one character: TAB..CR, FS..US, SPACE, NEL, NBSP. *)
Definition isspace (c : ascii) : bool :=
  between 9 13 c || between 28 31 c || (code c =? 32)
  || (code c =? 133) || (code c =? 160).

(** The ASCII digits, which is what [\d] and [int] read below 256. *)
Definition is_digit (c : ascii) : bool := between 48 57 c.

Definition digit_val (c : ascii) : Z := code c - 48.

(** [str.isdigit] of one character: the ASCII digits and the
    superscripts two, three and one. *)
Definition isdigit_char (c : ascii) : bool :=
  is_digit c || (code c =? 178) || (code c =? 179) || (code c =? 185).

Fixpoint all_chars (p : ascii -> bool) (s : string) : bool :=
  match s with
  | EmptyString => true
  | String c s' => p c && all_chars p s'
  end.

(** The truth value of a string: non-empty. *)
Definition truthy (s : string) : bool :=
  match s with EmptyString => false | String _ _ => true end.

(** [s.isdigit()] *)
Definition isdigit (s : string) : bool := truthy s && all_chars isdigit_char s.

(** [s.startswith(p)] *)
Definition startswith (s p : string) : bool := String.prefix p s.

(** [s.endswith(suf)] *)
Fixpoint endswith (s suf : string) : bool :=
  String.eqb s suf
  || match s with
     | EmptyString => false
     | String _ s' => endswith s' suf
     end.

(** [sub in s] *)
Fixpoint contains (sub s : string) : bool :=
  String.prefix sub s
  || match s with
     | EmptyString => false
     | String _ s' => contains sub s'
     end.

Fixpoint lstrip (s : string) : string :=
  match s with
  | EmptyString => EmptyString
  | String c s' => if isspace c then lstrip s' else s
  end.

Fixpoint rstrip (s : string) : string :=
  match s with
  | EmptyString => EmptyString
  | String c s' =>
      match rstrip s' with
      | EmptyString => if isspace c then EmptyString else String c EmptyString
      | r => String c r
      end
  end.

(** [s.strip()] *)
Definition strip (s : string) : string := rstrip (lstrip s).

(** [s.split(sep)] and [s.split(sep, maxsplit)] for a non-empty [sep]:
    cut at the leftmost occurrence, resume after it.  [skip] counts the
    characters of a separator still to be passed over, [left] the cuts
    still allowed ([None]: no bound), [piece] the text since the last
    cut. *)
Fixpoint split_aux (sep : string) (left : option nat) (skip : nat)
         (piece s : string) : list string :=
  match s with
  | EmptyString => [piece]
  | String c s' =>
      match skip with
      | S k => split_aux sep left k piece s'
      | O =>
          let cut := String.prefix sep s in
          match left with
          | Some O => split_aux sep left O (piece ++ String c EmptyString) s'
          | Some (S n) =>
              if cut
              then piece :: split_aux sep (Some n) (String.length sep - 1) EmptyString s'
              else split_aux sep left O (piece ++ String c EmptyString) s'
          | None =>
              if cut
              then piece :: split_aux sep None (String.length sep - 1) EmptyString s'
              else split_aux sep left O (piece ++ String c EmptyString) s'
          end
      end
  end.

Definition split (s sep : string) : list string :=
  split_aux sep None O EmptyString s.

Definition split_max (s sep : string) (maxsplit : nat) : list string :=
  split_aux sep (Some maxsplit) O EmptyString s.

(** [s.replace(old, new)] for a one-character [old]. *)
Fixpoint replace (s : string) (old : ascii) (new : string) : string :=
  match s with
  | EmptyString => EmptyString
  | String c s' =>
      if Ascii.eqb c old then new ++ replace s' old new
      else String c (replace s' old new)
  end.

(** [s[:-1]] *)
Fixpoint but_last (s : string) : string :=
  match s with
  | EmptyString => EmptyString
  | String c EmptyString => EmptyString
  | String c s' => String c (but_last s')
  end.

(** [s.lower()] below 256: A..Z and the accented capitals. *)
Definition lower_char (c : ascii) : ascii :=
  if between 65 90 c || (between 192 222 c && negb (code c =? 215))
  then ascii_of_nat (nat_of_ascii c + 32) else c.

Fixpoint lower (s : string) : string :=
  match s with
  | EmptyString => EmptyString
  | String c s' => String (lower_char c) (lower s')
  end.

(** The digits of [int(s)]: one underscore is allowed between two digits.
    [seen] tells whether the previous character was a digit. *)
Fixpoint int_digits (acc : Z) (seen : bool) (s : string) : option Z :=
  match s with
  | EmptyString => if seen then Some acc else None
  | String c s' =>
      if is_digit c then int_digits (10 * acc + digit_val c) true s'
      else if Ascii.eqb c "_" && seen then int_digits acc false s'
      else None
  end.

(** [int(s)] in base ten; [None] is [ValueError].  The interpreter's
    configurable cap on the number of digits is not part of the model. *)
Definition int (s : string) : option Z :=
  match strip s with
  | String "+" r => int_digits 0 false r
  | String "-" r => option_map Z.opp (int_digits 0 false r)
  | t => int_digits 0 false t
  end.

End Py.

(* ================================================================== *)
(** * The part of [datetime] the scripts rely on *)
(* ================================================================== *)

Module Datetime.

(** [tzinfo] is the UTC offset in minutes; [None] is a naive value. *)
Record datetime : Type := mkdt {
  year : Z; month : Z; day : Z;
  hour : Z; minute : Z; second : Z;
  tzinfo : option Z
}.

Definition is_leap (y : Z) : bool :=
  (y mod 4 =? 0) && (negb (y mod 100 =? 0) || (y mod 400 =? 0)).

Definition days_in_month (y m : Z) : Z :=
  if m =? 2 then (if is_leap y then 29 else 28)
  else if (m =? 4) || (m =? 6) || (m =? 9) || (m =? 11) then 30
  else 31.

Definition days_before_year (y : Z) : Z :=
  let p := y - 1 in p * 365 + p / 4 - p / 100 + p / 400.

Definition days_before_month (y m : Z) : Z :=
  nth (Z.to_nat m) [0; 0; 31; 59; 90; 120; 151; 181; 212; 243; 273; 304; 334] 0
  + (if (2 <? m) && is_leap y then 1 else 0).

(** [date.toordinal]: 1 is the first of January of year 1. *)
Definition ymd2ord (y m d : Z) : Z :=
  days_before_year y + days_before_month y m + d.

(** The instant a value denotes, in seconds from the start of ordinal
    day 0 in UTC.  A naive value is read as UTC, which is how the
    endpoint prints it. *)
Definition instant (t : datetime) : Z :=
  ((ymd2ord (year t) (month t) (day t) * 24 + hour t) * 60 + minute t) * 60
  + second t
  - 60 * match tzinfo t with Some off => off | None => 0 end.

(** The inverse of [ymd2ord], as [date.fromordinal] computes it. *)
Definition ord2ymd (n0 : Z) : Z * Z * Z :=
  let n := n0 - 1 in
  let n400 := n / 146097 in let n := n mod 146097 in
  let n100 := n / 36524 in let n := n mod 36524 in
  let n4 := n / 1461 in let n := n mod 1461 in
  let n1 := n / 365 in let n := n mod 365 in
  let y := n400 * 400 + 1 + n100 * 100 + n4 * 4 + n1 in
  if (n1 =? 4) || (n100 =? 4) then (y - 1, 12, 31)
  else
    let leap := (n1 =? 3) && (negb (n4 =? 24) || (n100 =? 3)) in
    let m := Z.shiftr (n + 50) 5 in
    let before k := nth (Z.to_nat k)
                        [0; 0; 31; 59; 90; 120; 151; 181; 212; 243; 273; 304; 334] 0
                    + (if (2 <? k) && leap then 1 else 0) in
    if n <? before m
    then (y, m - 1, n - before (m - 1) + 1)
    else (y, m, n - before m + 1).

(** [t.astimezone(timezone.utc)] of an aware value (a naive one is
    returned with the offset zero attached). *)
Definition astimezone_utc (t : datetime) : datetime :=
  match tzinfo t with
  | Some 0 => t
  | None => mkdt (year t) (month t) (day t) (hour t) (minute t) (second t) (Some 0)
  | Some _ =>
      let s := instant t in
      let '(y, m, d) := ord2ymd (s / 86400) in
      let r := s mod 86400 in
      mkdt y m d (r / 3600) (r mod 3600 / 60) (r mod 60) (Some 0)
  end.

(** [t.replace(tzinfo=timezone.utc)] *)
Definition replace_tzinfo_utc (t : datetime) : datetime :=
  mkdt (year t) (month t) (day t) (hour t) (minute t) (second t) (Some 0).

Definition digit (n : Z) : ascii := ascii_of_nat (Z.to_nat (48 + n mod 10)).

Definition pad2 (n : Z) : string :=
  String (digit (n / 10)) (String (digit n) EmptyString).

Definition pad4 (n : Z) : string :=
  String (digit (n / 1000)) (String (digit (n / 100)) (pad2 n)).

(** [t.strftime("%Y-%m-%dT%H:%M:%SZ")]: the fields as they stand, the
    year on four digits, and a literal [Z] whatever the offset is. *)
Definition strftime_iso (t : datetime) : string :=
  pad4 (year t) ++ "-" ++ pad2 (month t) ++ "-" ++ pad2 (day t) ++ "T"
  ++ pad2 (hour t) ++ ":" ++ pad2 (minute t) ++ ":" ++ pad2 (second t) ++ "Z".

(** The regular expressions [_strptime] compiles for [%m], [%d] and [%H],
    restricted to their two-character alternatives:
    [1[0-2]|0[1-9]], [3[0-1]|[1-2]\d|0[1-9]| [1-9]], [2[0-3]|[0-1]\d]. *)
Definition re_m (a b : ascii) : bool :=
  (Ascii.eqb a "1" && Py.between 48 50 b) || (Ascii.eqb a "0" && Py.between 49 57 b).

Definition re_d (a b : ascii) : bool :=
  (Ascii.eqb a "3" && Py.between 48 49 b)
  || (Py.between 49 50 a && Py.is_digit b)
  || (Ascii.eqb a "0" && Py.between 49 57 b)
  || (Ascii.eqb a " " && Py.between 49 57 b).

Definition re_H (a b : ascii) : bool :=
  (Ascii.eqb a "2" && Py.between 48 51 b) || (Py.between 48 49 a && Py.is_digit b).

(** [int] of a two-character group; a leading blank counts for nothing. *)
Definition field2 (a b : ascii) : Z :=
  10 * (if Ascii.eqb a " " then 0 else Py.digit_val a) + Py.digit_val b.

(** [datetime.strptime(s, '%Y%m%d%H')] on a string of ten characters,
    the only length the loader passes; [None] is [ValueError].  The
    pattern is matched from the left and must use the whole string, so
    each of month, day and hour takes two characters; the date is then
    validated (year from 1, day within the month). *)
Definition strptime_YmdH (s : string) : option datetime :=
  match s with
  | String y1 (String y2 (String y3 (String y4
    (String m1 (String m2 (String d1 (String d2
    (String h1 (String h2 EmptyString))))))))) =>
      if Py.is_digit y1 && Py.is_digit y2 && Py.is_digit y3 && Py.is_digit y4
         && re_m m1 m2 && re_d d1 d2 && re_H h1 h2
      then
        let y := 1000 * Py.digit_val y1 + 100 * Py.digit_val y2
                 + 10 * Py.digit_val y3 + Py.digit_val y4 in
        let m := field2 m1 m2 in
        let d := field2 d1 d2 in
        if (1 <=? y) && (d <=? days_in_month y m)
        then Some (mkdt y m d (field2 h1 h2) 0 0 None)
        else None
      else None
  | _ => None
  end.

End Datetime.


Open Scope list_scope.

(* ================================================================== *)
(** * The markup tree and the XPath queries of the loader *)
(* ================================================================== *)

Module Xml.

(** A node as lxml presents it: a text node, or an element with the URI of
    its namespace (if it has one), its local name, its [nsmap] (prefix to
    URI, the default namespace under [None], in declaration order) and
    its children in document order. *)
#[warnings="-register-all"] Inductive node : Type :=
| Text (s : string)
| Element (ns : option string) (tag : string)
          (nsmap : list (option string * string)) (children : list node).

Definition nsmap_of (n : node) : list (option string * string) :=
  match n with
  | Text _ => []
  | Element _ _ m _ => m
  end.

Definition key_eqb (a b : option string) : bool :=
  match a, b with
  | None, None => true
  | Some x, Some y => String.eqb x y
  | _, _ => false
  end.

(** [m[k]] guarded by [k in m]. *)
Fixpoint lookup (k : option string) (m : list (option string * string)) : option string :=
  match m with
  | [] => None
  | (k', v) :: m' => if key_eqb k k' then Some v else lookup k m'
  end.

(** A name test: [kml:local] with [kml] bound to [Some uri], or the bare
    [local] ([None]), which selects elements that are in no namespace. *)
Definition matches (q : option string) (local : string) (n : node) : bool :=
  match n with
  | Text _ => false
  | Element ns tag _ _ => key_eqb q ns && String.eqb tag local
  end.

Fixpoint descendants_or_self (n : node) : list node :=
  n :: match n with
       | Text _ => []
       | Element _ _ _ cs => flat_map descendants_or_self cs
       end.

(** [root.xpath('//q:local')]: the matching elements of the document, in
    document order. *)
Definition xpath_all (q : option string) (local : string) (root : node) : list node :=
  filter (matches q local) (descendants_or_self root).

(** [pm.xpath('.//q:a/text()')]: the text children of the elements [a]
    strictly below [pm], in document order.  [below] is false at [pm]
    itself. *)
Fixpoint text_under (q : option string) (a : string) (below : bool) (n : node) : list string :=
  match n with
  | Text _ => []
  | Element _ _ _ cs =>
      let here := below && matches q a n in
      flat_map (fun c => match c with
                         | Text s => if here then [s] else []
                         | Element _ _ _ _ => text_under q a true c
                         end) cs
  end.

Definition xpath_text1 (q : option string) (a : string) (pm : node) : list string :=
  text_under q a false pm.

(** [pm.xpath('.//q:a/q:b/text()')]: the text children of the elements [b]
    whose parent is an element [a] strictly below [pm].  [below] is as
    above; [in_a] tells whether the parent of [n] is such an [a]. *)
Fixpoint text_under2 (q : option string) (a b : string) (below in_a : bool) (n : node) : list string :=
  match n with
  | Text _ => []
  | Element _ _ _ cs =>
      let here := in_a && matches q b n in
      let is_a := below && matches q a n in
      flat_map (fun c => match c with
                         | Text s => if here then [s] else []
                         | Element _ _ _ _ => text_under2 q a b true is_a c
                         end) cs
  end.

Definition xpath_text2 (q : option string) (a b : string) (pm : node) : list string :=
  text_under2 q a b false false pm.

End Xml.

(* ================================================================== *)
(** * The collection [track_data] *)
(* ================================================================== *)

Module Store.

Section Documents.

Variable float : Type.

(** [{"type": ..., "coordinates": [...]}] *)
Record Geometry : Type := mkGeometry {
  g_type : string;
  g_coordinates : list float
}.

(** A stored document; a field that is missing, or null, is [None]. *)
Record Document : Type := mkDocument {
  d_storm_id : option string;
  d_timestamp : option string;
  d_latitude : option float;
  d_longitude : option float;
  d_location : option Geometry;
  d_wind_kts : option Z;
  d_pressure_mb : option Z
}.

(** A filter [{"storm_id": s, "timestamp": {"$gte": g, "$lte": l}}], each
    bound optional. *)
Record Filter : Type := mkFilter {
  f_storm_id : string;
  f_gte : option string;
  f_lte : option string
}.

Inductive Direction : Type := ASCENDING | DESCENDING.

Definition storm_is (s : string) (d : Document) : bool :=
  match d_storm_id d with
  | Some s' => String.eqb s' s
  | None => false
  end.

(** Strings compare code point by code point; a bound is only met by a
    document that has a timestamp. *)
Definition bound_ok (lo : bool) (b : option string) (d : Document) : bool :=
  match b with
  | None => true
  | Some v =>
      match d_timestamp d with
      | Some t => if lo then String.leb v t else String.leb t v
      | None => false
      end
  end.

Definition satisfies (f : Filter) (d : Document) : bool :=
  storm_is (f_storm_id f) d && bound_ok true (f_gte f) d && bound_ok false (f_lte f) d.

(** Order of the sort key: a missing timestamp sorts before every string. *)
Definition key_leb (a b : option string) : bool :=
  match a, b with
  | None, _ => true
  | Some _, None => false
  | Some x, Some y => String.leb x y
  end.

Definition before (dir : Direction) (x y : Document) : bool :=
  match dir with
  | ASCENDING => key_leb (d_timestamp x) (d_timestamp y)
  | DESCENDING => key_leb (d_timestamp y) (d_timestamp x)
  end.

Fixpoint insert_sorted (dir : Direction) (x : Document) (l : list Document) : list Document :=
  match l with
  | [] => [x]
  | y :: l' => if before dir x y then x :: l else y :: insert_sorted dir x l'
  end.

(** [cursor.sort("timestamp", dir)] *)
Fixpoint sort (dir : Direction) (l : list Document) : list Document :=
  match l with
  | [] => []
  | x :: l' => insert_sorted dir x (sort dir l')
  end.

(** [cursor.limit(n)]; [None] when the call is absent. *)
Definition limit (n : option nat) (l : list Document) : list Document :=
  match n with
  | Some k => firstn k l
  | None => l
  end.

(** [list(collection.find(f).sort("timestamp", dir).limit(n))] on the
    documents [docs]. *)
Definition run_find (docs : list Document) (f : Filter) (dir : Direction) (n : option nat)
  : list Document :=
  limit n (sort dir (filter (satisfies f) docs)).

(** [collection.delete_many({"storm_id": s})] *)
Definition delete_many (s : string) (docs : list Document) : list Document :=
  filter (fun d => negb (storm_is s d)) docs.

(** [collection.insert_many(batch)] *)
Definition insert_many (batch docs : list Document) : list Document :=
  docs ++ batch.

Definition count_storm (s : string) (docs : list Document) : nat :=
  List.length (filter (storm_is s) docs).

End Documents.

Arguments mkGeometry {float}.
Arguments g_type {float}.
Arguments g_coordinates {float}.
Arguments mkDocument {float}.
Arguments d_storm_id {float}.
Arguments d_timestamp {float}.
Arguments d_latitude {float}.
Arguments d_longitude {float}.
Arguments d_location {float}.
Arguments d_wind_kts {float}.
Arguments d_pressure_mb {float}.
Arguments storm_is {float}.
Arguments bound_ok {float}.
Arguments satisfies {float}.
Arguments before {float}.
Arguments insert_sorted {float}.
Arguments sort {float}.
Arguments limit {float}.
Arguments run_find {float}.
Arguments delete_many {float}.
Arguments insert_many {float}.
Arguments count_storm {float}.

End Store.

(* ================================================================== *)
(** * [load_track_data.py] *)
(* ================================================================== *)

Module Loader.

Import Xml Store Datetime.

Definition KMZ_FILE_PATH : string := "data/IO_besttracks_2020-2020.kmz".
Definition STORM_NAME_FOR_DB : string := "BESTTRACK_2020".

(** The lines the script prints. *)
Inductive Msg : Type :=
| ReadingKmz (path : string)
| FoundKml (name : string)
| NoKmlInside (path : string)
| KmzReadError (path : string)
| ParsingKml
| Utf8Failed
| InvalidXml
| GuessedNamespace (uri : string)
| NoPlacemarksUnder (uri : string)
| TryingUnqualified
| FoundPlacemarks (n : nat)
| ProcessingPlacemarks (n : nat)
| BadCoordinates (placemark : Z) (text : string)
| UnexpectedDtg (placemark : Z) (value : string)
| DtgParseError (placemark : Z)
| SkippedNoTimestamp (placemark : Z)
| Extracted (n : nat)
| Connecting
| Connected
| DeletingOld (storm : string)
| Deleted (n : nat)
| Inserting (n : nat)
| Inserted (n : nat)
| EnsuringGeoIndex
| EnsuringTimeIndex
| LoadingComplete
| ConnectionTimeout
| ConnectionFailure
| DatabaseError
| ConnectionClosed
| NothingExtracted
| CouldNotReadKml.

(** ** Description decoding (the three labelled cells) *)

Definition DTG_MARKER : string := "DTG </B></td><td>".
Definition INTENSITY_MARKER : string := "Intensity </B></td><td>".
Definition MSLP_MARKER : string := "MSLP </B></td><td>".

(** The value the DTG block reads (lines 155-157), when the label is
    there. *)
Definition dtg_value (desc_text : string) : option string :=
  if Py.contains DTG_MARKER desc_text then
    match nth_error (Py.split desc_text DTG_MARKER) 1 with
    | None => None
    | Some dtg_part =>
        match nth_error (Py.split dtg_part "</td>") 0 with
        | None => None
        | Some cell => Some (Py.strip cell)
        end
    end
  else None.

(** Lines 154-165.  Every exception of the block is caught and reported;
    the subscripts cannot fail once the guards hold, their [None] is kept
    for the shape of the code. *)
Definition extract_timestamp (placemark_count : Z) (desc_text : string)
  : option datetime * list Msg :=
  if Py.contains DTG_MARKER desc_text then
    match nth_error (Py.split desc_text DTG_MARKER) 1 with
    | None => (None, [DtgParseError placemark_count])
    | Some dtg_part =>
        match nth_error (Py.split dtg_part "</td>") 0 with
        | None => (None, [DtgParseError placemark_count])
        | Some cell =>
            let dtg_val := Py.strip cell in
            if Py.endswith dtg_val "Z" && Nat.eqb (String.length dtg_val) 11 then
              match strptime_YmdH (Py.but_last dtg_val) with
              | Some dt_naive => (Some (replace_tzinfo_utc dt_naive), [])
              | None => (None, [DtgParseError placemark_count])
              end
            else (None, [UnexpectedDtg placemark_count dtg_val])
        end
    end
  else (None, []).

(** Lines 168-173; [except Exception: pass]. *)
Definition extract_wind (desc_text : string) : option Z :=
  if Py.contains INTENSITY_MARKER desc_text then
    match nth_error (Py.split desc_text INTENSITY_MARKER) 1 with
    | None => None
    | Some intensity_part =>
        match nth_error (Py.split intensity_part "</td>") 0 with
        | None => None
        | Some cell =>
            let intensity_val := Py.strip cell in
            if Py.truthy intensity_val then Py.int intensity_val else None
        end
    end
  else None.

(** Lines 176-182; [except Exception: pass]. *)
Definition extract_pressure (desc_text : string) : option Z :=
  if Py.contains MSLP_MARKER desc_text then
    match nth_error (Py.split desc_text MSLP_MARKER) 1 with
    | None => None
    | Some pressure_part =>
        let cell :=
          if Py.contains " mb</td>" pressure_part
          then nth_error (Py.split pressure_part " mb</td>") 0
          else nth_error (Py.split pressure_part "</td>") 0 in
        match cell with
        | None => None
        | Some c =>
            let pressure_val := Py.strip c in
            if Py.truthy pressure_val && Py.isdigit pressure_val
            then Py.int pressure_val else None
        end
    end
  else None.

(** The variables [timestamp], [wind_kts] and [pressure_mb] of the loop
    body (lines 121-123); [None] is their initial value. *)
Record Fields : Type := mkFields {
  f_timestamp : option datetime;
  f_wind_kts : option Z;
  f_pressure_mb : option Z
}.

Section Extraction.

Variable float : Type.

(** [float(s)]; [None] is [ValueError]. *)
Variable float_of_str : string -> option float.

(** The dictionary appended to [records] (lines 186-194). *)
Record TrackPoint : Type := mkTrackPoint {
  storm_id : string;
  timestamp : string;
  latitude : float;
  longitude : float;
  location : Geometry float;
  wind_kts : option Z;
  pressure_mb : option Z
}.

Definition is_nil {A : Type} (l : list A) : bool :=
  match l with [] => true | _ :: _ => false end.

(** A query tried under the chosen namespace, then without any
    (lines 129-132 and 145-148). *)
Definition qualified_then_bare {A : Type} (namespaces : option string)
           (query : option string -> list A) : list A :=
  let found := match namespaces with
               | Some uri => query (Some uri)
               | None => []
               end in
  if is_nil found then query None else found.

(** Lines 128-140: [(lon, lat)] and the warning, if any. *)
Definition get_coordinates (namespaces : option string) (placemark_count : Z) (pm_elem : node)
  : option float * option float * list Msg :=
  let coord_text :=
    qualified_then_bare namespaces (fun q => xpath_text2 q "Point" "coordinates" pm_elem) in
  match coord_text with
  | [] => (None, None, [])
  | first :: _ =>
      match Py.split (Py.strip first) "," with
      | lon_str :: lat_str :: _ =>
          match float_of_str lon_str with
          | None => (None, None, [BadCoordinates placemark_count first])
          | Some lon =>
              match float_of_str lat_str with
              | None => (Some lon, None, [BadCoordinates placemark_count first])
              | Some lat => (Some lon, Some lat, [])
              end
          end
      | _ => (None, None, [BadCoordinates placemark_count first])
      end
  end.

(** Lines 143-149. *)
Definition get_description (namespaces : option string) (pm_elem : node) : option string :=
  let desc_elements :=
    qualified_then_bare namespaces (fun q => xpath_text1 q "description" pm_elem) in
  match desc_elements with
  | [] => None
  | first :: _ => Some (Py.strip first)
  end.

(** Lines 143-182: the three fields read from the description, and the
    warning, if any. *)
Definition parse_description (namespaces : option string) (placemark_count : Z) (pm_elem : node)
  : Fields * list Msg :=
  match get_description namespaces pm_elem with
  | Some desc_text =>
      if Py.truthy desc_text then
        let '(ts, m) := extract_timestamp placemark_count desc_text in
        (mkFields ts (extract_wind desc_text) (extract_pressure desc_text), m)
      else (mkFields None None None, [])
  | None => (mkFields None None None, [])
  end.

(** Lines 186-194. *)
Definition make_record (lat lon : float) (ts : datetime) (wind pressure : option Z)
  : TrackPoint :=
  {| storm_id := STORM_NAME_FOR_DB;
     timestamp := strftime_iso (astimezone_utc ts);
     latitude := lat;
     longitude := lon;
     location := mkGeometry "Point" [lon; lat];
     wind_kts := wind;
     pressure_mb := pressure |}.

(** The body of the loop (lines 120-198) for placemark number
    [placemark_count]: the record, if one is appended, and what is
    printed. *)
Definition process_placemark (namespaces : option string) (placemark_count : Z) (pm_elem : node)
  : option TrackPoint * list Msg :=
  let '(lon, lat, m_coord) := get_coordinates namespaces placemark_count pm_elem in
  let '(fields, m_desc) := parse_description namespaces placemark_count pm_elem in
  match lat, lon, f_timestamp fields with
  | Some la, Some lo, Some t =>
      (Some (make_record la lo t (f_wind_kts fields) (f_pressure_mb fields)),
       m_coord ++ m_desc)
  | Some _, Some _, None =>
      (None, m_coord ++ m_desc ++ [SkippedNoTimestamp placemark_count])
  | _, _, _ => (None, m_coord ++ m_desc)
  end.

(** The loop itself; [placemark_count] is the number of placemarks seen
    before [pms]. *)
Fixpoint process_all (namespaces : option string) (placemark_count : Z) (pms : list node)
  : list TrackPoint * list Msg :=
  match pms with
  | [] => ([], [])
  | pm_elem :: rest =>
      let '(r, m) := process_placemark namespaces (placemark_count + 1) pm_elem in
      let '(rs, ms) := process_all namespaces (placemark_count + 1) rest in
      (match r with Some rec => rec :: rs | None => rs end, m ++ ms)
  end.

(** Lines 81-92: the URI bound to the prefix [kml], if any. *)
Definition choose_namespace (nsmap : list (option string * string))
  : option string * list Msg :=
  match nsmap with
  | [] => (None, [])
  | (_, first_uri) :: _ =>
      match lookup None nsmap with
      | Some uri => (Some uri, [])
      | None =>
          match lookup (Some "kml") nsmap with
          | Some uri => (Some uri, [])
          | None => (Some first_uri, [GuessedNamespace first_uri])
          end
      end
  end.

(** Lines 95-111.  The two expressions are constants and well formed, so
    their evaluation does not fail; the handlers of [XPathEvalError] have
    no counterpart here. *)
Definition find_placemarks (root : node) : list node * option string * list Msg :=
  let '(namespaces, m0) := choose_namespace (nsmap_of root) in
  let '(qualified, m1) :=
    match namespaces with
    | Some uri =>
        let found := xpath_all (Some uri) "Placemark" root in
        (found, if is_nil found then [NoPlacemarksUnder uri] else [])
    | None => ([], [])
    end in
  let '(placemark_elements, m2) :=
    if is_nil qualified
    then (xpath_all None "Placemark" root, [TryingUnqualified])
    else (qualified, []) in
  (placemark_elements, namespaces, m0 ++ m1 ++ m2).

(** Lines 114-215 on a parsed document. *)
Definition extract_records (root : node) : list TrackPoint * list Msg :=
  let '(placemark_elements, namespaces, m) := find_placemarks root in
  let n := List.length placemark_elements in
  let '(records, ms) := process_all namespaces 0 placemark_elements in
  (records,
   m ++ [FoundPlacemarks n; ProcessingPlacemarks n] ++ ms
     ++ [Extracted (List.length records)]).

(** ** From bytes to a tree *)

(** The codecs and the lxml parser; [None] is [UnicodeDecodeError],
    [UnicodeEncodeError] and [XMLSyntaxError] respectively. *)
Variable utf8_decode : list Byte.byte -> option string.
Variable utf8_encode : string -> list Byte.byte.
Variable latin1_decode : list Byte.byte -> string.
Variable latin1_encode : string -> option (list Byte.byte).
Variable etree_fromstring : list Byte.byte -> option node.

(** Lines 61-62 and 69-70. *)
Definition strip_declaration (kml_string : string) : string :=
  if Py.startswith (Py.strip kml_string) "<?xml"
  then last (Py.split_max kml_string "?>" 1) kml_string
  else kml_string.

(** Lines 57-78. *)
Definition parse_root (kml_content_bytes : list Byte.byte) : option node * list Msg :=
  let first_try :=
    match utf8_decode kml_content_bytes with
    | Some kml_string => etree_fromstring (utf8_encode (strip_declaration kml_string))
    | None => None
    end in
  match first_try with
  | Some root => (Some root, [])
  | None =>
      let second_try :=
        match latin1_encode (strip_declaration (latin1_decode kml_content_bytes)) with
        | Some b => etree_fromstring b
        | None => None
        end in
      match second_try with
      | Some root => (Some root, [Utf8Failed])
      | None => (None, [Utf8Failed; InvalidXml])
      end
  end.

Definition parse_kml_features (kml_content_bytes : list Byte.byte)
  : list TrackPoint * list Msg :=
  if is_nil kml_content_bytes then ([], [])
  else
    match parse_root kml_content_bytes with
    | (None, m) => ([], m)
    | (Some root, m) =>
        let '(records, ms) := extract_records root in (records, m ++ ms)
    end.

(** ** The archive *)

(** A KMZ archive: its entries, name and content, in directory order. *)
Definition ZipFile : Type := list (string * list Byte.byte).

Definition namelist (kmz : ZipFile) : list string := map fst kmz.

(** [kmz.read(name)]: the entry registered last under that name. *)
Fixpoint read (kmz : ZipFile) (name : string) : option (list Byte.byte) :=
  match kmz with
  | [] => None
  | (n, content) :: rest =>
      match read rest name with
      | Some c => Some c
      | None => if String.eqb n name then Some content else None
      end
  end.

(** Lines 19-42; the argument is [None] when the archive cannot be opened
    or read. *)
Definition find_kml_in_kmz (kmz_path : string) (archive : option ZipFile)
  : option (list Byte.byte) * list Msg :=
  match archive with
  | None => (None, [KmzReadError kmz_path])
  | Some kmz =>
      let kml_files := filter (fun f => Py.endswith (Py.lower f) ".kml") (namelist kmz) in
      match kml_files with
      | [] => (None, [NoKmlInside kmz_path])
      | kml_filename :: _ =>
          match read kmz kml_filename with
          | Some kml_content_bytes => (Some kml_content_bytes, [FoundKml kml_filename])
          | None => (None, [FoundKml kml_filename; KmzReadError kmz_path])
          end
      end
  end.

(** ** The run *)

(** What the store does during the session: where the first failure
    occurs, if any.  A bulk insert that fails has written the documents
    before the failing one. *)
Inductive Fault : Type :=
| NoFault
| SelectionTimeout
| ConnectFails
| DeleteFails
| InsertFails (written : nat)
| IndexFails.

Definition to_document (r : TrackPoint) : Document float :=
  {| d_storm_id := Some (storm_id r);
     d_timestamp := Some (timestamp r);
     d_latitude := Some (latitude r);
     d_longitude := Some (longitude r);
     d_location := Some (location r);
     d_wind_kts := wind_kts r;
     d_pressure_mb := pressure_mb r |}.

(** Lines 231-266 for a non-empty [storm_data]. *)
Definition database_operations (fault : Fault) (storm_data : list TrackPoint)
           (docs : list (Document float)) : list (Document float) * list Msg :=
  match fault with
  | SelectionTimeout => (docs, [Connecting; ConnectionTimeout; ConnectionClosed])
  | ConnectFails => (docs, [Connecting; ConnectionFailure; ConnectionClosed])
  | DeleteFails =>
      (docs, [Connecting; Connected; DeletingOld STORM_NAME_FOR_DB;
              DatabaseError; ConnectionClosed])
  | _ =>
      let kept := delete_many STORM_NAME_FOR_DB docs in
      let head := [Connecting; Connected; DeletingOld STORM_NAME_FOR_DB;
                   Deleted (List.length docs - List.length kept);
                   Inserting (List.length storm_data)] in
      match fault with
      | InsertFails written =>
          (insert_many (map to_document (firstn written storm_data)) kept,
           head ++ [DatabaseError; ConnectionClosed])
      | IndexFails =>
          (insert_many (map to_document storm_data) kept,
           head ++ [Inserted (List.length storm_data); EnsuringGeoIndex;
                    DatabaseError; ConnectionClosed])
      | _ =>
          (insert_many (map to_document storm_data) kept,
           head ++ [Inserted (List.length storm_data); EnsuringGeoIndex;
                    EnsuringTimeIndex; LoadingComplete; ConnectionClosed])
      end
  end.

(** [storm_data]: what the run has extracted when it reaches line 229,
    nothing when it stops before. *)
Definition extracted (archive : option ZipFile) : list TrackPoint :=
  match fst (find_kml_in_kmz KMZ_FILE_PATH archive) with
  | Some (b :: bs) => fst (parse_kml_features (b :: bs))
  | _ => []
  end.

(** Lines 219-271: the documents of the collection after the run, and
    what was printed. *)
Definition main (archive : option ZipFile) (fault : Fault) (docs : list (Document float))
  : list (Document float) * list Msg :=
  let '(kml_bytes, m0) := find_kml_in_kmz KMZ_FILE_PATH archive in
  match kml_bytes with
  | Some (b :: bs) =>
      let '(storm_data, m1) := parse_kml_features (b :: bs) in
      match storm_data with
      | _ :: _ =>
          let '(docs', m2) := database_operations fault storm_data docs in
          (docs', [ReadingKmz KMZ_FILE_PATH] ++ m0 ++ [ParsingKml] ++ m1 ++ m2)
      | [] =>
          (docs, [ReadingKmz KMZ_FILE_PATH] ++ m0 ++ [ParsingKml] ++ m1 ++ [NothingExtracted])
      end
  | _ => (docs, [ReadingKmz KMZ_FILE_PATH] ++ m0 ++ [CouldNotReadKml])
  end.

End Extraction.

End Loader.

(* ================================================================== *)
(** * [backend.py] *)
(* ================================================================== *)

Module Backend.

Import Store Datetime.

Definition DEFAULT_STORM_ID : string := "BESTTRACK_2020".

Section Service.

Variable float : Type.

(** [datetime.fromisoformat]; [None] is [ValueError].  The set of strings
    it accepts depends on the version of the interpreter, so the endpoint
    is modelled over any such function. *)
Variable fromisoformat : string -> option datetime.

(** The handle on the collection: what executing
    [find(f).sort("timestamp", dir).limit(n)] gives, [None] when the store
    raises. *)
Record Collection : Type := mkCollection {
  find : Filter -> Direction -> option nat -> option (list (Document float))
}.

(** A collection that holds [docs] and answers every query. *)
Definition serving (docs : list (Document float)) : Collection :=
  {| find := fun f dir n => Some (run_find docs f dir n) |}.

(** Lines 18-32.  [cached] is the global [track_collection]; [connect] is
    what a connection attempt gives now.  Returns the handle and the new
    value of the global. *)
Definition get_db_collection (cached connect : option Collection)
  : option Collection * option Collection :=
  match cached with
  | Some c => (Some c, Some c)
  | None => (connect, connect)
  end.

(** [request.args]: the parameters present in the URL. *)
Record Request : Type := mkRequest {
  arg_timestamp : option string;
  arg_start : option string;
  arg_end : option string;
  arg_storm_id : option string
}.

Record Properties : Type := mkProperties {
  p_timestamp : option string;
  p_wind_kts : option Z;
  p_pressure_mb : option Z;
  p_storm_id : option string
}.

Record Feature : Type := mkFeature {
  geometry : Geometry float;
  properties : Properties
}.

(** What the view returns: the feature collection (status 200), or an
    error body [{"error": message}] with its status. *)
Inductive Response : Type :=
| FeatureCollection (features : list Feature)
| Error (status : Z) (message : string).

(** The truth value of [request.args.get(name)]. *)
Definition given (p : option string) : bool :=
  match p with
  | Some s => Py.truthy s
  | None => false
  end.

Definition text (p : option string) : string :=
  match p with Some s => s | None => EmptyString end.

(** [datetime.fromisoformat(p.replace('Z', '+00:00'))] *)
Definition parse_instant (p : string) : option datetime :=
  fromisoformat (Py.replace p "Z" "+00:00").

(** Lines 114-129. *)
Definition to_features (result : list (Document float)) : list Feature :=
  flat_map (fun point_data =>
              match d_location point_data with
              | Some g =>
                  [ {| geometry := g;
                       properties := {| p_timestamp := d_timestamp point_data;
                                        p_wind_kts := d_wind_kts point_data;
                                        p_pressure_mb := d_pressure_mb point_data;
                                        p_storm_id := d_storm_id point_data |} |} ]
              | None => []
              end) result.

(** Lines 65-111: the documents selected, or the error response. *)
Definition select (collection : Collection) (req : Request)
  : Response + list (Document float) :=
  let storm_id_param :=
    match arg_storm_id req with Some s => s | None => DEFAULT_STORM_ID end in
  if given (arg_timestamp req) then
    match parse_instant (text (arg_timestamp req)) with
    | None =>
        inl (Error 400 "Invalid timestamp format. Use ISO format like YYYY-MM-DDTHH:MM:SSZ")
    | Some target_time =>
        match find collection
                   (mkFilter storm_id_param None (Some (strftime_iso target_time)))
                   DESCENDING (Some 1%nat) with
        | None => inl (Error 500 "Database query failed")
        | Some (d :: ds) => inr (d :: ds)
        | Some [] =>
            match find collection (mkFilter storm_id_param None None)
                       ASCENDING (Some 1%nat) with
            | None => inl (Error 500 "Database query failed")
            | Some result => inr result
            end
        end
    end
  else if given (arg_start req) && given (arg_end req) then
    match parse_instant (text (arg_start req)) with
    | None =>
        inl (Error 400 "Invalid start/end time format. Use ISO format like YYYY-MM-DDTHH:MM:SSZ")
    | Some start_time =>
        match parse_instant (text (arg_end req)) with
        | None =>
            inl (Error 400 "Invalid start/end time format. Use ISO format like YYYY-MM-DDTHH:MM:SSZ")
        | Some end_time =>
            match find collection
                       (mkFilter storm_id_param (Some (strftime_iso start_time))
                                 (Some (strftime_iso end_time)))
                       ASCENDING None with
            | None => inl (Error 500 "Database query failed")
            | Some result => inr result
            end
        end
    end
  else
    match find collection (mkFilter storm_id_param None None) ASCENDING None with
    | None => inl (Error 500 "Database query failed")
    | Some result => inr result
    end.

(** Lines 41-135.  [collection] is what [get_db_collection()] returned;
    the test [if not collection] is read as [collection is None], the
    test [get_db_collection] itself makes on line 21.  (A driver whose
    collection objects refuse a truth value would raise on line 49 for
    every live collection; that behaviour is not modelled.) *)
Definition get_track_data (collection : option Collection) (req : Request) : Response :=
  match collection with
  | None => Error 500 "Database connection failed"
  | Some c =>
      match select c req with
      | inl err => err
      | inr result => FeatureCollection (to_features result)
      end
  end.

End Service.

Arguments mkCollection {float}.
Arguments find {float}.
Arguments serving {float}.
Arguments get_db_collection {float}.
Arguments mkFeature {float}.
Arguments geometry {float}.
Arguments properties {float}.
Arguments FeatureCollection {float}.
Arguments Error {float}.
Arguments to_features {float}.
Arguments select {float}.
Arguments get_track_data {float}.

(** An instance of the parser, for the instants written with seconds and
    an optional numeric offset, [YYYY-MM-DD?HH:MM:SS] followed by nothing or
    by [+HH:MM] or [-HH:MM]: all versions of the library read these alike.
    Any other string is refused by this instance. *)
Definition two_digits (a b : ascii) : option Z :=
  if Py.is_digit a && Py.is_digit b
  then Some (10 * Py.digit_val a + Py.digit_val b) else None.

Definition offset_of (s : string) : option (option Z) :=
  match s with
  | EmptyString => Some None
  | String sign (String h1 (String h2 (String ":" (String m1 (String m2 EmptyString))))) =>
      match two_digits h1 h2, two_digits m1 m2 with
      | Some h, Some m =>
          if (h <=? 23) && (m <=? 59) then
            if Ascii.eqb sign "+" then Some (Some (60 * h + m))
            else if Ascii.eqb sign "-" then Some (Some (- (60 * h + m)))
            else None
          else None
      | _, _ => None
      end
  | _ => None
  end.

Definition fromisoformat_seconds (s : string) : option datetime :=
  match s with
  | String y1 (String y2 (String y3 (String y4 (String "-"
    (String m1 (String m2 (String "-" (String d1 (String d2 (String _
    (String h1 (String h2 (String ":" (String i1 (String i2 (String ":"
    (String s1 (String s2 rest)))))))))))))))))) =>
      match two_digits y1 y2, two_digits y3 y4, two_digits m1 m2, two_digits d1 d2,
            two_digits h1 h2, two_digits i1 i2, two_digits s1 s2, offset_of rest with
      | Some yh, Some yl, Some m, Some d, Some h, Some i, Some sec, Some tz =>
          let y := 100 * yh + yl in
          if (1 <=? y) && (1 <=? m) && (m <=? 12) && (1 <=? d)
             && (d <=? days_in_month y m) && (h <=? 23) && (i <=? 59) && (sec <=? 59)
          then Some (mkdt y m d h i sec tz) else None
      | _, _, _, _, _, _, _, _ => None
      end
  | _ => None
  end.

End Backend.

(* ================================================================== *)
(** * The notions the written specification uses *)
(* ================================================================== *)

Module Stated.

Import Xml Store Datetime.

(** The pressure rule in the specification's words: slice the value
    between the marker and the next closing cell tag, trim it, allow a
    trailing unit suffix [" mb"], and read an integer when what is left is
    made of digits. *)
Definition spec_pressure (desc_text : string) : option Z :=
  match Py.split_max desc_text Loader.MSLP_MARKER 1 with
  | _ :: after_marker :: _ =>
      match Py.split after_marker "</td>" with
      | cell :: _ =>
          let value := Py.strip cell in
          let value :=
            if Py.endswith value " mb"
            then Py.strip (substring 0 (String.length value - 3) value)
            else value in
          if Py.truthy value && Py.all_chars Py.is_digit value
          then Py.int value else None
      | [] => None
      end
  | _ => None
  end.

(** The instant a stored timestamp denotes: the serialized form
    [YYYY-MM-DDTHH:MM:SSZ] read back. *)
Definition stored_instant {float : Type} (d : Document float) : option Z :=
  match d_timestamp d with
  | Some s => option_map instant (Backend.fromisoformat_seconds (Py.replace s "Z" "+00:00"))
  | None => None
  end.

(** [at_or_before target d]: [d] has an instant and it is not after
    [target]. *)
Definition at_or_before {float : Type} (target : Z) (d : Document float) : bool :=
  match stored_instant d with
  | Some i => i <=? target
  | None => false
  end.

Definition within {float : Type} (lo hi : Z) (d : Document float) : bool :=
  match stored_instant d with
  | Some i => (lo <=? i) && (i <=? hi)
  | None => false
  end.

(** A value whose fields are those of a date and a time of day. *)
Definition well_formed (t : datetime) : Prop :=
  1 <= year t <= 9999 /\ 1 <= month t <= 12
  /\ 1 <= day t <= days_in_month (year t) (month t)
  /\ 0 <= hour t <= 23 /\ 0 <= minute t <= 59 /\ 0 <= second t <= 59.

(** A value in UTC, or a naive one (which the endpoint prints as UTC). *)
Definition in_utc (t : datetime) : Prop := tzinfo t = None \/ tzinfo t = Some 0.

(** [d] carries the timestamp the loader writes for the instant [t]. *)
Definition written_at {float : Type} (t : datetime) (d : Document float) : Prop :=
  d_timestamp d = Some (strftime_iso t) /\ well_formed t /\ in_utc t.

(** Lexicographic combination of two comparisons. *)
Definition then_cmp (c d : comparison) : comparison :=
  match c with Eq => d | _ => c end.

(** A document without any namespace declaration: no element declares
    one, hence none is in one. *)
Fixpoint plain (n : node) : bool :=
  match n with
  | Text _ => true
  | Element ns _ m cs =>
      match ns, m with
      | None, [] => forallb plain cs
      | _, _ => false
      end
  end.

Definition named (local : string) (n : node) : bool :=
  match n with
  | Text _ => false
  | Element _ tag _ _ => String.eqb tag local
  end.

(** The lines that report a step of the store session (lines 231-266
    of the loader). *)
Definition store_step (m : Loader.Msg) : bool :=
  match m with
  | Loader.Connecting | Loader.Connected | Loader.DeletingOld _ | Loader.Deleted _
  | Loader.Inserting _ | Loader.Inserted _ | Loader.EnsuringGeoIndex
  | Loader.EnsuringTimeIndex | Loader.LoadingComplete | Loader.ConnectionTimeout
  | Loader.ConnectionFailure | Loader.DatabaseError | Loader.ConnectionClosed => true
  | _ => false
  end.

(** The request carries a malformed instant in one of its three time
    parameters. *)
Definition malformed (fromisoformat : string -> option datetime) (p : option string) : Prop :=
  exists s, p = Some s /\ Backend.parse_instant fromisoformat s = None.

Definition status {float : Type} (r : Backend.Response float) : Z :=
  match r with
  | Backend.FeatureCollection _ => 200
  | Backend.Error st _ => st
  end.

End Stated.

(* ================================================================== *)
(** * Instances and sample data for the examples *)
(* ================================================================== *)

Module Sample.

Import Xml Store Datetime.

(** Coordinates written in whole degrees: an instance of [float] and of
    its parser that is enough for the examples. *)
Definition degrees : Type := Z.
Definition degrees_of_str : string -> option degrees := Py.int.

(** The codecs on seven-bit text, where both encodings agree. *)
Definition decode (b : list Byte.byte) : string := string_of_list_byte b.
Definition encode (s : string) : list Byte.byte := list_byte_of_string s.

(** A parser that knows the documents of [known] and refuses any other
    input. *)
Fixpoint parse_known (known : list (string * node)) (b : list Byte.byte) : option node :=
  match known with
  | [] => None
  | (source, tree) :: rest =>
      if String.eqb source (decode b) then Some tree else parse_known rest b
  end.

Definition cell_table (dtg intensity mslp : string) : string :=
  ("<table><tr><td><B>DTG </B></td><td>" ++ dtg ++ "</td></tr>"
   ++ "<tr><td><B>Intensity </B></td><td>" ++ intensity ++ "</td></tr>"
   ++ "<tr><td><B>MSLP </B></td><td>" ++ mslp ++ "</td></tr></table>")%string.

Definition placemark_src (desc coords : string) : string :=
  ("<Placemark><description><![CDATA[" ++ desc ++ "]]></description>"
   ++ "<Point><coordinates>" ++ coords ++ "</coordinates></Point></Placemark>")%string.

Definition placemark (q : option string) (desc coords : string) : node :=
  Element q "Placemark" []
    [ Element q "description" [] [Text desc];
      Element q "Point" [] [Element q "coordinates" [] [Text coords]] ].

Definition desc_full : string := cell_table "2020112512Z" "65" "987 mb".
Definition desc_no_dtg : string :=
  "<table><tr><td><B>Intensity </B></td><td>30</td></tr></table>".
Definition desc_bare : string := cell_table "2020112518Z" "" "N/A".

(** A track without namespace declarations: three placemarks, the second
    without a DTG cell. *)
Definition track_src : string :=
  ("<kml><Document>" ++ placemark_src desc_full "88,12,0"
   ++ placemark_src desc_no_dtg "89,13,0"
   ++ placemark_src desc_bare "90,14,0" ++ "</Document></kml>")%string.

Definition track_tree : node :=
  Element None "kml" []
    [ Element None "Document" []
        [ placemark None desc_full "88,12,0";
          placemark None desc_no_dtg "89,13,0";
          placemark None desc_bare "90,14,0" ] ].

(** A well-formed document without placemarks. *)
Definition empty_src : string := "<kml><Document></Document></kml>".
Definition empty_tree : node := Element None "kml" [] [Element None "Document" [] []].

Definition KML_NS : string := "http://www.opengis.net/kml/2.2".

(** The same track under the default namespace. *)
Definition qualified_tree : node :=
  Element (Some KML_NS) "kml" [(None, KML_NS)]
    [ Element (Some KML_NS) "Document" [(None, KML_NS)]
        [ placemark (Some KML_NS) desc_full "88,12,0" ] ].

Definition known : list (string * node) :=
  [ (track_src, track_tree); (empty_src, empty_tree) ].

Definition parse_kml_features :=
  Loader.parse_kml_features degrees degrees_of_str
    (fun b => Some (decode b)) encode decode (fun s => Some (encode s))
    (parse_known known).

Definition main :=
  Loader.main degrees degrees_of_str
    (fun b => Some (decode b)) encode decode (fun s => Some (encode s))
    (parse_known known).

Definition extracted :=
  Loader.extracted degrees degrees_of_str
    (fun b => Some (decode b)) encode decode (fun s => Some (encode s))
    (parse_known known).

Definition track_kmz : Loader.ZipFile :=
  [ ("legend.png"%string, encode "PNG"); ("doc.KML"%string, encode track_src) ].

Definition empty_kmz : Loader.ZipFile := [ ("doc.kml"%string, encode empty_src) ].

(** A stored point of storm [storm] at the UTC hour [h] of 25 November
    2020, as the loader writes it. *)
Definition point_at (storm : string) (h : Z) : Document degrees :=
  Loader.to_document degrees
    {| Loader.storm_id := storm;
       Loader.timestamp := strftime_iso (mkdt 2020 11 25 h 0 0 (Some 0));
       Loader.latitude := 12;
       Loader.longitude := 88;
       Loader.location := mkGeometry "Point" [88; 12];
       Loader.wind_kts := Some 65;
       Loader.pressure_mb := None |}.

Definition feature_at (storm : string) (h : Z) : Backend.Feature degrees :=
  Backend.mkFeature (mkGeometry "Point" [88; 12])
    (Backend.mkProperties (Some (strftime_iso (mkdt 2020 11 25 h 0 0 (Some 0))))
                          (Some 65) None (Some storm)).

Definition get_track_data :=
  Backend.get_track_data (float := degrees) Backend.fromisoformat_seconds.

End Sample.

(* ================================================================== *)
(** * The endpoint and its connection, request after request *)
(* ================================================================== *)

Module Server.

Import Store Datetime.

Section Connection.

Variable float : Type.
Variable fromisoformat : string -> option datetime.

(** One request as the view handles it: line 48 calls
    [get_db_collection] (lines 18-32) and the rest of the view works on
    what it returns.  [cached] is the global [track_collection] when the
    request arrives, [connect] what a connection attempt gives at that
    moment; the result is the response and the global afterwards. *)
Definition handle (cached connect : option (Backend.Collection float))
           (req : Backend.Request)
  : Backend.Response float * option (Backend.Collection float) :=
  let '(collection, cached') := Backend.get_db_collection cached connect in
  (Backend.get_track_data fromisoformat collection req, cached').

(** The requests of a server's life in order of arrival, each paired with
    what a connection attempt would give when it arrives: the responses
    and the global at the end. *)
Fixpoint serve (cached : option (Backend.Collection float))
         (calls : list (option (Backend.Collection float) * Backend.Request))
  : list (Backend.Response float) * option (Backend.Collection float) :=
  match calls with
  | [] => ([], cached)
  | (connect, req) :: rest =>
      let '(response, cached') := handle cached connect req in
      let '(responses, final) := serve cached' rest in
      (response :: responses, final)
  end.

(** Lines 139-144: a first connection is tried when the server starts,
    before any request. *)
Definition run (at_start : option (Backend.Collection float))
           (calls : list (option (Backend.Collection float) * Backend.Request))
  : list (Backend.Response float) * option (Backend.Collection float) :=
  serve (snd (Backend.get_db_collection None at_start)) calls.

End Connection.

Arguments handle {float}.
Arguments serve {float}.
Arguments run {float}.

End Server.

(* ================================================================== *)
(** * Shapes of documents used to state further properties *)
(* ================================================================== *)

Module Notions.

Import Xml.

(** A document none of whose elements is in a namespace, whatever its
    elements declare. *)
Fixpoint unqualified (n : node) : bool :=
  match n with
  | Text _ => true
  | Element ns _ _ cs =>
      match ns with
      | None => forallb unqualified cs
      | Some _ => false
      end
  end.

End Notions.

(* ================================================================== *)
(** * Properties *)
(* ================================================================== *)

Import Xml Store Datetime.

(** ** Digits *)

Lemma is_digit_cases (c : ascii) :
  Py.is_digit c = true ->
  In c ["0"; "1"; "2"; "3"; "4"; "5"; "6"; "7"; "8"; "9"]%char.
Proof.
  destruct c as [[] [] [] [] [] [] [] []]; vm_compute; intros H;
    try discriminate H; tauto.
Qed.

Ltac digit_cases H :=
  apply is_digit_cases in H; simpl in H;
  repeat (destruct H as [H | H]; [ subst | ]); [ .. | contradiction ].

Lemma digit_of_val (c : ascii) : Py.is_digit c = true -> digit (Py.digit_val c) = c.
Proof. intros H. digit_cases H; reflexivity. Qed.

Lemma digit_val_range (c : ascii) : Py.is_digit c = true -> 0 <= Py.digit_val c <= 9.
Proof. intros H. digit_cases H; vm_compute; split; discriminate. Qed.

Lemma digit_not_space (c : ascii) : Py.is_digit c = true -> Py.isspace c = false.
Proof. intros H. digit_cases H; reflexivity. Qed.

Lemma digit_mod (n : Z) : digit (n mod 10) = digit n.
Proof. unfold digit. now rewrite Z.mod_mod. Qed.

Lemma re_m_chars (a b : ascii) :
  re_m a b = true -> Py.is_digit a = true /\ Py.is_digit b = true.
Proof.
  unfold re_m. intros H. apply orb_true_iff in H.
  destruct H as [H | H]; apply andb_true_iff in H; destruct H as [Ha Hb];
    apply Ascii.eqb_eq in Ha; subst a; split; try reflexivity;
    unfold Py.is_digit, Py.between in *; lia.
Qed.

Lemma re_H_chars (a b : ascii) :
  re_H a b = true -> Py.is_digit a = true /\ Py.is_digit b = true.
Proof.
  unfold re_H. intros H. apply orb_true_iff in H.
  destruct H as [H | H]; apply andb_true_iff in H; destruct H as [Ha Hb].
  - apply Ascii.eqb_eq in Ha; subst a; split; try reflexivity.
    unfold Py.is_digit, Py.between in *; lia.
  - split; [ unfold Py.is_digit, Py.between in *; lia | exact Hb ].
Qed.

Lemma re_d_chars (a b : ascii) :
  re_d a b = true -> (a = " "%char \/ Py.is_digit a = true) /\ Py.is_digit b = true.
Proof.
  unfold re_d. intros H.
  repeat (apply orb_true_iff in H; destruct H as [H | H]);
    apply andb_true_iff in H; destruct H as [Ha Hb].
  - apply Ascii.eqb_eq in Ha; subst a. split; [ right; reflexivity | ].
    unfold Py.is_digit, Py.between in *; lia.
  - split; [ right | exact Hb ]. unfold Py.is_digit, Py.between in *; lia.
  - apply Ascii.eqb_eq in Ha; subst a. split; [ right; reflexivity | ].
    unfold Py.is_digit, Py.between in *; lia.
  - apply Ascii.eqb_eq in Ha; subst a. split; [ left; reflexivity | ].
    unfold Py.is_digit, Py.between in *; lia.
Qed.

#[local] Abbreviation two a b := (String a (String b EmptyString)) (only parsing).

(** What [int] reads in a month, and how the month prints back. *)
Lemma month_field (a b : ascii) :
  re_m a b = true ->
  Py.int (two a b) = Some (field2 a b) /\ pad2 (field2 a b) = two a b.
Proof.
  intros H. destruct (re_m_chars _ _ H) as [Ha Hb].
  digit_cases Ha; digit_cases Hb; vm_compute in H; try discriminate H;
    split; reflexivity.
Qed.

Lemma hour_field (a b : ascii) :
  re_H a b = true ->
  Py.int (two a b) = Some (field2 a b) /\ pad2 (field2 a b) = two a b.
Proof.
  intros H. destruct (re_H_chars _ _ H) as [Ha Hb].
  digit_cases Ha; digit_cases Hb; vm_compute in H; try discriminate H;
    split; reflexivity.
Qed.

(** A day may be written with a leading blank; it prints with a zero. *)
Lemma day_field (a b : ascii) :
  re_d a b = true ->
  Py.int (two a b) = Some (field2 a b)
  /\ pad2 (field2 a b) = Py.replace (two a b) " " "0".
Proof.
  intros H. destruct (re_d_chars _ _ H) as [[Ha | Ha] Hb].
  - subst a. digit_cases Hb; vm_compute in H; try discriminate H; split; reflexivity.
  - digit_cases Ha; digit_cases Hb; vm_compute in H; try discriminate H;
      split; reflexivity.
Qed.

#[local] Abbreviation year_of a b c d :=
  (1000 * Py.digit_val a + 100 * Py.digit_val b + 10 * Py.digit_val c + Py.digit_val d)
  (only parsing).

Lemma year_field (a b c d : ascii) :
  Py.is_digit a = true -> Py.is_digit b = true ->
  Py.is_digit c = true -> Py.is_digit d = true ->
  Py.int (String a (String b (two c d))) = Some (year_of a b c d)
  /\ pad4 (year_of a b c d) = String a (String b (two c d)).
Proof.
  intros Ha Hb Hc Hd.
  pose proof (digit_val_range _ Ha) as Ra. pose proof (digit_val_range _ Hb) as Rb.
  pose proof (digit_val_range _ Hc) as Rc. pose proof (digit_val_range _ Hd) as Rd.
  split.
  - unfold Py.int, Py.strip.
    assert (Hl : Py.lstrip (String a (String b (String c (String d EmptyString))))
                 = String a (String b (String c (String d EmptyString)))).
    { simpl. now rewrite (digit_not_space _ Ha). }
    rewrite Hl.
    assert (Hr : Py.rstrip (String a (String b (String c (String d EmptyString))))
                 = String a (String b (String c (String d EmptyString)))).
    { simpl. now rewrite (digit_not_space _ Hd). }
    rewrite Hr.
    assert (Hi : Py.int_digits 0 false (String a (String b (String c (String d EmptyString))))
                 = Some (year_of a b c d)).
    { cbn [Py.int_digits]. rewrite Ha, Hb, Hc, Hd. f_equal. lia. }
    rewrite <- Hi. clear - Ha.
    digit_cases Ha; reflexivity.
  - unfold pad4, pad2.
    rewrite <- (digit_mod (year_of a b c d / 1000)), <- (digit_mod (year_of a b c d / 100)),
            <- (digit_mod (year_of a b c d / 10)), <- (digit_mod (year_of a b c d)).
    replace (year_of a b c d / 1000 mod 10) with (Py.digit_val a)
      by (Z.div_mod_to_equations; lia).
    replace (year_of a b c d / 100 mod 10) with (Py.digit_val b)
      by (Z.div_mod_to_equations; lia).
    replace (year_of a b c d / 10 mod 10) with (Py.digit_val c)
      by (Z.div_mod_to_equations; lia).
    replace (year_of a b c d mod 10) with (Py.digit_val d)
      by (Z.div_mod_to_equations; lia).
    now rewrite !digit_of_val.
Qed.

(** ** The ranges of the fields *)

Lemma month_range (a b : ascii) : re_m a b = true -> 1 <= field2 a b <= 12.
Proof.
  intros H. destruct (re_m_chars _ _ H) as [Ha Hb].
  digit_cases Ha; digit_cases Hb; vm_compute in H; try discriminate H;
    vm_compute; split; discriminate.
Qed.

Lemma hour_range (a b : ascii) : re_H a b = true -> 0 <= field2 a b <= 23.
Proof.
  intros H. destruct (re_H_chars _ _ H) as [Ha Hb].
  digit_cases Ha; digit_cases Hb; vm_compute in H; try discriminate H;
    vm_compute; split; discriminate.
Qed.

Lemma day_range (a b : ascii) : re_d a b = true -> 1 <= field2 a b.
Proof.
  intros H. destruct (re_d_chars _ _ H) as [[Ha | Ha] Hb].
  - subst a. digit_cases Hb; vm_compute in H; try discriminate H;
      vm_compute; discriminate.
  - digit_cases Ha; digit_cases Hb; vm_compute in H; try discriminate H;
      vm_compute; discriminate.
Qed.

(** What [strptime] accepts is a date and an hour. *)
Lemma strptime_well_formed (s : string) (t : datetime) :
  strptime_YmdH s = Some t -> Stated.well_formed t /\ tzinfo t = None.
Proof.
  unfold strptime_YmdH.
  do 10 (destruct s as [| ? s]; [ discriminate | ]).
  destruct s; [ | discriminate ].
  match goal with
  | |- (if ?c then _ else _) = _ -> _ => destruct c eqn:Hre; [ | discriminate ]
  end.
  cbv zeta.
  match goal with
  | |- (if ?c then _ else _) = _ -> _ => destruct c eqn:Hv; [ | discriminate ]
  end.
  intros H.
  apply (f_equal (fun o => match o with Some d => d | None => t end)) in H.
  cbv beta iota in H. subst t.
  do 6 (apply andb_true_iff in Hre; destruct Hre as [Hre ?]).
  apply andb_true_iff in Hv. destruct Hv as [Hy Hd].
  apply Z.leb_le in Hy, Hd.
  repeat match goal with
         | H : Py.is_digit _ = true |- _ => apply digit_val_range in H
         end.
  match goal with H : re_m _ _ = true |- _ => apply month_range in H end.
  match goal with H : re_d _ _ = true |- _ => apply day_range in H end.
  match goal with H : re_H _ _ = true |- _ => apply hour_range in H end.
  unfold Stated.well_formed. cbn [year month day hour minute second tzinfo].
  repeat split; lia.
Qed.

Lemma extract_timestamp_well_formed (n : Z) (desc : string) (t : datetime)
      (msgs : list Loader.Msg) :
  Loader.extract_timestamp n desc = (Some t, msgs) ->
  Stated.well_formed t /\ tzinfo t = Some 0.
Proof.
  unfold Loader.extract_timestamp.
  destruct (Py.contains Loader.DTG_MARKER desc); [ | discriminate ].
  destruct (nth_error (Py.split desc Loader.DTG_MARKER) 1) as [part |]; [ | discriminate ].
  destruct (nth_error (Py.split part "</td>") 0) as [cell |]; [ | discriminate ].
  cbv zeta.
  destruct (Py.endswith (Py.strip cell) "Z" && Nat.eqb (String.length (Py.strip cell)) 11);
    [ | discriminate ].
  destruct (strptime_YmdH (Py.but_last (Py.strip cell))) as [dt |] eqn:Hs;
    [ | discriminate ].
  intros H. injection H as <- _.
  apply strptime_well_formed in Hs. destruct Hs as [W _].
  split; [ exact W | reflexivity ].
Qed.

(** ** The end and the length of a value *)

Lemma endswith_cons (a b z : ascii) (s : string) :
  Py.endswith (String a (String b s)) (String z EmptyString)
  = Py.endswith (String b s) (String z EmptyString).
Proof.
  cbn [Py.endswith]. cbn [String.eqb]. now destruct (Ascii.eqb a z).
Qed.

Lemma endswith_single (a z : ascii) :
  Py.endswith (String a EmptyString) (String z EmptyString) = true -> a = z.
Proof.
  cbn [Py.endswith String.eqb]. intros H. apply Ascii.eqb_eq.
  destruct (Ascii.eqb a z); [ reflexivity | discriminate H ].
Qed.

Lemma length_11 (v : string) :
  String.length v = 11%nat ->
  exists c0 c1 c2 c3 c4 c5 c6 c7 c8 c9 c10,
    v = String c0 (String c1 (String c2 (String c3 (String c4 (String c5
        (String c6 (String c7 (String c8 (String c9 (String c10 EmptyString)))))))))).
Proof.
  intros H.
  do 11 (destruct v as [| ? v]; [ discriminate H | ]).
  destruct v; [ | discriminate H ].
  repeat eexists.
Qed.

(** ** The date-time group *)



(** ** Pressure *)

(** The two values the specification quotes. *)
Example pressure_with_unit :
  Loader.extract_pressure "<td><B>MSLP </B></td><td>987 mb</td>" = Some 987.
Proof. reflexivity. Qed.

Example pressure_not_available :
  Loader.extract_pressure "<td><B>MSLP </B></td><td>N/A</td>" = None.
Proof. reflexivity. Qed.

(** C8.  The pressure block looks for [" mb</td>"] in everything that
    follows the marker, not only up to the closing tag of the MSLP cell:
    a bare value followed, further on, by a cell that carries the unit is
    cut at that later cell and read as unset, where the rule as written
    reads 987. *)
Theorem pressure_cut_at_a_later_unit :
  let desc_text :=
    ("<tr><td><B>MSLP </B></td><td>987</td></tr>"
     ++ "<tr><td><B>POCI </B></td><td>1008 mb</td></tr>")%string in
  Loader.extract_pressure desc_text = None
  /\ Stated.spec_pressure desc_text = Some 987
  /\ Loader.extract_pressure "<tr><td><B>MSLP </B></td><td>987</td></tr>" = Some 987.
Proof. vm_compute. repeat split. Qed.

(** ** Placemarks *)

Section Placemarks.

Variable float : Type.
Variable float_of_str : string -> option float.

#[local] Abbreviation get_coordinates := (Loader.get_coordinates float float_of_str).
#[local] Abbreviation process_placemark := (Loader.process_placemark float float_of_str).
#[local] Abbreviation process_all := (Loader.process_all float float_of_str).

(** What the loop body appends, read off its inputs. *)
Lemma process_placemark_eq (namespaces : option string) (n : Z) (pm : node) :
  fst (process_placemark namespaces n pm) =
  match fst (get_coordinates namespaces n pm),
        Loader.f_timestamp (fst (Loader.parse_description namespaces n pm)) with
  | (Some lon, Some lat), Some t =>
      Some (Loader.make_record float lat lon t
              (Loader.f_wind_kts (fst (Loader.parse_description namespaces n pm)))
              (Loader.f_pressure_mb (fst (Loader.parse_description namespaces n pm))))
  | _, _ => None
  end.
Proof.
  unfold Loader.process_placemark.
  destruct (get_coordinates namespaces n pm) as [[lon lat] mc].
  destruct (Loader.parse_description namespaces n pm) as [fields md].
  cbn [fst snd].
  destruct lat as [la |], lon as [lo |], (Loader.f_timestamp fields) as [t |];
    reflexivity.
Qed.

(** The number quoted in the warnings plays no part in what is read. *)
Lemma extract_timestamp_count (n k : Z) (desc : string) :
  fst (Loader.extract_timestamp n desc) = fst (Loader.extract_timestamp k desc).
Proof.
  unfold Loader.extract_timestamp.
  destruct (Py.contains Loader.DTG_MARKER desc); [ | reflexivity ].
  destruct (nth_error (Py.split desc Loader.DTG_MARKER) 1) as [part |]; [ | reflexivity ].
  destruct (nth_error (Py.split part "</td>") 0) as [cell |]; [ | reflexivity ].
  cbv zeta.
  destruct (Py.endswith (Py.strip cell) "Z" && Nat.eqb (String.length (Py.strip cell)) 11);
    [ | reflexivity ].
  destruct (strptime_YmdH (Py.but_last (Py.strip cell))); reflexivity.
Qed.

Lemma parse_description_count (namespaces : option string) (n k : Z) (pm : node) :
  fst (Loader.parse_description namespaces n pm)
  = fst (Loader.parse_description namespaces k pm).
Proof.
  unfold Loader.parse_description.
  destruct (Loader.get_description namespaces pm) as [desc |]; [ | reflexivity ].
  destruct (Py.truthy desc); [ | reflexivity ].
  pose proof (extract_timestamp_count n k desc) as H.
  destruct (Loader.extract_timestamp n desc) as [t1 m1].
  destruct (Loader.extract_timestamp k desc) as [t2 m2].
  cbn [fst] in *. now subst.
Qed.

Lemma get_coordinates_count (namespaces : option string) (n k : Z) (pm : node) :
  fst (get_coordinates namespaces n pm) = fst (get_coordinates namespaces k pm).
Proof.
  unfold Loader.get_coordinates.
  destruct (Loader.qualified_then_bare namespaces _) as [| first rest]; [ reflexivity | ].
  destruct (Py.split (Py.strip first) ",") as [| lon_str [| lat_str tail]];
    try reflexivity.
  destruct (float_of_str lon_str); [ | reflexivity ].
  destruct (float_of_str lat_str); reflexivity.
Qed.

Lemma process_placemark_count (namespaces : option string) (n k : Z) (pm : node) :
  fst (process_placemark namespaces n pm) = fst (process_placemark namespaces k pm).
Proof.
  rewrite !process_placemark_eq.
  now rewrite (get_coordinates_count namespaces n k), (parse_description_count namespaces n k).
Qed.

(** The records of the loop are those of its placemarks, in order. *)
Lemma process_all_records (namespaces : option string) (pms : list node) (n : Z) :
  fst (process_all namespaces n pms)
  = flat_map (fun pm => match fst (process_placemark namespaces 0 pm) with
                        | Some r => [r]
                        | None => []
                        end) pms.
Proof.
  revert n. induction pms as [| pm rest IH]; intros n; [ reflexivity | ].
  cbn [Loader.process_all flat_map].
  specialize (IH (n + 1)).
  pose proof (process_placemark_count namespaces (n + 1) 0 pm) as Hc.
  destruct (process_placemark namespaces (n + 1) pm) as [r m].
  destruct (process_all namespaces (n + 1) rest) as [rs ms].
  cbn [fst] in *. rewrite <- Hc, <- IH. now destruct r.
Qed.

Lemma process_all_In (namespaces : option string) (n k : Z) (pms : list node)
      (r : Loader.TrackPoint float) :
  In r (fst (process_all namespaces k pms))
  <-> exists pm : node, In pm pms /\ fst (process_placemark namespaces n pm) = Some r.
Proof.
  rewrite process_all_records, in_flat_map.
  split; intros (pm & Hin & H); exists pm; (split; [ exact Hin | ]).
  - rewrite (process_placemark_count namespaces n 0).
    destruct (fst (process_placemark namespaces 0 pm)); [ | contradiction ].
    destruct H as [-> | []]. reflexivity.
  - rewrite <- (process_placemark_count namespaces n 0), H. now left.
Qed.

(** A record carries the coordinates it was built from, their geometry
    and the storm name. *)
Lemma process_placemark_record (namespaces : option string) (n : Z) (pm : node)
      (r : Loader.TrackPoint float) :
  fst (process_placemark namespaces n pm) = Some r ->
  fst (get_coordinates namespaces n pm)
  = (Some (Loader.longitude float r), Some (Loader.latitude float r))
  /\ Loader.location float r
     = mkGeometry "Point" [Loader.longitude float r; Loader.latitude float r]
  /\ Loader.storm_id float r = Loader.STORM_NAME_FOR_DB.
Proof.
  intros H. rewrite process_placemark_eq in H.
  destruct (fst (get_coordinates namespaces n pm)) as [[lo |] [la |]];
    try discriminate H.
  destruct (Loader.f_timestamp (fst (Loader.parse_description namespaces n pm)));
    [ | discriminate H ].
  injection H as <-. cbn. repeat split.
Qed.

(** Every record of a run comes from one of its placemarks. *)
Lemma parse_kml_features_In
      (utf8_decode : list Byte.byte -> option string)
      (utf8_encode : string -> list Byte.byte)
      (latin1_decode : list Byte.byte -> string)
      (latin1_encode : string -> option (list Byte.byte))
      (etree_fromstring : list Byte.byte -> option node)
      (kml_content_bytes : list Byte.byte) (r : Loader.TrackPoint float) :
  In r (fst (Loader.parse_kml_features float float_of_str utf8_decode utf8_encode
               latin1_decode latin1_encode etree_fromstring kml_content_bytes)) ->
  exists namespaces pm, fst (process_placemark namespaces 0 pm) = Some r.
Proof.
  intros Hin. unfold Loader.parse_kml_features in Hin.
  destruct (Loader.is_nil kml_content_bytes); [ contradiction | ].
  destruct (Loader.parse_root _ _ _ _ _ kml_content_bytes) as [[root |] m];
    [ | contradiction ].
  unfold Loader.extract_records in Hin.
  destruct (Loader.find_placemarks root) as [[pms namespaces] m0].
  destruct (process_all namespaces 0 pms) as [records ms] eqn:Hall.
  cbn [fst] in Hin.
  assert (Hin' : In r (fst (process_all namespaces 0 pms))) by now rewrite Hall.
  apply (process_all_In namespaces 0) in Hin'. destruct Hin' as (pm & _ & Hr).
  now exists namespaces, pm.
Qed.

(** Every record of the loop carries the timestamp of a well-formed
    instant in UTC. *)
Lemma process_placemark_written (namespaces : option string) (n : Z) (pm : node)
      (r : Loader.TrackPoint float) :
  fst (Loader.process_placemark float float_of_str namespaces n pm) = Some r ->
  exists t, Stated.written_at t (Loader.to_document float r).
Proof.
  unfold Loader.process_placemark.
  destruct (Loader.get_coordinates float float_of_str namespaces n pm) as [[lon lat] mc].
  assert (Hd : forall t, Loader.f_timestamp (fst (Loader.parse_description namespaces n pm))
                         = Some t -> Stated.well_formed t /\ tzinfo t = Some 0).
  { intros t. unfold Loader.parse_description.
    destruct (Loader.get_description namespaces pm) as [desc |]; [ | discriminate ].
    destruct (Py.truthy desc); [ | discriminate ].
    destruct (Loader.extract_timestamp n desc) as [ts m] eqn:He.
    cbn [fst Loader.f_timestamp]. intros ->.
    now apply extract_timestamp_well_formed in He. }
  destruct (Loader.parse_description namespaces n pm) as [fields md].
  cbn [fst] in Hd.
  destruct lat as [la |], lon as [lo |], (Loader.f_timestamp fields) as [t |];
    cbn [fst]; try discriminate.
  intros H. injection H as <-.
  destruct (Hd t eq_refl) as [W U].
  exists t. unfold Stated.written_at, Loader.to_document, Loader.make_record.
  cbn [d_timestamp Loader.timestamp]. unfold astimezone_utc. rewrite U.
  split; [ reflexivity | ]. split; [ exact W | right; exact U ].
Qed.

(** C3.  For every placemark the loop processes, a record is appended
    exactly when the longitude, the latitude and the timestamp were all
    parsed; it then carries them together with whatever wind and
    pressure were read, set or not.  When one of the three is missing
    nothing is appended at all, and the records of a run are those of the
    placemarks that pass. *)
Theorem record_iff_coordinates_and_timestamp :
  forall (namespaces : option string) (n : Z) (pm : node),
    let fields := fst (Loader.parse_description namespaces n pm) in
    (forall r : Loader.TrackPoint float,
        fst (Loader.process_placemark float float_of_str namespaces n pm) = Some r
        <-> exists (lon lat : float) (t : datetime),
              fst (Loader.get_coordinates float float_of_str namespaces n pm)
              = (Some lon, Some lat)
              /\ Loader.f_timestamp fields = Some t
              /\ r = Loader.make_record float lat lon t
                       (Loader.f_wind_kts fields) (Loader.f_pressure_mb fields))
    /\ (fst (Loader.process_placemark float float_of_str namespaces n pm) = None
        <-> fst (fst (Loader.get_coordinates float float_of_str namespaces n pm)) = None
            \/ snd (fst (Loader.get_coordinates float float_of_str namespaces n pm)) = None
            \/ Loader.f_timestamp fields = None)
    /\ (forall (pms : list node) (k : Z) (r : Loader.TrackPoint float),
           In r (fst (Loader.process_all float float_of_str namespaces k pms))
           <-> exists pm' : node,
                 In pm' pms
                 /\ fst (Loader.process_placemark float float_of_str namespaces n pm') = Some r).
Proof.
  intros namespaces n pm fields. subst fields.
  split; [ | split; [ | intros pms k r; apply process_all_In ] ].
  - intros r. rewrite process_placemark_eq.
    destruct (fst (get_coordinates namespaces n pm)) as [[lo |] [la |]];
      destruct (Loader.f_timestamp (fst (Loader.parse_description namespaces n pm)))
      as [t |];
      (split;
       [ intros H; try discriminate H; injection H as <-; now exists lo, la, t
       | intros (lo' & la' & t' & H1 & H2 & H3); try discriminate H1; try discriminate H2;
         injection H1 as <- <-; injection H2 as <-; now subst r ]).
  - rewrite process_placemark_eq.
    destruct (fst (get_coordinates namespaces n pm)) as [[lo |] [la |]];
      destruct (Loader.f_timestamp (fst (Loader.parse_description namespaces n pm)))
      as [t |];
      cbn [fst snd];
      (split; [ intros H; try discriminate H; tauto
              | intros [H | [H | H]]; try discriminate H; reflexivity ]).
Qed.

(** C10.  Every record the extraction returns has the point geometry
    built from its own longitude and latitude, in that order, and the
    configured storm identifier; and those two numbers are the ones
    parsed from the coordinates of the placemark it comes from. *)
Theorem record_geometry_and_storm :
  (forall (utf8_decode : list Byte.byte -> option string)
          (utf8_encode : string -> list Byte.byte)
          (latin1_decode : list Byte.byte -> string)
          (latin1_encode : string -> option (list Byte.byte))
          (etree_fromstring : list Byte.byte -> option node)
          (kml_content_bytes : list Byte.byte) (r : Loader.TrackPoint float),
      In r (fst (Loader.parse_kml_features float float_of_str utf8_decode utf8_encode
                   latin1_decode latin1_encode etree_fromstring kml_content_bytes)) ->
      Loader.location float r
      = mkGeometry "Point" [Loader.longitude float r; Loader.latitude float r]
      /\ Loader.storm_id float r = Loader.STORM_NAME_FOR_DB)
  /\ (forall (namespaces : option string) (n : Z) (pm : node) (r : Loader.TrackPoint float),
         fst (Loader.process_placemark float float_of_str namespaces n pm) = Some r ->
         fst (Loader.get_coordinates float float_of_str namespaces n pm)
         = (Some (Loader.longitude float r), Some (Loader.latitude float r))
         /\ Loader.location float r
            = mkGeometry "Point" [Loader.longitude float r; Loader.latitude float r]
         /\ Loader.storm_id float r = Loader.STORM_NAME_FOR_DB).
Proof.
  split; [ | exact process_placemark_record ].
  intros utf8_decode utf8_encode latin1_decode latin1_encode etree_fromstring b r Hin.
  apply parse_kml_features_In in Hin. destruct Hin as (namespaces & pm & Hr).
  now destruct (process_placemark_record _ _ _ _ Hr) as (_ & Hloc & Hid).
Qed.

End Placemarks.

(** The third placemark of the sample track has neither wind nor pressure
    and is recorded all the same. *)
Lemma record_iff_coordinates_and_timestamp_witness :
  fst (Loader.process_placemark Sample.degrees Sample.degrees_of_str None 3
         (Sample.placemark None Sample.desc_bare "90,14,0"))
  = Some (Loader.make_record Sample.degrees 14 90 (mkdt 2020 11 25 18 0 0 (Some 0))
            None None).
Proof.
  apply (proj1 (record_iff_coordinates_and_timestamp Sample.degrees Sample.degrees_of_str
                  None 3 (Sample.placemark None Sample.desc_bare "90,14,0"))).
  exists 90, 14, (mkdt 2020 11 25 18 0 0 (Some 0)).
  repeat split.
Defined.

(** Wind and pressure are read, or not, independently of each other: the
    four combinations on a placemark that is recorded. *)
Example wind_and_pressure_independent :
  map (fun mslp_intensity =>
         option_map (fun r => (Loader.wind_kts Sample.degrees r,
                               Loader.pressure_mb Sample.degrees r))
           (fst (Loader.process_placemark Sample.degrees Sample.degrees_of_str None 1
                   (Sample.placemark None
                      (Sample.cell_table "2020112512Z" (fst mslp_intensity)
                                         (snd mslp_intensity))
                      "88,12,0"))))
      [("65", "987 mb"); ("65", "N/A"); ("", "987"); ("n/a", "")]%string
  = [Some (Some 65, Some 987); Some (Some 65, None);
     Some (None, Some 987); Some (None, None)].
Proof. reflexivity. Qed.

Lemma record_geometry_and_storm_witness :
  Loader.location Sample.degrees
    (Loader.make_record Sample.degrees 12 88 (mkdt 2020 11 25 12 0 0 (Some 0))
       (Some 65) (Some 987))
  = mkGeometry "Point" [88; 12]
  /\ Loader.storm_id Sample.degrees
       (Loader.make_record Sample.degrees 12 88 (mkdt 2020 11 25 12 0 0 (Some 0))
          (Some 65) (Some 987))
     = "BESTTRACK_2020".
Proof.
  apply (proj1 (record_geometry_and_storm Sample.degrees Sample.degrees_of_str)
               (fun b => Some (Sample.decode b)) Sample.encode Sample.decode
               (fun s => Some (Sample.encode s)) (Sample.parse_known Sample.known)
               (Sample.encode Sample.track_src)).
  left. reflexivity.
Defined.

(** ** Looking up the placemarks *)

(** Induction on a tree, with the hypothesis on every child. *)
Lemma node_children_ind (P : node -> Prop) :
  (forall s, P (Text s)) ->
  (forall ns tag m cs, Forall P cs -> P (Element ns tag m cs)) ->
  forall n, P n.
Proof.
  intros HT HE. fix IH 1. intros [s | ns tag m cs].
  - apply HT.
  - apply HE. induction cs as [| c cs IHcs]; constructor.
    + apply IH.
    + exact IHcs.
Qed.

(** In a document without declarations the bare name test selects by
    local name alone. *)
Lemma plain_matches (local : string) (root : node) :
  Stated.plain root = true ->
  forall n, In n (descendants_or_self root) -> matches None local n = Stated.named local n.
Proof.
  induction root as [s | ns tag m cs IH] using node_children_ind; intros Hp n Hin.
  - destruct Hin as [<- | []]. reflexivity.
  - cbn [Stated.plain] in Hp.
    destruct ns as [u |]; [ discriminate Hp | ].
    destruct m as [| e m]; [ | discriminate Hp ].
    cbn [descendants_or_self] in Hin. destruct Hin as [<- | Hin]; [ reflexivity | ].
    apply in_flat_map in Hin. destruct Hin as (c & Hc & Hn).
    rewrite Forall_forall in IH. apply (IH c Hc); [ | exact Hn ].
    rewrite forallb_forall in Hp. now apply Hp.
Qed.

Lemma plain_declares_nothing (root : node) :
  Stated.plain root = true -> nsmap_of root = [].
Proof.
  destruct root as [s | [u |] tag [| e m] cs]; intros H;
    try reflexivity; discriminate H.
Qed.

Lemma is_nil_true {A : Type} (l : list A) : Loader.is_nil l = true <-> l = [].
Proof. destruct l; split; intros H; try reflexivity; discriminate H. Qed.

(** C6.  The namespace searched is the default one if the root declares
    it, else the one under the prefix [kml], else the first declared; the
    placemarks are those found under it and, when there are none or when
    nothing is declared, those found by the bare name.  A document
    without any declaration therefore yields every element named
    Placemark, through the bare search. *)
Theorem placemark_lookup_two_tiers :
  forall root : node,
    let found := fst (fst (Loader.find_placemarks root)) in
    let namespaces := snd (fst (Loader.find_placemarks root)) in
    let declared := nsmap_of root in
    (forall uri, lookup None declared = Some uri -> namespaces = Some uri)
    /\ (forall uri, lookup None declared = None ->
                    lookup (Some "kml") declared = Some uri -> namespaces = Some uri)
    /\ (forall prefix uri rest,
           lookup None declared = None -> lookup (Some "kml") declared = None ->
           declared = (prefix, uri) :: rest -> namespaces = Some uri)
    /\ (declared = [] -> namespaces = None)
    /\ (forall uri, namespaces = Some uri ->
                    xpath_all (Some uri) "Placemark" root <> [] ->
                    found = xpath_all (Some uri) "Placemark" root)
    /\ (forall uri, namespaces = Some uri ->
                    xpath_all (Some uri) "Placemark" root = [] ->
                    found = xpath_all None "Placemark" root)
    /\ (namespaces = None -> found = xpath_all None "Placemark" root)
    /\ (Stated.plain root = true ->
        namespaces = None
        /\ found = filter (Stated.named "Placemark") (descendants_or_self root)
        /\ In Loader.TryingUnqualified (snd (Loader.find_placemarks root))).
Proof.
  intros root found namespaces declared.
  assert (Hns : namespaces = fst (Loader.choose_namespace declared)).
  { subst namespaces declared. unfold Loader.find_placemarks.
    destruct (Loader.choose_namespace (nsmap_of root)) as [[uri |] m0]; cbn [fst];
      [ destruct (Loader.is_nil (xpath_all (Some uri) "Placemark" root)) | ]; reflexivity. }
  assert (Hfound : found = match namespaces with
                           | Some uri =>
                               if Loader.is_nil (xpath_all (Some uri) "Placemark" root)
                               then xpath_all None "Placemark" root
                               else xpath_all (Some uri) "Placemark" root
                           | None => xpath_all None "Placemark" root
                           end).
  { rewrite Hns. subst found declared. unfold Loader.find_placemarks.
    destruct (Loader.choose_namespace (nsmap_of root)) as [[uri |] m0]; cbn [fst];
      [ destruct (Loader.is_nil (xpath_all (Some uri) "Placemark" root)) | ]; reflexivity. }
  assert (Hempty : declared = [] -> namespaces = None).
  { intros H. rewrite Hns, H. reflexivity. }
  split; [ | split; [ | split; [ | split; [ | split; [ | split; [ | split ] ] ] ] ] ].
  - intros uri H. rewrite Hns. unfold Loader.choose_namespace.
    destruct declared as [| [k v] rest]; [ discriminate H | ]. now rewrite H.
  - intros uri H0 H1. rewrite Hns. unfold Loader.choose_namespace.
    destruct declared as [| [k v] rest]; [ discriminate H1 | ]. now rewrite H0, H1.
  - intros prefix uri rest H0 H1 Hd. rewrite Hns. unfold Loader.choose_namespace.
    rewrite Hd in *. now rewrite H0, H1.
  - exact Hempty.
  - intros uri H Hne. rewrite Hfound, H.
    destruct (Loader.is_nil (xpath_all (Some uri) "Placemark" root)) eqn:E; [ | reflexivity ].
    apply is_nil_true in E. contradiction.
  - intros uri H He. rewrite Hfound, H, He. reflexivity.
  - intros H. now rewrite Hfound, H.
  - intros Hp. pose proof (plain_declares_nothing root Hp) as Hd.
    assert (Hn : namespaces = None) by (apply Hempty; exact Hd).
    split; [ exact Hn | ]. split.
    + rewrite Hfound, Hn. unfold xpath_all. apply filter_ext_in.
      intros n Hin. now apply plain_matches with (root := root).
    + unfold Loader.find_placemarks. rewrite Hd. cbn. now left.
Qed.

(** The sample track declares nothing; its three placemarks are found. *)
Lemma placemark_lookup_two_tiers_witness :
  snd (fst (Loader.find_placemarks Sample.track_tree)) = None
  /\ fst (fst (Loader.find_placemarks Sample.track_tree))
     = [ Sample.placemark None Sample.desc_full "88,12,0";
         Sample.placemark None Sample.desc_no_dtg "89,13,0";
         Sample.placemark None Sample.desc_bare "90,14,0" ]
  /\ In Loader.TryingUnqualified (snd (Loader.find_placemarks Sample.track_tree)).
Proof.
  exact (proj2 (proj2 (proj2 (proj2 (proj2 (proj2 (proj2
           (placemark_lookup_two_tiers Sample.track_tree))))))) eq_refl).
Defined.

(** ** The run *)

Section Counting.

Variable float : Type.

Lemma count_storm_app (s : string) (a b : list (Document float)) :
  count_storm s (a ++ b) = (count_storm s a + count_storm s b)%nat.
Proof. unfold count_storm. now rewrite filter_app, length_app. Qed.

Lemma count_storm_deleted (s : string) (docs : list (Document float)) :
  count_storm s (delete_many s docs) = 0%nat.
Proof.
  unfold count_storm, delete_many.
  induction docs as [| d docs IH]; [ reflexivity | ].
  cbn [filter]. destruct (storm_is s d) eqn:E; cbn [negb filter]; [ exact IH | ].
  now rewrite E.
Qed.

Lemma delete_many_replaced (s : string) (docs batch : list (Document float)) :
  Forall (fun d => storm_is s d = true) batch ->
  delete_many s (delete_many s docs ++ batch) = delete_many s docs.
Proof.
  intros Hb. unfold delete_many. rewrite filter_app.
  assert (H1 : forall l : list (Document float),
             filter (fun d => negb (storm_is s d)) (filter (fun d => negb (storm_is s d)) l)
             = filter (fun d => negb (storm_is s d)) l).
  { induction l as [| d l IH]; [ reflexivity | ].
    cbn [filter]. destruct (negb (storm_is s d)) eqn:E; [ | exact IH ].
    cbn [filter]. now rewrite E, IH. }
  rewrite H1.
  assert (H2 : filter (fun d => negb (storm_is s d)) batch = []).
  { induction Hb as [| d l Hd _ IH]; [ reflexivity | ]. cbn [filter]. now rewrite Hd. }
  rewrite H2. apply app_nil_r.
Qed.

Lemma count_storm_all (s : string) (batch : list (Document float)) :
  Forall (fun d => storm_is s d = true) batch ->
  count_storm s batch = List.length batch.
Proof.
  intros Hb. unfold count_storm.
  induction Hb as [| d l Hd _ IH]; [ reflexivity | ].
  cbn [filter]. rewrite Hd. cbn [List.length]. now rewrite IH.
Qed.

End Counting.

Section Run.

Variable float : Type.
Variable float_of_str : string -> option float.
Variable utf8_decode : list Byte.byte -> option string.
Variable utf8_encode : string -> list Byte.byte.
Variable latin1_decode : list Byte.byte -> string.
Variable latin1_encode : string -> option (list Byte.byte).
Variable etree_fromstring : list Byte.byte -> option node.

#[local] Abbreviation parse_kml_features :=
  (Loader.parse_kml_features float float_of_str utf8_decode utf8_encode
     latin1_decode latin1_encode etree_fromstring).
#[local] Abbreviation extracted :=
  (Loader.extracted float float_of_str utf8_decode utf8_encode
     latin1_decode latin1_encode etree_fromstring).
#[local] Abbreviation main :=
  (Loader.main float float_of_str utf8_decode utf8_encode
     latin1_decode latin1_encode etree_fromstring).
#[local] Abbreviation quiet := (Forall (fun m => Stated.store_step m = false)).

Ltac quiet_list :=
  repeat first [ apply Forall_nil | apply Forall_cons; [ reflexivity | ] ].

Lemma quiet_app (a b : list Loader.Msg) : quiet a -> quiet b -> quiet (a ++ b).
Proof. intros Ha Hb. apply Forall_app. now split. Qed.

Lemma extract_timestamp_quiet (n : Z) (desc : string) :
  quiet (snd (Loader.extract_timestamp n desc)).
Proof.
  unfold Loader.extract_timestamp.
  destruct (Py.contains Loader.DTG_MARKER desc); [ | quiet_list ].
  destruct (nth_error (Py.split desc Loader.DTG_MARKER) 1) as [part |]; [ | quiet_list ].
  destruct (nth_error (Py.split part "</td>") 0) as [cell |]; [ | quiet_list ].
  cbv zeta.
  destruct (Py.endswith (Py.strip cell) "Z" && Nat.eqb (String.length (Py.strip cell)) 11);
    [ | quiet_list ].
  destruct (strptime_YmdH (Py.but_last (Py.strip cell))); quiet_list.
Qed.

Lemma process_placemark_quiet (namespaces : option string) (n : Z) (pm : node) :
  quiet (snd (Loader.process_placemark float float_of_str namespaces n pm)).
Proof.
  unfold Loader.process_placemark.
  assert (Hc : quiet (snd (Loader.get_coordinates float float_of_str namespaces n pm))).
  { unfold Loader.get_coordinates.
    destruct (Loader.qualified_then_bare namespaces _) as [| first rest]; [ quiet_list | ].
    destruct (Py.split (Py.strip first) ",") as [| lon_str [| lat_str tail]];
      try quiet_list.
    destruct (float_of_str lon_str); [ | quiet_list ].
    destruct (float_of_str lat_str); quiet_list. }
  assert (Hd : quiet (snd (Loader.parse_description namespaces n pm))).
  { unfold Loader.parse_description.
    destruct (Loader.get_description namespaces pm) as [desc |]; [ | quiet_list ].
    destruct (Py.truthy desc); [ | quiet_list ].
    pose proof (extract_timestamp_quiet n desc) as H.
    destruct (Loader.extract_timestamp n desc) as [t m]. exact H. }
  destruct (Loader.get_coordinates float float_of_str namespaces n pm) as [[lon lat] mc].
  destruct (Loader.parse_description namespaces n pm) as [fields md].
  cbn [snd] in Hc, Hd.
  destruct lat, lon, (Loader.f_timestamp fields); cbn [snd];
    repeat apply quiet_app; try assumption; quiet_list.
Qed.

Lemma process_all_quiet (namespaces : option string) (pms : list node) (n : Z) :
  quiet (snd (Loader.process_all float float_of_str namespaces n pms)).
Proof.
  revert n. induction pms as [| pm rest IH]; intros n; [ quiet_list | ].
  cbn [Loader.process_all].
  pose proof (process_placemark_quiet namespaces (n + 1) pm) as H1.
  specialize (IH (n + 1)).
  destruct (Loader.process_placemark float float_of_str namespaces (n + 1) pm) as [r m].
  destruct (Loader.process_all float float_of_str namespaces (n + 1) rest) as [rs ms].
  now apply quiet_app.
Qed.

Lemma parse_kml_features_quiet (b : list Byte.byte) :
  quiet (snd (parse_kml_features b)).
Proof.
  unfold Loader.parse_kml_features.
  destruct (Loader.is_nil b); [ quiet_list | ].
  assert (Hr : quiet (snd (Loader.parse_root utf8_decode utf8_encode latin1_decode
                              latin1_encode etree_fromstring b))).
  { unfold Loader.parse_root.
    destruct (match utf8_decode b with Some _ => _ | None => _ end); [ quiet_list | ].
    destruct (match latin1_encode _ with Some _ => _ | None => _ end); quiet_list. }
  destruct (Loader.parse_root _ _ _ _ _ b) as [[root |] m]; [ | exact Hr ].
  unfold Loader.extract_records.
  assert (Hf : quiet (snd (Loader.find_placemarks root))).
  { unfold Loader.find_placemarks, Loader.choose_namespace.
    destruct (nsmap_of root) as [| [k v] rest]; [ quiet_list | ].
    destruct (lookup None ((k, v) :: rest)) as [u |];
      [ | destruct (lookup (Some "kml") ((k, v) :: rest)) as [u |] ];
      match goal with
      | |- context [Loader.is_nil (xpath_all (Some ?x) "Placemark" root)] =>
          destruct (Loader.is_nil (xpath_all (Some x) "Placemark" root))
      end; quiet_list. }
  destruct (Loader.find_placemarks root) as [[pms namespaces] m0].
  pose proof (process_all_quiet namespaces pms 0) as Ha.
  destruct (Loader.process_all float float_of_str namespaces 0 pms) as [records ms].
  cbn [snd] in *.
  repeat apply quiet_app; try assumption; quiet_list.
Qed.

Lemma find_kml_in_kmz_quiet (path : string) (archive : option Loader.ZipFile) :
  quiet (snd (Loader.find_kml_in_kmz path archive)).
Proof.
  unfold Loader.find_kml_in_kmz. destruct archive as [kmz |]; [ | quiet_list ].
  destruct (filter _ (Loader.namelist kmz)) as [| name rest]; [ quiet_list | ].
  destruct (Loader.read kmz name); quiet_list.
Qed.

(** C9.  When nothing was extracted, whatever the reason, the run leaves
    the collection as it found it and prints no line of the store
    session: it has stopped before connecting, hence before the delete
    and the insert. *)
Theorem no_records_no_store_step :
  forall (archive : option Loader.ZipFile) (fault : Loader.Fault)
         (docs : list (Document float)),
    Loader.extracted float float_of_str utf8_decode utf8_encode latin1_decode
      latin1_encode etree_fromstring archive = [] ->
    fst (Loader.main float float_of_str utf8_decode utf8_encode latin1_decode
           latin1_encode etree_fromstring archive fault docs) = docs
    /\ Forall (fun m => Stated.store_step m = false)
              (snd (Loader.main float float_of_str utf8_decode utf8_encode latin1_decode
                      latin1_encode etree_fromstring archive fault docs)).
Proof.
  intros archive fault docs H.
  unfold Loader.extracted in H. unfold Loader.main.
  pose proof (find_kml_in_kmz_quiet Loader.KMZ_FILE_PATH archive) as Hk.
  destruct (Loader.find_kml_in_kmz Loader.KMZ_FILE_PATH archive) as [[[| b bs] |] m0];
    cbn [fst snd] in *.
  - split; [ reflexivity | ]. repeat apply quiet_app; try assumption; quiet_list.
  - pose proof (parse_kml_features_quiet (b :: bs)) as Hp.
    destruct (parse_kml_features (b :: bs)) as [storm_data m1].
    cbn [fst snd] in *. subst storm_data.
    split; [ reflexivity | ]. repeat apply quiet_app; try assumption; quiet_list.
  - split; [ reflexivity | ]. repeat apply quiet_app; try assumption; quiet_list.
Qed.

(** The documents a run inserts all carry the storm name. *)
Lemma extracted_documents (archive : option Loader.ZipFile) :
  Forall (fun d => storm_is Loader.STORM_NAME_FOR_DB d = true)
         (map (Loader.to_document float) (extracted archive)).
Proof.
  apply Forall_forall. intros d Hd. apply in_map_iff in Hd.
  destruct Hd as (r & <- & Hr).
  unfold Loader.extracted in Hr.
  destruct (fst (Loader.find_kml_in_kmz Loader.KMZ_FILE_PATH archive)) as [[| b bs] |];
    try contradiction.
  apply parse_kml_features_In in Hr. destruct Hr as (namespaces & pm & Hr).
  apply process_placemark_record in Hr. destruct Hr as (_ & _ & Hid).
  unfold storm_is, Loader.to_document. cbn [d_storm_id].
  rewrite Hid. apply String.eqb_refl.
Qed.

Lemma main_replaces (archive : option Loader.ZipFile) (docs : list (Document float)) :
  extracted archive <> [] ->
  fst (main archive Loader.NoFault docs)
  = delete_many Loader.STORM_NAME_FOR_DB docs
    ++ map (Loader.to_document float) (extracted archive).
Proof.
  intros Hne. unfold Loader.extracted in *. unfold Loader.main.
  destruct (Loader.find_kml_in_kmz Loader.KMZ_FILE_PATH archive) as [[[| b bs] |] m0];
    cbn [fst] in *; try contradiction.
  destruct (parse_kml_features (b :: bs)) as [[| r rs] m1]; cbn [fst] in *;
    [ contradiction | ].
  reflexivity.
Qed.

(** C4, as amended.  A run that extracts at least one record, against a
    store that answers, leaves the documents of the other storms as they
    were followed by the new batch: exactly as many documents of the
    storm as records extracted, whatever was there before, and the same
    number again after a second run. *)
Theorem ingestion_replaces_the_batch :
  forall (archive : option Loader.ZipFile) (docs : list (Document float)),
    Loader.extracted float float_of_str utf8_decode utf8_encode latin1_decode
      latin1_encode etree_fromstring archive <> [] ->
    let run := Loader.main float float_of_str utf8_decode utf8_encode latin1_decode
                 latin1_encode etree_fromstring archive Loader.NoFault in
    let batch := Loader.extracted float float_of_str utf8_decode utf8_encode latin1_decode
                   latin1_encode etree_fromstring archive in
    fst (run docs)
    = delete_many Loader.STORM_NAME_FOR_DB docs ++ map (Loader.to_document float) batch
    /\ count_storm Loader.STORM_NAME_FOR_DB (fst (run docs)) = List.length batch
    /\ count_storm Loader.STORM_NAME_FOR_DB (fst (run (fst (run docs)))) = List.length batch
    /\ delete_many Loader.STORM_NAME_FOR_DB (fst (run docs))
       = delete_many Loader.STORM_NAME_FOR_DB docs.
Proof.
  intros archive docs Hne run batch. subst run batch.
  assert (Hcount : forall l : list (Document float),
             count_storm Loader.STORM_NAME_FOR_DB
               (delete_many Loader.STORM_NAME_FOR_DB l
                ++ map (Loader.to_document float) (extracted archive))
             = List.length (extracted archive)).
  { intros l. rewrite count_storm_app, count_storm_deleted.
    rewrite count_storm_all by apply extracted_documents.
    now rewrite length_map. }
  rewrite !main_replaces by exact Hne.
  split; [ reflexivity | ]. split; [ apply Hcount | ]. split; [ apply Hcount | ].
  apply delete_many_replaced, extracted_documents.
Qed.


End Run.

(** The three ways of extracting nothing: an archive that cannot be
    read, markup that does not parse, a document without placemarks.  The
    two stored documents stay each time. *)
Lemma no_records_no_store_step_witness :
  let docs := [Sample.point_at "BESTTRACK_2020" 3; Sample.point_at "OTHER" 4] in
  let unchanged archive :=
    fst (Sample.main archive Loader.NoFault docs) = docs
    /\ Forall (fun m => Stated.store_step m = false)
              (snd (Sample.main archive Loader.NoFault docs)) in
  unchanged None
  /\ unchanged (Some [("doc.kml"%string, Sample.encode "<kml><Document>")])
  /\ unchanged (Some Sample.empty_kmz).
Proof.
  cbv zeta.
  split; [ | split ];
    apply (no_records_no_store_step Sample.degrees Sample.degrees_of_str
             (fun b => Some (Sample.decode b)) Sample.encode Sample.decode
             (fun s => Some (Sample.encode s)) (Sample.parse_known Sample.known));
    reflexivity.
Defined.

(** C4 as stated fails when nothing is extracted: the archive without
    placemarks yields no record, and the document stored before is still
    there after the run. *)
Lemma empty_extraction_keeps_the_old_batch :
  List.length (Sample.extracted (Some Sample.empty_kmz)) = 0%nat
  /\ count_storm "BESTTRACK_2020"
       (fst (Sample.main (Some Sample.empty_kmz) Loader.NoFault
               [Sample.point_at "BESTTRACK_2020" 3]))
     = 1%nat.
Proof. split; reflexivity. Qed.

(** The sample track yields two records; one old document of the storm is
    replaced by them, here and on a second run. *)
Lemma ingestion_replaces_the_batch_witness :
  let run := Sample.main (Some Sample.track_kmz) Loader.NoFault in
  let docs := [Sample.point_at "BESTTRACK_2020" 3; Sample.point_at "OTHER" 4] in
  fst (run docs)
  = delete_many "BESTTRACK_2020" docs
    ++ map (Loader.to_document Sample.degrees) (Sample.extracted (Some Sample.track_kmz))
  /\ count_storm "BESTTRACK_2020" (fst (run docs)) = 2%nat
  /\ count_storm "BESTTRACK_2020" (fst (run (fst (run docs)))) = 2%nat
  /\ delete_many "BESTTRACK_2020" (fst (run docs)) = delete_many "BESTTRACK_2020" docs.
Proof.
  apply (ingestion_replaces_the_batch Sample.degrees Sample.degrees_of_str
           (fun b => Some (Sample.decode b)) Sample.encode Sample.decode
           (fun s => Some (Sample.encode s)) (Sample.parse_known Sample.known)
           (Some Sample.track_kmz)).
  vm_compute. discriminate.
Defined.

(** ** The endpoint *)

Section Service.

Variable float : Type.
Variable fromisoformat : string -> option datetime.

#[local] Abbreviation get_track_data := (Backend.get_track_data (float := float) fromisoformat).
#[local] Abbreviation parse_instant := (Backend.parse_instant fromisoformat).


End Service.



(** C1.  The instant asked for is 12:00 at five hours west of Greenwich,
    that is 17:00 UTC.  Points are stored at 12:00 and at 15:00 UTC, both
    at or before it, so the latest at or before the target is the one of
    15:00.  The endpoint prints the target's wall-clock fields with a
    literal [Z], compares with ["2020-11-25T12:00:00Z"] and returns the
    point of 12:00. *)
Theorem exact_instant_drops_the_offset :
  let docs := [Sample.point_at "S" 12; Sample.point_at "S" 15] in
  let asked := "2020-11-25T12:00:00-05:00" in
  (exists target : datetime,
      Backend.parse_instant Backend.fromisoformat_seconds asked = Some target
      /\ instant target = instant (mkdt 2020 11 25 17 0 0 (Some 0))
      /\ strftime_iso target = "2020-11-25T12:00:00Z"
      /\ strftime_iso (astimezone_utc target) = "2020-11-25T17:00:00Z"
      /\ Stated.stored_instant (Sample.point_at "S" 12)
         = Some (instant (mkdt 2020 11 25 12 0 0 (Some 0)))
      /\ Stated.stored_instant (Sample.point_at "S" 15)
         = Some (instant (mkdt 2020 11 25 15 0 0 (Some 0)))
      /\ filter (Stated.at_or_before (instant target)) docs = docs)
  /\ Sample.get_track_data (Some (Backend.serving docs))
       (Backend.mkRequest (Some asked) None None (Some "S"))
     = Backend.FeatureCollection [Sample.feature_at "S" 12].
Proof.
  cbv zeta. split.
  - eexists. split; [ vm_compute; reflexivity | ]. vm_compute. repeat split.
  - vm_compute. reflexivity.
Qed.

(** C2.  The range asked for runs from 12:00 to 15:00 at five hours west
    of Greenwich, that is from 17:00 to 20:00 UTC; of the four stored
    points only the one of 19:00 UTC lies in it.  The endpoint compares
    with the wall-clock fields and returns the point of 13:00 UTC. *)
Theorem range_drops_the_offset :
  let docs := [Sample.point_at "S" 10; Sample.point_at "S" 13;
               Sample.point_at "S" 16; Sample.point_at "S" 19] in
  let lo := "2020-11-25T12:00:00-05:00" in
  let hi := "2020-11-25T15:00:00-05:00" in
  (exists start_time end_time : datetime,
      Backend.parse_instant Backend.fromisoformat_seconds lo = Some start_time
      /\ Backend.parse_instant Backend.fromisoformat_seconds hi = Some end_time
      /\ instant start_time = instant (mkdt 2020 11 25 17 0 0 (Some 0))
      /\ instant end_time = instant (mkdt 2020 11 25 20 0 0 (Some 0))
      /\ filter (Stated.within (instant start_time) (instant end_time)) docs
         = [Sample.point_at "S" 19])
  /\ Sample.get_track_data (Some (Backend.serving docs))
       (Backend.mkRequest None (Some lo) (Some hi) (Some "S"))
     = Backend.FeatureCollection [Sample.feature_at "S" 13].
Proof.
  cbv zeta. split.
  - do 2 eexists. split; [ vm_compute; reflexivity | ].
    split; [ vm_compute; reflexivity | ]. vm_compute. repeat split.
  - vm_compute. reflexivity.
Qed.

(** ** What the queries return, in terms of the stored strings *)

Lemma string_leb_trans (a b c : string) :
  String.leb a b = true -> String.leb b c = true -> String.leb a c = true.
Proof.
  unfold String.leb. revert b c.
  induction a as [| x a IH]; intros [| y b] [| z c]; cbn [String.compare];
    try reflexivity; try discriminate.
  unfold Ascii.compare.
  destruct (N.compare_spec (N_of_ascii x) (N_of_ascii y)) as [Exy | Lxy | Gxy];
    destruct (N.compare_spec (N_of_ascii y) (N_of_ascii z)) as [Eyz | Lyz | Gyz];
    try discriminate;
    destruct (N.compare_spec (N_of_ascii x) (N_of_ascii z)) as [Exz | Lxz | Gxz];
    try reflexivity; try lia; intros; try reflexivity.
  now apply (IH b c).
Qed.

Lemma string_leb_refl (a : string) : String.leb a a = true.
Proof. destruct (String.leb_total a a); assumption. Qed.

Section Sorting.

Variable float : Type.

Lemma key_leb_trans (a b c : option string) :
  key_leb a b = true -> key_leb b c = true -> key_leb a c = true.
Proof.
  destruct a as [a |], b as [b |], c as [c |]; cbn; try reflexivity; try discriminate.
  apply string_leb_trans.
Qed.

Lemma key_leb_total (a b : option string) : key_leb a b = true \/ key_leb b a = true.
Proof.
  destruct a as [a |], b as [b |]; cbn; auto. apply String.leb_total.
Qed.

Lemma before_trans (dir : Direction) (a b c : Document float) :
  before dir a b = true -> before dir b c = true -> before dir a c = true.
Proof.
  destruct dir; cbn; intros H1 H2.
  - exact (key_leb_trans _ _ _ H1 H2).
  - exact (key_leb_trans _ _ _ H2 H1).
Qed.

Lemma before_total (dir : Direction) (a b : Document float) :
  before dir a b = true \/ before dir b a = true.
Proof. destruct dir; cbn; apply key_leb_total. Qed.

Lemma insert_sorted_perm (dir : Direction) (x : Document float) (l : list (Document float)) :
  Permutation (insert_sorted dir x l) (x :: l).
Proof.
  induction l as [| y l IH]; [ reflexivity | ].
  cbn [insert_sorted]. destruct (before dir x y); [ reflexivity | ].
  rewrite IH. apply perm_swap.
Qed.

Lemma sort_perm (dir : Direction) (l : list (Document float)) :
  Permutation (sort dir l) l.
Proof.
  induction l as [| x l IH]; [ reflexivity | ].
  cbn [sort]. rewrite insert_sorted_perm. now constructor.
Qed.

Lemma insert_sorted_sorted (dir : Direction) (x : Document float)
      (l : list (Document float)) :
  Sorted (fun a b => before dir a b = true) l ->
  Sorted (fun a b => before dir a b = true) (insert_sorted dir x l).
Proof.
  induction 1 as [| y l Hs IH Hd]; [ repeat constructor | ].
  cbn [insert_sorted]. destruct (before dir x y) eqn:E.
  - constructor; [ now constructor | now constructor ].
  - constructor; [ exact IH | ].
    destruct (before_total dir x y) as [Hxy | Hyx]; [ congruence | ].
    destruct Hd as [| z l Hyz]; cbn [insert_sorted].
    + now constructor.
    + destruct (before dir x z); now constructor.
Qed.

Lemma sort_sorted (dir : Direction) (l : list (Document float)) :
  Sorted (fun a b => before dir a b = true) (sort dir l).
Proof.
  induction l as [| x l IH]; [ constructor | ].
  cbn [sort]. now apply insert_sorted_sorted.
Qed.

(** The first document of a sorted answer comes before every document
    that was sorted. *)
Lemma sort_head (dir : Direction) (l rest : list (Document float)) (d : Document float) :
  sort dir l = d :: rest -> forall x, In x l -> before dir d x = true.
Proof.
  intros Hs x Hx.
  pose proof (sort_sorted dir l) as Hsorted. rewrite Hs in Hsorted.
  apply Sorted_StronglySorted in Hsorted;
    [ | intros a b c; apply before_trans ].
  apply StronglySorted_inv in Hsorted. destruct Hsorted as [_ Hall].
  assert (Hin : In x (d :: rest)).
  { rewrite <- Hs. apply Permutation_in with (l := l); [ | exact Hx ].
    symmetry. apply sort_perm. }
  destruct Hin as [<- | Hin].
  - destruct (before_total dir d d); assumption.
  - rewrite Forall_forall in Hall. now apply Hall.
Qed.

Lemma sort_nil (dir : Direction) (l : list (Document float)) :
  sort dir l = [] -> l = [].
Proof.
  intros H. apply Permutation_nil. rewrite <- H. apply sort_perm.
Qed.

End Sorting.

(** A feature per document that has a location. *)
Lemma to_features_length (float : Type) (l : list (Document float)) :
  (List.length (Backend.to_features l) <= List.length l)%nat.
Proof.
  unfold Backend.to_features.
  induction l as [| d l IH]; [ reflexivity | ].
  cbn [flat_map]. rewrite length_app.
  destruct (d_location d); cbn [List.length] in *; lia.
Qed.

Section Queries.

Variable float : Type.
Variable fromisoformat : string -> option datetime.

#[local] Abbreviation storm_of req :=
  (match Backend.arg_storm_id req with
   | Some s => s
   | None => Backend.DEFAULT_STORM_ID
   end).

(** The query with an exact instant, on a store that answers: at most one
    document comes back.  When some document of the storm has a timestamp
    at or before the printed target, the answer is one of them and no
    other of them is later; when none has, the answer is a document of
    the storm that no other precedes; it is empty only when the storm has
    no document. *)
Lemma exact_instant_answer :
  forall (docs : list (Document float)) (req : Backend.Request) (target : datetime),
    Backend.given (Backend.arg_timestamp req) = true ->
    Backend.parse_instant fromisoformat (Backend.text (Backend.arg_timestamp req))
    = Some target ->
    let eligible := satisfies (mkFilter (storm_of req) None (Some (strftime_iso target))) in
    exists result : list (Document float),
      Backend.select fromisoformat (Backend.serving docs) req = inr result
      /\ Backend.get_track_data fromisoformat (Some (Backend.serving docs)) req
         = Backend.FeatureCollection (Backend.to_features result)
      /\ (List.length (Backend.to_features result) <= List.length result <= 1)%nat
      /\ (forall d, In d result ->
                    In d docs /\ storm_is (storm_of req) d = true
                    /\ ((eligible d = true
                         /\ forall d', In d' docs -> eligible d' = true ->
                                       key_leb (d_timestamp d') (d_timestamp d) = true)
                        \/ ((forall d', In d' docs -> eligible d' = false)
                            /\ forall d', In d' docs -> storm_is (storm_of req) d' = true ->
                                          key_leb (d_timestamp d) (d_timestamp d') = true)))
      /\ (result = [] <-> forall d, In d docs -> storm_is (storm_of req) d = false).
Proof.
  intros docs req target Hg Hp eligible.
  unfold Backend.get_track_data, Backend.select. rewrite Hg, Hp.
  cbn [Backend.serving Backend.find]. unfold run_find, limit.
  fold eligible.
  pose proof (to_features_length float) as Hfeat.
  destruct (sort DESCENDING (filter eligible docs)) as [| d ds] eqn:Hdesc.
  - apply sort_nil in Hdesc. cbn [firstn].
    assert (Hnone : forall d', In d' docs -> eligible d' = false).
    { intros d' Hin. destruct (eligible d') eqn:E; [ | reflexivity ].
      assert (Hd : In d' (filter eligible docs)) by (apply filter_In; now split).
      rewrite Hdesc in Hd. contradiction. }
    destruct (sort ASCENDING (filter (satisfies (mkFilter (storm_of req) None None)) docs))
      as [| e es] eqn:Hasc.
    + exists []. cbn [firstn].
      split; [ reflexivity | ]. split; [ reflexivity | ].
      split; [ cbn; lia | ]. split.
      * intros d [].
      * split; [ | reflexivity ].
        intros _ d Hin. apply sort_nil in Hasc.
        destruct (storm_is (storm_of req) d) eqn:E; [ | reflexivity ].
        assert (Hd : In d (filter (satisfies (mkFilter (storm_of req) None None)) docs)).
        { apply filter_In. split; [ exact Hin | ]. unfold satisfies. cbn. now rewrite E. }
        rewrite Hasc in Hd. contradiction.
    + exists [e]. cbn [firstn].
      assert (He : In e (filter (satisfies (mkFilter (storm_of req) None None)) docs)).
      { apply Permutation_in with (l := sort ASCENDING
                 (filter (satisfies (mkFilter (storm_of req) None None)) docs));
          [ apply sort_perm | rewrite Hasc; now left ]. }
      apply filter_In in He. destruct He as [He1 He2].
      assert (He3 : storm_is (storm_of req) e = true).
      { unfold satisfies in He2. cbn in He2. now rewrite !andb_true_r in He2. }
      split; [ reflexivity | ]. split; [ reflexivity | ].
      split; [ split; [ apply Hfeat | cbn; lia ] | ].
      split.
      * intros d [<- | []]. split; [ exact He1 | ]. split; [ exact He3 | ].
        right. split; [ exact Hnone | ].
        intros d' Hin Hs.
        apply (sort_head float ASCENDING _ _ _ Hasc).
        apply filter_In. split; [ exact Hin | ]. unfold satisfies. cbn. now rewrite Hs.
      * split; [ discriminate | ].
        intros Hno. rewrite (Hno e He1) in He3. discriminate He3.
  - exists [d]. cbn [firstn].
    assert (Hd : In d (filter eligible docs)).
    { apply Permutation_in with (l := sort DESCENDING (filter eligible docs));
        [ apply sort_perm | rewrite Hdesc; now left ]. }
    apply filter_In in Hd. destruct Hd as [Hd1 Hd2].
    assert (Hd3 : storm_is (storm_of req) d = true).
    { unfold eligible, satisfies in Hd2. cbn in Hd2.
      apply andb_true_iff in Hd2. destruct Hd2 as [Hd2 _].
      now rewrite andb_true_r in Hd2. }
    split; [ reflexivity | ]. split; [ reflexivity | ].
    split; [ split; [ apply Hfeat | cbn; lia ] | ].
    split.
    + intros d0 [<- | []]. split; [ exact Hd1 | ]. split; [ exact Hd3 | ].
      left. split; [ exact Hd2 | ].
      intros d' Hin He.
      apply (sort_head float DESCENDING _ _ _ Hdesc).
      apply filter_In. now split.
    + split; [ discriminate | ].
      intros Hno. rewrite (Hno d Hd1) in Hd3. discriminate Hd3.
Qed.

(** The query with a start and an end, on a store that answers: the
    documents of the storm whose timestamp lies between the two printed
    bounds, bounds included, each as often as it is stored, in ascending
    order of timestamp. *)
Lemma range_answer :
  forall (docs : list (Document float)) (req : Backend.Request)
         (start_time end_time : datetime),
    Backend.given (Backend.arg_timestamp req) = false ->
    Backend.given (Backend.arg_start req) = true ->
    Backend.given (Backend.arg_end req) = true ->
    Backend.parse_instant fromisoformat (Backend.text (Backend.arg_start req))
    = Some start_time ->
    Backend.parse_instant fromisoformat (Backend.text (Backend.arg_end req))
    = Some end_time ->
    exists result : list (Document float),
      Backend.select fromisoformat (Backend.serving docs) req = inr result
      /\ Permutation result
           (filter (fun d => storm_is (storm_of req) d
                             && match d_timestamp d with
                                | Some t => String.leb (strftime_iso start_time) t
                                            && String.leb t (strftime_iso end_time)
                                | None => false
                                end) docs)
      /\ Sorted (fun a b => key_leb (d_timestamp a) (d_timestamp b) = true) result.
Proof.
  intros docs req start_time end_time Hg Hlo Hhi Hs He.
  unfold Backend.select. rewrite Hg, Hlo, Hhi, Hs, He.
  cbn [andb Backend.serving Backend.find]. unfold run_find, limit.
  eexists. split; [ reflexivity | ]. split.
  - rewrite sort_perm.
    erewrite filter_ext; [ reflexivity | ].
    intros d. unfold satisfies, bound_ok. cbn [f_storm_id f_gte f_lte].
    destruct (d_timestamp d); [ now rewrite andb_assoc | ].
    now rewrite !andb_false_r.
  - apply (sort_sorted float ASCENDING).
Qed.

(** X3.  The query without a usable time filter, on a store that answers: every
    document of the storm, in ascending order of timestamp. *)
Theorem whole_track_answer :
  forall (docs : list (Document float)) (req : Backend.Request),
    Backend.given (Backend.arg_timestamp req) = false ->
    Backend.given (Backend.arg_start req) && Backend.given (Backend.arg_end req) = false ->
    exists result : list (Document float),
      Backend.select fromisoformat (Backend.serving docs) req = inr result
      /\ Permutation result (filter (storm_is (storm_of req)) docs)
      /\ Sorted (fun a b => key_leb (d_timestamp a) (d_timestamp b) = true) result.
Proof.
  intros docs req Hg Hr.
  unfold Backend.select. rewrite Hg, Hr.
  cbn [Backend.serving Backend.find]. unfold run_find, limit.
  eexists. split; [ reflexivity | ]. split.
  - rewrite sort_perm.
    erewrite filter_ext; [ reflexivity | ].
    intros d. unfold satisfies, bound_ok. cbn [f_storm_id f_gte f_lte].
    now rewrite !andb_true_r.
  - apply (sort_sorted float ASCENDING).
Qed.

End Queries.

(** ** Printed timestamps and instants *)

Lemma compare_digit (x y : Z) :
  0 <= x <= 9 -> 0 <= y <= 9 -> Ascii.compare (digit x) (digit y) = Z.compare x y.
Proof.
  intros Hx Hy.
  assert (Ex : x = 0 \/ x = 1 \/ x = 2 \/ x = 3 \/ x = 4 \/ x = 5 \/ x = 6 \/ x = 7
               \/ x = 8 \/ x = 9) by lia.
  assert (Ey : y = 0 \/ y = 1 \/ y = 2 \/ y = 3 \/ y = 4 \/ y = 5 \/ y = 6 \/ y = 7
               \/ y = 8 \/ y = 9) by lia.
  clear Hx Hy.
  repeat (destruct Ex as [-> | Ex]); try subst x;
    repeat (destruct Ey as [-> | Ey]); try subst y; reflexivity.
Qed.



Lemma compare_pad2 (a b : Z) (s1 s2 : string) :
  0 <= a <= 99 -> 0 <= b <= 99 ->
  String.compare (pad2 a ++ s1) (pad2 b ++ s2)
  = Stated.then_cmp (Z.compare a b) (String.compare s1 s2).
Proof.
  intros Ha Hb. unfold pad2. cbn [append String.compare].
  rewrite <- (digit_mod a), <- (digit_mod b).
  rewrite !compare_digit by (Z.div_mod_to_equations; lia).
  destruct (Z.compare_spec (a / 10) (b / 10)) as [E | L | G];
    destruct (Z.compare_spec (a mod 10) (b mod 10)) as [E' | L' | G'];
    destruct (Z.compare_spec a b) as [E'' | L'' | G''];
    cbn [Stated.then_cmp]; try reflexivity; exfalso; Z.div_mod_to_equations; lia.
Qed.

Lemma compare_pad4 (a b : Z) (s1 s2 : string) :
  0 <= a <= 9999 -> 0 <= b <= 9999 ->
  String.compare (pad4 a ++ s1) (pad4 b ++ s2)
  = Stated.then_cmp (Z.compare a b) (String.compare s1 s2).
Proof.
  intros Ha Hb. unfold pad4.
  change (String (digit (a / 1000)) (String (digit (a / 100)) (pad2 a)) ++ s1)%string
    with (String (digit (a / 1000)) (String (digit (a / 100)) (pad2 a ++ s1))).
  change (String (digit (b / 1000)) (String (digit (b / 100)) (pad2 b)) ++ s2)%string
    with (String (digit (b / 1000)) (String (digit (b / 100)) (pad2 b ++ s2))).
  cbn [String.compare].
  assert (Hp : String.compare (pad2 a ++ s1) (pad2 b ++ s2)
               = Stated.then_cmp (Z.compare (a mod 100) (b mod 100)) (String.compare s1 s2)).
  { rewrite <- (compare_pad2 (a mod 100) (b mod 100))
      by (Z.div_mod_to_equations; lia).
    unfold pad2. rewrite <- (digit_mod (a mod 100)), <- (digit_mod (b mod 100)).
    rewrite <- (digit_mod (a mod 100 / 10)), <- (digit_mod (b mod 100 / 10)).
    rewrite <- (digit_mod (a / 10)), <- (digit_mod (b / 10)).
    rewrite <- (digit_mod a), <- (digit_mod b).
    replace (a mod 100 / 10 mod 10) with (a / 10 mod 10) by (Z.div_mod_to_equations; lia).
    replace (b mod 100 / 10 mod 10) with (b / 10 mod 10) by (Z.div_mod_to_equations; lia).
    replace (a mod 100 mod 10) with (a mod 10) by (Z.div_mod_to_equations; lia).
    replace (b mod 100 mod 10) with (b mod 10) by (Z.div_mod_to_equations; lia).
    reflexivity. }
  rewrite Hp.
  rewrite <- (digit_mod (a / 100)), <- (digit_mod (b / 100)).
  rewrite !compare_digit by (Z.div_mod_to_equations; lia).
  destruct (Z.compare_spec (a / 1000) (b / 1000)) as [E | L | G];
    destruct (Z.compare_spec (a / 100 mod 10) (b / 100 mod 10)) as [E' | L' | G'];
    destruct (Z.compare_spec (a mod 100) (b mod 100)) as [E2 | L2 | G2];
    destruct (Z.compare_spec a b) as [E3 | L3 | G3];
    cbn [Stated.then_cmp]; try reflexivity; exfalso; Z.div_mod_to_equations; lia.
Qed.

Lemma compare_same_char (c : ascii) (s1 s2 : string) :
  String.compare (String c s1) (String c s2) = String.compare s1 s2.
Proof.
  cbn [String.compare].
  assert (H : Ascii.compare c c = Eq) by (unfold Ascii.compare; apply N.compare_refl).
  now rewrite H.
Qed.

Lemma strftime_compare (t1 t2 : datetime) :
  Stated.well_formed t1 -> Stated.well_formed t2 ->
  String.compare (strftime_iso t1) (strftime_iso t2)
  = Stated.then_cmp (Z.compare (year t1) (year t2))
      (Stated.then_cmp (Z.compare (month t1) (month t2))
         (Stated.then_cmp (Z.compare (day t1) (day t2))
            (Stated.then_cmp (Z.compare (hour t1) (hour t2))
               (Stated.then_cmp (Z.compare (minute t1) (minute t2))
                  (Z.compare (second t1) (second t2)))))).
Proof.
  intros (Hy1 & Hm1 & Hd1 & Hh1 & Hi1 & Hs1) (Hy2 & Hm2 & Hd2 & Hh2 & Hi2 & Hs2).
  assert (B1 : days_in_month (year t1) (month t1) <= 31).
  { unfold days_in_month. repeat match goal with |- context [if ?c then _ else _] => destruct c end; lia. }
  assert (B2 : days_in_month (year t2) (month t2) <= 31).
  { unfold days_in_month. repeat match goal with |- context [if ?c then _ else _] => destruct c end; lia. }
  unfold strftime_iso.
  rewrite compare_pad4 by lia. f_equal.
  cbn [append]. rewrite compare_same_char.
  rewrite compare_pad2 by lia. f_equal.
  cbn [append]. rewrite compare_same_char.
  rewrite compare_pad2 by lia. f_equal.
  cbn [append]. rewrite compare_same_char.
  rewrite compare_pad2 by lia. f_equal.
  cbn [append]. rewrite compare_same_char.
  rewrite compare_pad2 by lia. f_equal.
  cbn [append]. rewrite compare_same_char.
  rewrite compare_pad2 by lia.
  cbn [String.compare]. now destruct (Z.compare (second t1) (second t2)).
Qed.

(** ** Days *)

Lemma days_before_year_step (y : Z) :
  days_before_year (y + 1) = days_before_year y + 365 + (if is_leap y then 1 else 0).
Proof.
  unfold days_before_year, is_leap. cbv zeta.
  replace (y + 1 - 1) with y by lia.
  destruct (Z.eqb_spec (y mod 4) 0) as [E4 | N4];
    destruct (Z.eqb_spec (y mod 100) 0) as [E100 | N100];
    destruct (Z.eqb_spec (y mod 400) 0) as [E400 | N400];
    cbn [andb orb negb]; Z.div_mod_to_equations; lia.
Qed.

Lemma days_before_year_mono (y1 y2 : Z) :
  y1 <= y2 -> days_before_year y1 <= days_before_year y2.
Proof.
  intros H. unfold days_before_year. cbv zeta.
  assert (A : (y1 - 1) / 4 <= (y2 - 1) / 4) by (apply Z.div_le_mono; lia).
  assert (C : (y1 - 1) / 400 <= (y2 - 1) / 400) by (apply Z.div_le_mono; lia).
  assert (B : (y2 - 1) / 100 <= (y1 - 1) / 100 + (y2 - y1)).
  { rewrite <- Z.div_add by lia. apply Z.div_le_mono; lia. }
  lia.
Qed.

Lemma month_cases (m : Z) :
  1 <= m <= 12 ->
  m = 1 \/ m = 2 \/ m = 3 \/ m = 4 \/ m = 5 \/ m = 6 \/ m = 7 \/ m = 8 \/ m = 9
  \/ m = 10 \/ m = 11 \/ m = 12.
Proof. lia. Qed.

Ltac table :=
  repeat match goal with
         | |- context [nth ?n ?l ?d] =>
             let v := eval vm_compute in (nth n l d) in change (nth n l d) with v
         | |- context [Z.ltb ?a ?b] =>
             let v := eval vm_compute in (Z.ltb a b) in change (Z.ltb a b) with v
         | H : context [Z.eqb ?a ?b] |- _ =>
             let v := eval vm_compute in (Z.eqb a b) in change (Z.eqb a b) with v in H
         end;
  cbn [andb orb] in *.

Lemma day_of_year_bounds (y m d : Z) :
  1 <= m <= 12 -> 1 <= d <= days_in_month y m ->
  1 <= days_before_month y m + d <= 365 + (if is_leap y then 1 else 0).
Proof.
  intros Hm Hd. apply month_cases in Hm.
  unfold days_before_month, days_in_month in *.
  remember (is_leap y) as leap eqn:E. clear E.
  repeat (destruct Hm as [-> | Hm]); try subst m;
    destruct leap; table; lia.
Qed.

Lemma days_before_month_lt (y m1 m2 d1 d2 : Z) :
  1 <= m1 -> m1 < m2 -> m2 <= 12 ->
  1 <= d1 <= days_in_month y m1 -> 1 <= d2 ->
  days_before_month y m1 + d1 < days_before_month y m2 + d2.
Proof.
  intros H1 H12 H2 Hd1 Hd2.
  assert (C1 : 1 <= m1 <= 12) by lia. assert (C2 : 1 <= m2 <= 12) by lia.
  apply month_cases in C1. apply month_cases in C2.
  unfold days_before_month, days_in_month in *.
  remember (is_leap y) as leap eqn:E. clear E.
  repeat (destruct C1 as [-> | C1]); try subst m1;
    repeat (destruct C2 as [-> | C2]); try subst m2;
    try lia; destruct leap; table; lia.
Qed.

Lemma ymd2ord_compare (y1 m1 d1 y2 m2 d2 : Z) :
  1 <= m1 <= 12 -> 1 <= d1 <= days_in_month y1 m1 ->
  1 <= m2 <= 12 -> 1 <= d2 <= days_in_month y2 m2 ->
  Z.compare (ymd2ord y1 m1 d1) (ymd2ord y2 m2 d2)
  = Stated.then_cmp (Z.compare y1 y2)
      (Stated.then_cmp (Z.compare m1 m2) (Z.compare d1 d2)).
Proof.
  intros Hm1 Hd1 Hm2 Hd2. unfold ymd2ord.
  pose proof (day_of_year_bounds y1 m1 d1 Hm1 Hd1) as B1.
  pose proof (day_of_year_bounds y2 m2 d2 Hm2 Hd2) as B2.
  destruct (Z.compare_spec y1 y2) as [Ey | Ly | Gy]; cbn [Stated.then_cmp].
  - subst y2.
    destruct (Z.compare_spec m1 m2) as [Em | Lm | Gm]; cbn [Stated.then_cmp].
    + subst m2.
      destruct (Z.compare_spec d1 d2) as [Ed | Ld | Gd].
      * subst. apply Z.compare_refl.
      * apply Z.compare_lt_iff. lia.
      * apply Z.compare_gt_iff. lia.
    + apply Z.compare_lt_iff.
      pose proof (days_before_month_lt y1 m1 m2 d1 d2). lia.
    + apply Z.compare_gt_iff.
      pose proof (days_before_month_lt y1 m2 m1 d2 d1). lia.
  - apply Z.compare_lt_iff.
    pose proof (days_before_year_step y1) as S1.
    pose proof (days_before_year_mono (y1 + 1) y2). lia.
  - apply Z.compare_gt_iff.
    pose proof (days_before_year_step y2) as S2.
    pose proof (days_before_year_mono (y2 + 1) y1). lia.
Qed.

Lemma then_cmp_assoc (a b c : comparison) :
  Stated.then_cmp a (Stated.then_cmp b c) = Stated.then_cmp (Stated.then_cmp a b) c.
Proof. now destruct a. Qed.

Lemma time_of_day_compare (o1 h1 i1 s1 o2 h2 i2 s2 : Z) :
  0 <= h1 <= 23 -> 0 <= i1 <= 59 -> 0 <= s1 <= 59 ->
  0 <= h2 <= 23 -> 0 <= i2 <= 59 -> 0 <= s2 <= 59 ->
  Z.compare (((o1 * 24 + h1) * 60 + i1) * 60 + s1) (((o2 * 24 + h2) * 60 + i2) * 60 + s2)
  = Stated.then_cmp (Z.compare o1 o2)
      (Stated.then_cmp (Z.compare h1 h2)
         (Stated.then_cmp (Z.compare i1 i2) (Z.compare s1 s2))).
Proof.
  intros Hh1 Hi1 Hs1 Hh2 Hi2 Hs2.
  destruct (Z.compare_spec o1 o2) as [Eo | Lo | Go]; cbn [Stated.then_cmp];
    [ destruct (Z.compare_spec h1 h2) as [Eh | Lh | Gh]; cbn [Stated.then_cmp];
      [ destruct (Z.compare_spec i1 i2) as [Ei | Li | Gi]; cbn [Stated.then_cmp];
        [ destruct (Z.compare_spec s1 s2) as [Es | Ls | Gs] | | ]
      | | ]
    | | ];
    first [ apply Z.compare_eq_iff; lia | apply Z.compare_lt_iff; lia
          | apply Z.compare_gt_iff; lia ].
Qed.

(** Printed timestamps compare as the instants they denote. *)
Lemma strftime_order (t1 t2 : datetime) :
  Stated.well_formed t1 -> Stated.well_formed t2 ->
  Stated.in_utc t1 -> Stated.in_utc t2 ->
  String.leb (strftime_iso t1) (strftime_iso t2) = (instant t1 <=? instant t2).
Proof.
  intros W1 W2 U1 U2. unfold String.leb, Z.leb.
  rewrite strftime_compare by assumption.
  destruct W1 as (Hy1 & Hm1 & Hd1 & Hh1 & Hi1 & Hs1).
  destruct W2 as (Hy2 & Hm2 & Hd2 & Hh2 & Hi2 & Hs2).
  assert (I1 : instant t1 = ((ymd2ord (year t1) (month t1) (day t1) * 24 + hour t1) * 60
                             + minute t1) * 60 + second t1).
  { unfold instant. destruct U1 as [-> | ->]; lia. }
  assert (I2 : instant t2 = ((ymd2ord (year t2) (month t2) (day t2) * 24 + hour t2) * 60
                             + minute t2) * 60 + second t2).
  { unfold instant. destruct U2 as [-> | ->]; lia. }
  rewrite I1, I2, time_of_day_compare by assumption.
  rewrite ymd2ord_compare by assumption.
  rewrite <- !then_cmp_assoc. reflexivity.
Qed.

(** ** Reading a written timestamp back *)

Lemma digit_chars (x : Z) :
  Py.is_digit (digit x) = true /\ Py.digit_val (digit x) = x mod 10
  /\ Ascii.eqb (digit x) "Z" = false.
Proof.
  unfold digit.
  assert (H : 0 <= x mod 10 < 10) by (apply Z.mod_pos_bound; lia).
  assert (E : x mod 10 = 0 \/ x mod 10 = 1 \/ x mod 10 = 2 \/ x mod 10 = 3 \/ x mod 10 = 4
              \/ x mod 10 = 5 \/ x mod 10 = 6 \/ x mod 10 = 7 \/ x mod 10 = 8
              \/ x mod 10 = 9) by lia.
  clear H. repeat (destruct E as [-> | E]); try rewrite E; repeat split.
Qed.

Lemma two_digits_pad (a : Z) :
  0 <= a <= 99 -> Backend.two_digits (digit (a / 10)) (digit a) = Some a.
Proof.
  intros Ha. unfold Backend.two_digits.
  destruct (digit_chars (a / 10)) as (D1 & V1 & _).
  destruct (digit_chars a) as (D2 & V2 & _).
  rewrite D1, D2, V1, V2. cbn [andb]. f_equal. Z.div_mod_to_equations. lia.
Qed.

Lemma two_digits_century (y : Z) :
  0 <= y <= 9999 ->
  Backend.two_digits (digit (y / 1000)) (digit (y / 100)) = Some (y / 100)
  /\ Backend.two_digits (digit (y / 10)) (digit y) = Some (y mod 100).
Proof.
  intros Hy. unfold Backend.two_digits.
  destruct (digit_chars (y / 1000)) as (D1 & V1 & _).
  destruct (digit_chars (y / 100)) as (D2 & V2 & _).
  destruct (digit_chars (y / 10)) as (D3 & V3 & _).
  destruct (digit_chars y) as (D4 & V4 & _).
  rewrite D1, D2, D3, D4, V1, V2, V3, V4. cbn [andb].
  split; f_equal; Z.div_mod_to_equations; lia.
Qed.

Lemma replace_pad2 (a : Z) (s : string) :
  Py.replace (pad2 a ++ s) "Z" "+00:00" = (pad2 a ++ Py.replace s "Z" "+00:00")%string.
Proof.
  unfold pad2. cbn [append Py.replace].
  destruct (digit_chars (a / 10)) as (_ & _ & E1).
  destruct (digit_chars a) as (_ & _ & E2).
  now rewrite E1, E2.
Qed.

Lemma replace_pad4 (a : Z) (s : string) :
  Py.replace (pad4 a ++ s) "Z" "+00:00" = (pad4 a ++ Py.replace s "Z" "+00:00")%string.
Proof.
  unfold pad4.
  change (String (digit (a / 1000)) (String (digit (a / 100)) (pad2 a)) ++ s)%string
    with (String (digit (a / 1000)) (String (digit (a / 100)) (pad2 a ++ s))).
  cbn [Py.replace].
  destruct (digit_chars (a / 1000)) as (_ & _ & E1).
  destruct (digit_chars (a / 100)) as (_ & _ & E2).
  rewrite E1, E2, replace_pad2. reflexivity.
Qed.

(** The instant read back from a timestamp the loader wrote. *)
Lemma stored_instant_written (float : Type) (t : datetime) (d : Document float) :
  Stated.written_at t d -> Stated.stored_instant d = Some (instant t).
Proof.
  intros (Hts & (Hy & Hm & Hd & Hh & Hi & Hs) & Hu).
  unfold Stated.stored_instant. rewrite Hts.
  assert (B : days_in_month (year t) (month t) <= 31).
  { unfold days_in_month.
    repeat match goal with |- context [if ?c then _ else _] => destruct c end; lia. }
  unfold strftime_iso.
  rewrite replace_pad4. cbn [append Py.replace Ascii.eqb Bool.eqb].
  rewrite replace_pad2. cbn [append Py.replace Ascii.eqb Bool.eqb].
  rewrite replace_pad2. cbn [append Py.replace Ascii.eqb Bool.eqb].
  rewrite replace_pad2. cbn [append Py.replace Ascii.eqb Bool.eqb].
  rewrite replace_pad2. cbn [append Py.replace Ascii.eqb Bool.eqb].
  rewrite replace_pad2. cbn [append Py.replace Ascii.eqb Bool.eqb].
  unfold pad4, pad2. cbn [append]. unfold Backend.fromisoformat_seconds.
  destruct (two_digits_century (year t)) as [Y1 Y2]; [ lia | ].
  rewrite Y1, Y2, !two_digits_pad by lia.
  change (Backend.offset_of "+00:00") with (Some (Some 0)).
  cbv zeta.
  replace (100 * (year t / 100) + year t mod 100) with (year t)
    by (Z.div_mod_to_equations; lia).
  assert (C : (1 <=? year t) && (1 <=? month t) && (month t <=? 12) && (1 <=? day t)
              && (day t <=? days_in_month (year t) (month t)) && (hour t <=? 23)
              && (minute t <=? 59) && (second t <=? 59) = true).
  { repeat (apply andb_true_iff; split); apply Z.leb_le; lia. }
  rewrite C. cbn [option_map]. f_equal.
  unfold instant. cbn [year month day hour minute second tzinfo].
  destruct Hu as [-> | ->]; reflexivity.
Qed.

(** ** What the queries return, in terms of instants *)

Section InUtc.

Variable float : Type.
Variable fromisoformat : string -> option datetime.

#[local] Abbreviation storm_of req :=
  (match Backend.arg_storm_id req with
   | Some s => s
   | None => Backend.DEFAULT_STORM_ID
   end).

(** The lower bound of a filter on a written document, as instants. *)
Lemma bound_written (lo : bool) (b t : datetime) (d : Document float) :
  Stated.well_formed b -> Stated.in_utc b -> Stated.written_at t d ->
  bound_ok lo (Some (strftime_iso b)) d
  = if lo then instant b <=? instant t else instant t <=? instant b.
Proof.
  intros Wb Ub (Hts & Wt & Ut). unfold bound_ok. rewrite Hts.
  destruct lo; now apply strftime_order.
Qed.

Lemma key_leb_written (t1 t2 : datetime) (d1 d2 : Document float) :
  Stated.written_at t1 d1 -> Stated.written_at t2 d2 ->
  key_leb (d_timestamp d1) (d_timestamp d2) = (instant t1 <=? instant t2).
Proof.
  intros (H1 & W1 & U1) (H2 & W2 & U2). rewrite H1, H2. cbn [key_leb].
  now apply strftime_order.
Qed.



End InUtc.

(** ** The two scripts together, on the sample track *)

Lemma sample_points_written (d : Document Sample.degrees) :
  In d [Sample.point_at "S" 10; Sample.point_at "S" 13;
        Sample.point_at "S" 16; Sample.point_at "S" 19] ->
  exists t : datetime, Stated.written_at t d.
Proof.
  intros [<- | [<- | [<- | [<- | []]]]];
    [ exists (mkdt 2020 11 25 10 0 0 (Some 0)) | exists (mkdt 2020 11 25 13 0 0 (Some 0))
    | exists (mkdt 2020 11 25 16 0 0 (Some 0)) | exists (mkdt 2020 11 25 19 0 0 (Some 0)) ];
    (split; [ reflexivity | ]; split; [ | right; reflexivity ];
     unfold Stated.well_formed; cbn; lia).
Qed.



Lemma whole_track_answer_witness :
  let docs := [Sample.point_at "S" 13; Sample.point_at "T" 16; Sample.point_at "S" 10] in
  let req := Backend.mkRequest None (Some "2020-11-25T13:00:00Z") None (Some "S") in
  exists result : list (Document Sample.degrees),
    Backend.select Backend.fromisoformat_seconds (Backend.serving docs) req = inr result
    /\ Permutation result (filter (storm_is "S") docs)
    /\ Sorted (fun a b => key_leb (d_timestamp a) (d_timestamp b) = true) result.
Proof.
  cbv zeta.
  apply (whole_track_answer Sample.degrees Backend.fromisoformat_seconds
           [Sample.point_at "S" 13; Sample.point_at "T" 16; Sample.point_at "S" 10]
           (Backend.mkRequest None (Some "2020-11-25T13:00:00Z") None (Some "S")));
    reflexivity.
Defined.


(** The sample track is loaded into an empty collection and then queried
    for the default storm: an instant between its two points gives the
    earlier one, the instant of the later one gives the later one, an
    instant before both gives the earlier one, and the range that covers
    both gives both in order. *)
Example load_then_query :
  let docs := fst (Sample.main (Some Sample.track_kmz) Loader.NoFault []) in
  let ask ts := Sample.get_track_data (Some (Backend.serving docs))
                  (Backend.mkRequest (Some ts) None None None) in
  let first_point :=
    Backend.mkFeature (float := Sample.degrees) (mkGeometry "Point" [88; 12])
      (Backend.mkProperties (Some "2020-11-25T12:00:00Z") (Some 65) (Some 987)
                            (Some "BESTTRACK_2020")) in
  let second_point :=
    Backend.mkFeature (float := Sample.degrees) (mkGeometry "Point" [90; 14])
      (Backend.mkProperties (Some "2020-11-25T18:00:00Z") None None
                            (Some "BESTTRACK_2020")) in
  ask "2020-11-25T15:00:00Z" = Backend.FeatureCollection [first_point]
  /\ ask "2020-11-25T18:00:00Z" = Backend.FeatureCollection [second_point]
  /\ ask "2020-11-24T00:00:00Z" = Backend.FeatureCollection [first_point]
  /\ Sample.get_track_data (Some (Backend.serving docs))
       (Backend.mkRequest None (Some "2020-11-25T12:00:00Z")
                          (Some "2020-11-25T18:00:00Z") None)
     = Backend.FeatureCollection [first_point; second_point].
Proof. vm_compute. repeat split. Qed.

(* ================================================================== *)
(** * Further properties of the two scripts *)
(* ================================================================== *)

(** ** Pieces of text *)

Lemma prefix_cons (a b : ascii) (s t : string) :
  String.prefix (String a s) (String b t) = Ascii.eqb a b && String.prefix s t.
Proof.
  cbn [String.prefix]. destruct (ascii_dec a b) as [-> | N].
  - now rewrite Ascii.eqb_refl.
  - apply Ascii.eqb_neq in N. now rewrite N.
Qed.

Lemma prefix_nil_r (s : string) : String.prefix s EmptyString = true -> s = EmptyString.
Proof. destruct s; [ reflexivity | discriminate ]. Qed.

Lemma prefix_refl_app (s t : string) : String.prefix s (s ++ t)%string = true.
Proof.
  induction s as [| a s IH]; [ now destruct t | ].
  cbn [append]. now rewrite prefix_cons, Ascii.eqb_refl.
Qed.

Lemma prefix_app_r (p s t : string) :
  String.prefix p s = true -> String.prefix p (s ++ t)%string = true.
Proof.
  revert s. induction p as [| a p IH]; intros s H; [ now destruct (s ++ t)%string | ].
  destruct s as [| b s]; [ discriminate H | ].
  cbn [append]. rewrite prefix_cons in *.
  apply andb_true_iff in H. destruct H as [-> H]. now apply IH.
Qed.

Lemma append_nil_r (s : string) : (s ++ EmptyString)%string = s.
Proof. induction s as [| a s IH]; [ reflexivity | cbn; now rewrite IH ]. Qed.

Lemma append_assoc (a b c : string) : ((a ++ b) ++ c)%string = (a ++ b ++ c)%string.
Proof. induction a as [| x a IH]; [ reflexivity | cbn; now rewrite IH ]. Qed.

(** [sub in s] as the text before and after an occurrence. *)
Lemma contains_app (sub a b : string) : Py.contains sub (a ++ sub ++ b)%string = true.
Proof.
  induction a as [| x a IH].
  - cbn [append]. destruct (sub ++ b)%string eqn:E.
    + cbn [Py.contains]. destruct sub; [ reflexivity | discriminate E ].
    + cbn [Py.contains]. rewrite <- E, prefix_refl_app. reflexivity.
  - cbn [append Py.contains]. rewrite IH. apply orb_true_r.
Qed.

Lemma contains_extend (sub a b : string) :
  Py.contains sub a = true -> Py.contains sub (a ++ b)%string = true.
Proof.
  induction a as [| x a IH]; intros H.
  - cbn [Py.contains] in H. rewrite orb_false_r in H.
    apply prefix_nil_r in H. subst sub. now destruct b.
  - cbn [append Py.contains] in *. apply orb_true_iff in H. destruct H as [H | H].
    + change (String x (a ++ b)%string) with (String x a ++ b)%string.
      now rewrite (prefix_app_r _ _ b H).
    + rewrite (IH H). apply orb_true_r.
Qed.

(** A character that a text lacks. *)
Lemma lacks_char (x : ascii) (v : string) :
  Py.contains (String x EmptyString) v = false ->
  Py.all_chars (fun c => negb (Ascii.eqb c x)) v = true.
Proof.
  induction v as [| c v IH]; [ reflexivity | ].
  cbn [Py.contains Py.all_chars]. rewrite prefix_cons. intros H.
  apply orb_false_iff in H. destruct H as [H1 H2].
  assert (E : Ascii.eqb x c = false).
  { destruct (Ascii.eqb x c); [ | reflexivity ]. now destruct v. }
  rewrite Ascii.eqb_sym, E. cbn [negb andb]. now apply IH.
Qed.

(** A pattern whose character [x] comes after [m1], which lacks it, laid
    over a text whose first [x] comes after [v]: the two stretches before
    [x] coincide. *)
Lemma prefix_aligned (x : ascii) (m1 m2 v rest : string) :
  Py.all_chars (fun c => negb (Ascii.eqb c x)) m1 = true ->
  Py.all_chars (fun c => negb (Ascii.eqb c x)) v = true ->
  String.prefix (m1 ++ String x m2)%string (v ++ String x rest)%string = true ->
  v = m1 /\ String.prefix m2 rest = true.
Proof.
  revert v. induction m1 as [| a m1 IH]; intros v Hm Hv H.
  - destruct v as [| b v].
    + cbn [append] in H. rewrite prefix_cons, Ascii.eqb_refl in H. now split.
    + cbn [append] in H. rewrite prefix_cons in H.
      cbn [Py.all_chars] in Hv. apply andb_true_iff in Hv. destruct Hv as [Hb _].
      rewrite Ascii.eqb_sym in Hb. destruct (Ascii.eqb x b); discriminate.
  - cbn [Py.all_chars] in Hm. apply andb_true_iff in Hm. destruct Hm as [Ha Hm].
    destruct v as [| b v].
    + cbn [append] in H. rewrite prefix_cons in H.
      destruct (Ascii.eqb a x); discriminate.
    + cbn [Py.all_chars] in Hv. apply andb_true_iff in Hv. destruct Hv as [_ Hv].
      cbn [append] in H. rewrite prefix_cons in H.
      apply andb_true_iff in H. destruct H as [E H]. apply Ascii.eqb_eq in E. subst b.
      destruct (IH v Hm Hv H) as [-> Hp]. now split.
Qed.

(** A pattern that holds [x] does not occur in a text that lacks it. *)
Lemma prefix_needs (x : ascii) (m1 m2 v : string) :
  Py.all_chars (fun c => negb (Ascii.eqb c x)) v = true ->
  String.prefix (m1 ++ String x m2)%string v = false.
Proof.
  revert v. induction m1 as [| a m1 IH]; intros [| b v] Hv; try reflexivity.
  - cbn [append]. rewrite prefix_cons.
    cbn [Py.all_chars] in Hv. apply andb_true_iff in Hv. destruct Hv as [Hb _].
    rewrite Ascii.eqb_sym in Hb. now destruct (Ascii.eqb x b).
  - cbn [append]. rewrite prefix_cons.
    cbn [Py.all_chars] in Hv. apply andb_true_iff in Hv. destruct Hv as [_ Hv].
    rewrite (IH v Hv). apply andb_false_r.
Qed.

Lemma contains_needs (x : ascii) (m1 m2 v : string) :
  Py.all_chars (fun c => negb (Ascii.eqb c x)) v = true ->
  Py.contains (m1 ++ String x m2)%string v = false.
Proof.
  induction v as [| b v IH]; intros Hv.
  - cbn [Py.contains]. now rewrite prefix_needs.
  - cbn [Py.contains]. rewrite (prefix_needs x m1 m2 _ Hv).
    cbn [Py.all_chars] in Hv. apply andb_true_iff in Hv. destruct Hv as [_ Hv].
    now rewrite IH.
Qed.

(** ** [str.split] *)

(** The characters of a separator that was just met are passed over. *)
Lemma split_aux_skip (sep : string) (left : option nat) (piece t s : string) :
  Py.split_aux sep left (String.length t) piece (t ++ s)%string
  = Py.split_aux sep left 0 piece s.
Proof.
  induction t as [| a t IH]; [ reflexivity | ].
  cbn [String.length append Py.split_aux]. exact IH.
Qed.

(** No cut is made where the separator does not start. *)
Lemma split_aux_step (sep : string) (left : option nat) (piece : string)
      (c : ascii) (s : string) :
  String.prefix sep (String c s) = false ->
  Py.split_aux sep left 0 piece (String c s)
  = Py.split_aux sep left 0 (piece ++ String c EmptyString)%string s.
Proof.
  intros H. cbn [Py.split_aux]. rewrite H. now destruct left as [[| n] |].
Qed.

(** A separator whose first character does not come back in it: an
    occurrence cannot start before the end of a text that does not hold
    one. *)
Lemma prefix_straddle (c : ascii) (t pre rest : string) :
  Py.all_chars (fun x => negb (Ascii.eqb x c)) t = true ->
  String.prefix t (pre ++ String c rest)%string = true ->
  String.prefix t pre = true.
Proof.
  revert pre. induction t as [| a t IH]; intros pre Ht H; [ now destruct pre | ].
  cbn [Py.all_chars] in Ht. apply andb_true_iff in Ht. destruct Ht as [Ha Ht].
  destruct pre as [| b pre].
  - cbn [append] in H. rewrite prefix_cons in H.
    destruct (Ascii.eqb a c); discriminate.
  - cbn [append] in H. rewrite prefix_cons in *.
    apply andb_true_iff in H. destruct H as [-> H]. now apply IH.
Qed.

Lemma no_cut_before (c : ascii) (t pre post : string) :
  Py.all_chars (fun x => negb (Ascii.eqb x c)) t = true ->
  String.prefix (String c t) pre = false -> pre <> EmptyString ->
  String.prefix (String c t) (pre ++ String c t ++ post)%string = false.
Proof.
  intros Ht H Hne. destruct pre as [| b pre]; [ contradiction | ].
  cbn [append]. rewrite prefix_cons in *.
  destruct (Ascii.eqb c b); [ | reflexivity ]. cbn [andb] in *.
  destruct (String.prefix t (pre ++ String c (t ++ post))%string) eqn:E; [ | reflexivity ].
  apply prefix_straddle in E; [ congruence | exact Ht ].
Qed.

(** The text before the first occurrence is the first piece. *)
Lemma split_aux_first (c : ascii) (t : string) (left : option nat)
      (piece pre post : string) :
  Py.all_chars (fun x => negb (Ascii.eqb x c)) t = true ->
  Py.contains (String c t) pre = false ->
  left <> Some 0%nat ->
  Py.split_aux (String c t) left 0 piece (pre ++ String c t ++ post)%string
  = (piece ++ pre)%string
    :: Py.split_aux (String c t) (match left with Some n => Some (Nat.pred n) | None => None end)
         0 EmptyString post.
Proof.
  intros Ht. revert piece. induction pre as [| b pre IH]; intros piece Hc Hl.
  - cbn [append]. rewrite append_nil_r.
    cbn [Py.split_aux]. rewrite <- (append_nil_r t) at 1.
    change (String c (t ++ EmptyString)%string) with (String c t ++ EmptyString)%string.
    rewrite append_nil_r.
    assert (P : String.prefix (String c t) (String c (t ++ post)%string) = true).
    { rewrite prefix_cons, Ascii.eqb_refl. apply prefix_refl_app. }
    rewrite P. cbn [String.length].
    replace (S (String.length t) - 1)%nat with (String.length t) by lia.
    destruct left as [[| n] |]; [ contradiction | | ];
      now rewrite split_aux_skip.
  - cbn [Py.contains] in Hc. apply orb_false_iff in Hc. destruct Hc as [Hp Hc].
    change (String b pre ++ String c t ++ post)%string
      with (String b (pre ++ String c t ++ post)%string).
    rewrite split_aux_step.
    + rewrite (IH _ Hc Hl). now rewrite append_assoc.
    + change (String b (pre ++ String c t ++ post)%string)
        with (String b pre ++ String c t ++ post)%string.
      apply no_cut_before; [ exact Ht | exact Hp | discriminate ].
Qed.

(** Without an occurrence, or without a cut left to make, the text is one
    piece. *)
Lemma split_aux_whole (sep : string) (left : option nat) (piece s : string) :
  Py.contains sep s = false \/ left = Some 0%nat ->
  Py.split_aux sep left 0 piece s = [(piece ++ s)%string].
Proof.
  revert piece. induction s as [| b s IH]; intros piece H.
  - cbn. now rewrite append_nil_r.
  - cbn [Py.split_aux].
    assert (E : Py.split_aux sep left 0 (piece ++ String b EmptyString)%string s
                = [(piece ++ String b s)%string]).
    { rewrite IH.
      - now rewrite append_assoc.
      - destruct H as [H | H]; [ left | now right ].
        cbn [Py.contains] in H. now apply orb_false_iff in H. }
    destruct left as [[| n] |]; try exact E;
      (destruct H as [H | H]; [ | discriminate H ]);
      cbn [Py.contains] in H; apply orb_false_iff in H; destruct H as [-> _]; exact E.
Qed.

(** The first piece is the text up to some point. *)
Lemma split_aux_head (sep : string) (piece s : string) :
  exists p rest q,
    Py.split_aux sep None 0 piece s = (piece ++ p)%string :: rest
    /\ s = (p ++ q)%string.
Proof.
  revert piece. induction s as [| b s IH]; intros piece.
  - exists EmptyString, [], EmptyString. cbn. now rewrite append_nil_r.
  - cbn [Py.split_aux]. destruct (String.prefix sep (String b s)).
    + exists EmptyString. eexists. exists (String b s).
      rewrite append_nil_r. split; reflexivity.
    + destruct (IH (piece ++ String b EmptyString)%string) as (p & rest & q & E & ->).
      exists (String b p), rest, q. rewrite E, append_assoc. split; reflexivity.
Qed.

(** ** The cell that follows a label *)

Section Cell.

(** A label marker [String c t], which is also [m1 ++ "<" ++ m2]: its
    first character does not come back in it nor in a closing tag, and
    what follows its first [<] is not the rest of a closing tag. *)
Variables (c : ascii) (t m1 m2 : string).
Hypothesis shape : String c t = (m1 ++ String "<" m2)%string.
Hypothesis head_once : Py.all_chars (fun x => negb (Ascii.eqb x c)) t = true.
Hypothesis head_not_in_tag : Py.all_chars (fun x => negb (Ascii.eqb x c)) "</td>" = true.
Hypothesis before_bracket : Py.all_chars (fun x => negb (Ascii.eqb x "<")) m1 = true.
Hypothesis not_a_tag : forall r : string, String.prefix m2 ("/td>" ++ r)%string = false.

Lemma marker_not_in_tag (a : ascii) (s : string) :
  negb (Ascii.eqb a c) = true -> String.prefix (String c t) (String a s) = false.
Proof.
  intros H. rewrite prefix_cons, Ascii.eqb_sym.
  now destruct (Ascii.eqb a c).
Qed.

(** The marker does not start inside a value without [<], nor inside the
    closing tag that follows it. *)
Lemma split_aux_value (v post piece : string) :
  Py.all_chars (fun x => negb (Ascii.eqb x "<")) v = true ->
  Py.split_aux (String c t) None 0 piece (v ++ "</td>" ++ post)%string
  = Py.split_aux (String c t) None 0 (piece ++ v ++ "</td>")%string post.
Proof.
  revert piece. induction v as [| a v IH]; intros piece Hv.
  - cbn [append]. cbn [Py.all_chars] in head_not_in_tag.
    repeat (apply andb_true_iff in head_not_in_tag;
            destruct head_not_in_tag as [?H head_not_in_tag]).
    repeat (rewrite split_aux_step by (now apply marker_not_in_tag)).
    now rewrite !append_assoc.
  - change (String a v ++ "</td>" ++ post)%string
      with (String a (v ++ "</td>" ++ post)%string).
    rewrite split_aux_step.
    + cbn [Py.all_chars] in Hv. apply andb_true_iff in Hv. destruct Hv as [_ Hv'].
      rewrite (IH _ Hv'). now rewrite append_assoc.
    + destruct (String.prefix (String c t) (String a (v ++ "</td>" ++ post)%string)) eqn:E;
        [ | reflexivity ].
      rewrite shape in E.
      change (String a (v ++ "</td>" ++ post)%string)
        with (String a v ++ String "<" ("/td>" ++ post))%string in E.
      apply prefix_aligned in E; [ | exact before_bracket | exact Hv ].
      destruct E as [_ E]. now rewrite not_a_tag in E.
Qed.

(** What the two subscripted splits of a block read: the text between the
    first marker and the closing tag that follows it. *)
Lemma cell_of_label (pre v post : string) :
  Py.contains (String c t) pre = false ->
  Py.all_chars (fun x => negb (Ascii.eqb x "<")) v = true ->
  Py.contains (String c t) (pre ++ String c t ++ v ++ "</td>" ++ post)%string = true
  /\ exists part p q : string,
       nth_error (Py.split (pre ++ String c t ++ v ++ "</td>" ++ post)%string (String c t)) 1
       = Some part
       /\ part = (v ++ "</td>" ++ p)%string /\ post = (p ++ q)%string
       /\ nth_error (Py.split part "</td>") 0 = Some v.
Proof.
  intros Hpre Hv.
  split; [ apply contains_app | ].
  destruct (split_aux_head (String c t) (EmptyString ++ v ++ "</td>")%string post)
    as (p & rest & q & E & Hq).
  exists (v ++ "</td>" ++ p)%string, p, q.
  split; [ | split; [ reflexivity | split; [ exact Hq | ] ] ].
  - unfold Py.split.
    rewrite split_aux_first by (first [ exact head_once | exact Hpre | discriminate ]).
    cbn [nth_error].
    rewrite (split_aux_value v post EmptyString Hv), E.
    cbn [nth_error]. f_equal.
    change (EmptyString ++ v ++ "</td>")%string with (v ++ "</td>")%string.
    apply append_assoc.
  - unfold Py.split.
    change (v ++ "</td>" ++ p)%string with (v ++ String "<" "/td>" ++ p)%string.
    rewrite split_aux_first.
    + reflexivity.
    + reflexivity.
    + apply (contains_needs "<" EmptyString "/td>" v Hv).
    + discriminate.
Qed.

End Cell.

Lemma all_chars_app (p : ascii -> bool) (a b : string) :
  Py.all_chars p (a ++ b)%string = Py.all_chars p a && Py.all_chars p b.
Proof.
  induction a as [| x a IH]; [ reflexivity | ].
  cbn [append Py.all_chars]. now rewrite IH, andb_assoc.
Qed.

(** The three labels of the description have the shape the cell lemma
    asks for. *)
Lemma dtg_cell (pre v post : string) :
  Py.contains Loader.DTG_MARKER pre = false ->
  Py.all_chars (fun x => negb (Ascii.eqb x "<")) v = true ->
  Py.contains Loader.DTG_MARKER (pre ++ Loader.DTG_MARKER ++ v ++ "</td>" ++ post)%string
  = true
  /\ exists part p q : string,
       nth_error (Py.split (pre ++ Loader.DTG_MARKER ++ v ++ "</td>" ++ post)%string
                           Loader.DTG_MARKER) 1 = Some part
       /\ part = (v ++ "</td>" ++ p)%string /\ post = (p ++ q)%string
       /\ nth_error (Py.split part "</td>") 0 = Some v.
Proof.
  apply (cell_of_label "D" "TG </B></td><td>" "DTG " "/B></td><td>");
    first [ reflexivity | intros r; reflexivity ].
Qed.

Lemma intensity_cell (pre v post : string) :
  Py.contains Loader.INTENSITY_MARKER pre = false ->
  Py.all_chars (fun x => negb (Ascii.eqb x "<")) v = true ->
  Py.contains Loader.INTENSITY_MARKER
    (pre ++ Loader.INTENSITY_MARKER ++ v ++ "</td>" ++ post)%string = true
  /\ exists part p q : string,
       nth_error (Py.split (pre ++ Loader.INTENSITY_MARKER ++ v ++ "</td>" ++ post)%string
                           Loader.INTENSITY_MARKER) 1 = Some part
       /\ part = (v ++ "</td>" ++ p)%string /\ post = (p ++ q)%string
       /\ nth_error (Py.split part "</td>") 0 = Some v.
Proof.
  apply (cell_of_label "I" "ntensity </B></td><td>" "Intensity " "/B></td><td>");
    first [ reflexivity | intros r; reflexivity ].
Qed.

Lemma mslp_cell (pre v post : string) :
  Py.contains Loader.MSLP_MARKER pre = false ->
  Py.all_chars (fun x => negb (Ascii.eqb x "<")) v = true ->
  Py.contains Loader.MSLP_MARKER (pre ++ Loader.MSLP_MARKER ++ v ++ "</td>" ++ post)%string
  = true
  /\ exists part p q : string,
       nth_error (Py.split (pre ++ Loader.MSLP_MARKER ++ v ++ "</td>" ++ post)%string
                           Loader.MSLP_MARKER) 1 = Some part
       /\ part = (v ++ "</td>" ++ p)%string /\ post = (p ++ q)%string
       /\ nth_error (Py.split part "</td>") 0 = Some v.
Proof.
  apply (cell_of_label "M" "SLP </B></td><td>" "MSLP " "/B></td><td>");
    first [ reflexivity | intros r; reflexivity ].
Qed.

(** The unit suffix with its closing tag occurs in a cell and what
    follows it only where the value itself ends with the unit, or further
    on. *)
Lemma unit_not_in_cell (v p : string) :
  Py.all_chars (fun x => negb (Ascii.eqb x "<")) v = true ->
  Py.endswith v " mb" = false ->
  Py.contains " mb</td>" p = false ->
  Py.contains " mb</td>" (v ++ "</td>" ++ p)%string = false.
Proof.
  intros Hv He Hp. induction v as [| a v IH].
  - cbn [append Py.contains]. rewrite !prefix_cons. cbn. exact Hp.
  - cbn [Py.endswith] in He. apply orb_false_iff in He. destruct He as [Hne He].
    change (String a v ++ "</td>" ++ p)%string with (String a (v ++ "</td>" ++ p)%string).
    cbn [Py.contains].
    destruct (String.prefix " mb</td>" (String a (v ++ "</td>" ++ p)%string)) eqn:E.
    + change (String a (v ++ "</td>" ++ p)%string)
        with (String a v ++ String "<" ("/td>" ++ p))%string in E.
      apply (prefix_aligned "<" " mb" "/td>") in E; [ | reflexivity | exact Hv ].
      destruct E as [E _]. rewrite E in Hne. discriminate Hne.
    + cbn [orb]. apply IH; [ | exact He ].
      cbn [Py.all_chars] in Hv. now apply andb_true_iff in Hv.
Qed.

(** X5.  The date-time group is read from the cell that follows the first
    DTG label: for a value that holds no [<], the text up to the closing
    tag, trimmed.  What precedes the label and what follows the cell play
    no part, a second DTG label included. *)
Theorem dtg_read_from_first_cell :
  forall (pre v post : string) (n : Z),
    Py.contains Loader.DTG_MARKER pre = false ->
    Py.contains "<" v = false ->
    Loader.dtg_value (pre ++ Loader.DTG_MARKER ++ v ++ "</td>" ++ post)%string
    = Some (Py.strip v)
    /\ Loader.extract_timestamp n (pre ++ Loader.DTG_MARKER ++ v ++ "</td>" ++ post)%string
       = Loader.extract_timestamp n (Loader.DTG_MARKER ++ v ++ "</td>")%string.
Proof.
  intros pre v post n Hpre Hv. apply lacks_char in Hv.
  destruct (dtg_cell pre v post Hpre Hv) as (Hc & part & p & q & Hpart & _ & _ & Hcell).
  destruct (dtg_cell EmptyString v EmptyString eq_refl Hv)
    as (Hc' & part' & p' & q' & Hpart' & _ & _ & Hcell').
  change (EmptyString ++ Loader.DTG_MARKER ++ v ++ "</td>" ++ EmptyString)%string
    with (Loader.DTG_MARKER ++ v ++ "</td>")%string in Hc', Hpart'.
  split.
  - unfold Loader.dtg_value. now rewrite Hc, Hpart, Hcell.
  - unfold Loader.extract_timestamp.
    now rewrite Hc, Hpart, Hcell, Hc', Hpart', Hcell'.
Qed.

(** X6.  The wind is [int] of the cell that follows the first Intensity
    label, for a value that holds no [<], trimmed: digits with an optional
    sign; an empty cell or any other text leaves it unset.  What precedes
    the label and what follows the cell play no part. *)
Theorem wind_read_from_first_cell :
  forall pre v post : string,
    Py.contains Loader.INTENSITY_MARKER pre = false ->
    Py.contains "<" v = false ->
    Loader.extract_wind (pre ++ Loader.INTENSITY_MARKER ++ v ++ "</td>" ++ post)%string
    = Py.int (Py.strip v).
Proof.
  intros pre v post Hpre Hv. apply lacks_char in Hv.
  destruct (intensity_cell pre v post Hpre Hv)
    as (Hc & part & p & q & Hpart & _ & _ & Hcell).
  unfold Loader.extract_wind. rewrite Hc, Hpart, Hcell. cbv zeta.
  now destruct (Py.strip v).
Qed.

(** X7.  The pressure is read from the cell that follows the first MSLP
    label, for a value that holds no [<].  A value followed by the unit is
    cut before the unit whatever comes later; a value without it is read
    up to the closing tag provided no cell further on carries the unit.
    In both cases the trimmed value gives a pressure only when it is made
    of digits. *)
Theorem pressure_read_from_first_cell :
  (forall pre w post : string,
      Py.contains Loader.MSLP_MARKER pre = false ->
      Py.contains "<" w = false ->
      Loader.extract_pressure (pre ++ Loader.MSLP_MARKER ++ w ++ " mb</td>" ++ post)%string
      = if Py.isdigit (Py.strip w) then Py.int (Py.strip w) else None)
  /\ (forall pre v post : string,
         Py.contains Loader.MSLP_MARKER pre = false ->
         Py.contains "<" v = false ->
         Py.endswith v " mb" = false ->
         Py.contains " mb</td>" post = false ->
         Loader.extract_pressure (pre ++ Loader.MSLP_MARKER ++ v ++ "</td>" ++ post)%string
         = if Py.isdigit (Py.strip v) then Py.int (Py.strip v) else None).
Proof.
  split.
  - intros pre w post Hpre Hw. apply lacks_char in Hw.
    assert (Hv : Py.all_chars (fun x => negb (Ascii.eqb x "<")) (w ++ " mb")%string = true).
    { rewrite all_chars_app, Hw. reflexivity. }
    destruct (mslp_cell pre (w ++ " mb")%string post Hpre Hv)
      as (Hc & part & p & q & Hpart & Hp & _ & _).
    replace ((w ++ " mb") ++ "</td>" ++ post)%string with (w ++ " mb</td>" ++ post)%string
      in Hc, Hpart by (now rewrite append_assoc).
    replace ((w ++ " mb") ++ "</td>" ++ p)%string with (w ++ " mb</td>" ++ p)%string
      in Hp by (now rewrite append_assoc).
    unfold Loader.extract_pressure. rewrite Hc, Hpart, Hp.
    rewrite contains_app. unfold Py.split.
    rewrite (split_aux_first " " "mb</td>" None EmptyString w p);
      [ | reflexivity | apply (contains_needs "<" " mb" "/td>" w Hw) | discriminate ].
    cbn [nth_error append]. unfold Py.isdigit. now destruct (Py.truthy (Py.strip w)).
  - intros pre v post Hpre Hv He Hpost. apply lacks_char in Hv.
    destruct (mslp_cell pre v post Hpre Hv)
      as (Hc & part & p & q & Hpart & Hp & Hq & Hcell).
    assert (Hnone : Py.contains " mb</td>" part = false).
    { rewrite Hp. apply unit_not_in_cell; [ exact Hv | exact He | ].
      destruct (Py.contains " mb</td>" p) eqn:E; [ | reflexivity ].
      apply (contains_extend _ _ q) in E. rewrite <- Hq in E. congruence. }
    unfold Loader.extract_pressure. rewrite Hc, Hpart, Hnone, Hcell.
    unfold Py.isdigit. now destruct (Py.truthy (Py.strip v)).
Qed.

(** ** The declaration at the head of the markup *)

Lemma space_not_question (w : ascii) : Py.isspace w = true -> Ascii.eqb "?" w = false.
Proof.
  intros H. destruct (Ascii.eqb_spec "?" w) as [<- | _]; [ discriminate H | reflexivity ].
Qed.

Lemma lstrip_blanks (ws s : string) :
  Py.all_chars Py.isspace ws = true -> Py.lstrip (ws ++ s)%string = Py.lstrip s.
Proof.
  induction ws as [| w ws IH]; intros H; [ reflexivity | ].
  cbn [Py.all_chars] in H. apply andb_true_iff in H. destruct H as [Hw H].
  cbn [append Py.lstrip]. rewrite Hw. now apply IH.
Qed.

Lemma rstrip_cons (c : ascii) (s : string) :
  Py.isspace c = false -> Py.rstrip (String c s) = String c (Py.rstrip s).
Proof. intros H. cbn [Py.rstrip]. rewrite H. now destruct (Py.rstrip s). Qed.

Lemma no_end_in_blanks (ws s : string) :
  Py.all_chars Py.isspace ws = true ->
  Py.contains "?>" (ws ++ s)%string = Py.contains "?>" s.
Proof.
  induction ws as [| w ws IH]; intros H; [ reflexivity | ].
  cbn [Py.all_chars] in H. apply andb_true_iff in H. destruct H as [Hw H].
  cbn [append Py.contains]. rewrite prefix_cons, (space_not_question w Hw).
  now apply IH.
Qed.

Lemma no_end_in_opening (s : string) :
  Py.contains "?>" ("<?xml" ++ s)%string = Py.contains "?>" s.
Proof. cbn [append Py.contains]. rewrite !prefix_cons. reflexivity. Qed.

Lemma strip_declaration_body (ws attrs body : string) :
  Py.all_chars Py.isspace ws = true ->
  Py.contains "?>" attrs = false ->
  Loader.strip_declaration (ws ++ "<?xml" ++ attrs ++ "?>" ++ body)%string = body.
Proof.
  intros Hws Ha. unfold Loader.strip_declaration.
  assert (Hstart : Py.startswith
                     (Py.strip (ws ++ "<?xml" ++ attrs ++ "?>" ++ body)%string) "<?xml"
                   = true).
  { unfold Py.startswith, Py.strip. rewrite (lstrip_blanks _ _ Hws).
    cbn [append Py.lstrip]. change (Py.isspace "<") with false. cbv iota.
    rewrite !rstrip_cons by reflexivity.
    apply (prefix_refl_app "<?xml"). }
  rewrite Hstart. unfold Py.split_max.
  replace (ws ++ "<?xml" ++ attrs ++ "?>" ++ body)%string
    with ((ws ++ "<?xml" ++ attrs) ++ String "?" ">" ++ body)%string
    by (now rewrite !append_assoc).
  rewrite split_aux_first.
  - cbn [Nat.pred]. rewrite split_aux_whole by (now right). reflexivity.
  - reflexivity.
  - now rewrite (no_end_in_blanks _ _ Hws), no_end_in_opening.
  - discriminate.
Qed.

(** X8.  A declaration at the head of the markup, blanks before it
    included, is removed up to its first [?>] and the rest is kept as it
    is; a text that does not start with one, or whose declaration is not
    closed, is left alone. *)
Theorem declaration_removed_up_to_its_end :
  (forall ws attrs body : string,
      Py.all_chars Py.isspace ws = true ->
      Py.contains "?>" attrs = false ->
      Loader.strip_declaration (ws ++ "<?xml" ++ attrs ++ "?>" ++ body)%string = body)
  /\ (forall s : string, Py.contains "?>" s = false -> Loader.strip_declaration s = s)
  /\ (forall s : string,
         Py.startswith (Py.strip s) "<?xml" = false -> Loader.strip_declaration s = s).
Proof.
  split; [ | split ].
  - exact strip_declaration_body.
  - intros s H. unfold Loader.strip_declaration, Py.split_max.
    rewrite split_aux_whole by (now left).
    now destruct (Py.startswith (Py.strip s) "<?xml").
  - intros s H. unfold Loader.strip_declaration. now rewrite H.
Qed.

(** ** The archive *)

Lemma read_absent (kmz : Loader.ZipFile) (name : string) :
  ~ In name (map fst kmz) -> Loader.read kmz name = None.
Proof.
  induction kmz as [| [n content] kmz IH]; intros H; [ reflexivity | ].
  cbn [Loader.read map fst In] in *.
  rewrite IH by tauto.
  destruct (String.eqb_spec n name) as [E | _]; [ | reflexivity ].
  exfalso. apply H. now left.
Qed.

Lemma read_entry (before after : Loader.ZipFile) (name : string) (content : list Byte.byte) :
  ~ In name (map fst after) ->
  Loader.read (before ++ (name, content) :: after) name = Some content.
Proof.
  intros H. induction before as [| [n c] before IH].
  - cbn [app Loader.read]. now rewrite (read_absent _ _ H), String.eqb_refl.
  - cbn [app Loader.read]. now rewrite IH.
Qed.

Lemma no_kml_names (kmz : Loader.ZipFile) :
  Forall (fun e => Py.endswith (Py.lower (fst e)) ".kml" = false) kmz ->
  filter (fun f => Py.endswith (Py.lower f) ".kml") (Loader.namelist kmz) = [].
Proof.
  induction 1 as [| e kmz He _ IH]; [ reflexivity | ].
  cbn [Loader.namelist map filter]. rewrite He. exact IH.
Qed.


(** ** Coordinates *)

Section Coordinates.

Variable float : Type.
Variable float_of_str : string -> option float.

(** X10.  The coordinates are read from the first text found, trimmed and
    cut at its commas: the first two components are the longitude and
    the latitude, in that order, and a third one and whatever follows are
    not looked at.  A text without a comma sets neither and is reported;
    a latitude that does not parse leaves the longitude set alone. *)
Theorem coordinates_are_the_first_two_components :
  forall (namespaces : option string) (n : Z) (pm : node) (first : string)
         (others : list string),
    Loader.qualified_then_bare namespaces
      (fun q => xpath_text2 q "Point" "coordinates" pm) = first :: others ->
    (forall a b tail : string,
        Py.strip first = (a ++ "," ++ b ++ tail)%string ->
        Py.contains "," a = false -> Py.contains "," b = false ->
        tail = EmptyString \/ String.prefix "," tail = true ->
        Loader.get_coordinates float float_of_str namespaces n pm
        = match float_of_str a, float_of_str b with
          | Some lon, Some lat => (Some lon, Some lat, [])
          | Some lon, None => (Some lon, None, [Loader.BadCoordinates n first])
          | None, _ => (None, None, [Loader.BadCoordinates n first])
          end)
    /\ (Py.contains "," (Py.strip first) = false ->
        Loader.get_coordinates float float_of_str namespaces n pm
        = (None, None, [Loader.BadCoordinates n first])).
Proof.
  intros namespaces n pm first others Hq. split.
  - intros a b tail Hs Ha Hb Ht. unfold Loader.get_coordinates. rewrite Hq, Hs.
    unfold Py.split.
    change (a ++ "," ++ b ++ tail)%string with (a ++ String "," EmptyString ++ b ++ tail)%string.
    rewrite split_aux_first; [ | reflexivity | exact Ha | discriminate ].
    destruct Ht as [-> | Ht].
    + rewrite append_nil_r, split_aux_whole by (now left).
      cbn [append].
      destruct (float_of_str a); [ | reflexivity ]. now destruct (float_of_str b).
    + destruct tail as [| x tail]; [ discriminate Ht | ].
      rewrite prefix_cons in Ht. apply andb_true_iff in Ht. destruct Ht as [Hx _].
      apply Ascii.eqb_eq in Hx. subst x.
      change (b ++ String "," tail)%string with (b ++ String "," EmptyString ++ tail)%string.
      rewrite split_aux_first; [ | reflexivity | exact Hb | discriminate ].
      cbn [append].
      destruct (float_of_str a); [ | reflexivity ]. now destruct (float_of_str b).
  - intros H. unfold Loader.get_coordinates. rewrite Hq. unfold Py.split.
    rewrite split_aux_whole by (now left). reflexivity.
Qed.

End Coordinates.

(** ** The warnings of the loop *)

Section Warnings.

Variable float : Type.
Variable float_of_str : string -> option float.

#[local] Abbreviation skipped k := (Loader.SkippedNoTimestamp k).

Lemma get_coordinates_warns (namespaces : option string) (n k : Z) (pm : node) :
  ~ In (skipped k) (snd (Loader.get_coordinates float float_of_str namespaces n pm)).
Proof.
  unfold Loader.get_coordinates.
  destruct (Loader.qualified_then_bare namespaces _) as [| first rest]; [ intros [] | ].
  destruct (Py.split (Py.strip first) ",") as [| lon_str [| lat_str tail]];
    try (intros [H | []]; discriminate H).
  destruct (float_of_str lon_str); [ | intros [H | []]; discriminate H ].
  destruct (float_of_str lat_str); [ intros [] | intros [H | []]; discriminate H ].
Qed.

Lemma parse_description_warns (namespaces : option string) (n k : Z) (pm : node) :
  ~ In (skipped k) (snd (Loader.parse_description namespaces n pm)).
Proof.
  unfold Loader.parse_description.
  destruct (Loader.get_description namespaces pm) as [desc |]; [ | intros [] ].
  destruct (Py.truthy desc); [ | intros [] ].
  unfold Loader.extract_timestamp.
  destruct (Py.contains Loader.DTG_MARKER desc); [ | intros [] ].
  destruct (nth_error (Py.split desc Loader.DTG_MARKER) 1) as [part |];
    [ | intros [H | []]; discriminate H ].
  destruct (nth_error (Py.split part "</td>") 0) as [cell |];
    [ | intros [H | []]; discriminate H ].
  cbv zeta.
  destruct (Py.endswith (Py.strip cell) "Z" && Nat.eqb (String.length (Py.strip cell)) 11);
    [ | intros [H | []]; discriminate H ].
  destruct (strptime_YmdH (Py.but_last (Py.strip cell)));
    [ intros [] | intros [H | []]; discriminate H ].
Qed.

(** The warning of one placemark. *)
Lemma skipped_here (namespaces : option string) (n k : Z) (pm : node) :
  In (skipped k) (snd (Loader.process_placemark float float_of_str namespaces n pm))
  <-> k = n
      /\ (exists lon lat : float,
             fst (Loader.get_coordinates float float_of_str namespaces n pm)
             = (Some lon, Some lat))
      /\ Loader.f_timestamp (fst (Loader.parse_description namespaces n pm)) = None.
Proof.
  unfold Loader.process_placemark.
  pose proof (get_coordinates_warns namespaces n k pm) as Hc.
  pose proof (parse_description_warns namespaces n k pm) as Hd.
  destruct (Loader.get_coordinates float float_of_str namespaces n pm) as [[lon lat] mc].
  destruct (Loader.parse_description namespaces n pm) as [fields md].
  cbn [fst snd] in *.
  destruct lat as [la |], lon as [lo |], (Loader.f_timestamp fields) as [t |];
    cbn [snd]; rewrite ?in_app_iff; cbn [In];
    (split;
     [ intros H; try tauto
     | intros (Hk & (lo' & la' & Hco) & Ht); try discriminate Hco; try discriminate Ht ]).
  - destruct H as [H | [H | [H | []]]]; try tauto.
    injection H as H. split; [ now symmetry | ]. split; [ now exists lo, la | reflexivity ].
  - subst k. right. right. now left.
Qed.

Lemma skipped_from (namespaces : option string) (pms : list node) (n k : Z) :
  In (skipped k) (snd (Loader.process_all float float_of_str namespaces n pms))
  <-> exists (i : nat) (pm : node),
        nth_error pms i = Some pm /\ k = n + 1 + Z.of_nat i
        /\ (exists lon lat : float,
               fst (Loader.get_coordinates float float_of_str namespaces k pm)
               = (Some lon, Some lat))
        /\ Loader.f_timestamp (fst (Loader.parse_description namespaces k pm)) = None.
Proof.
  revert n. induction pms as [| pm rest IH]; intros n.
  - cbn. split; [ intros [] | intros ([| i] & pm & H & _); discriminate H ].
  - cbn [Loader.process_all].
    pose proof (skipped_here namespaces (n + 1) k pm) as Hh.
    specialize (IH (n + 1)).
    destruct (Loader.process_placemark float float_of_str namespaces (n + 1) pm) as [r m].
    destruct (Loader.process_all float float_of_str namespaces (n + 1) rest) as [rs ms].
    cbn [snd] in *. rewrite in_app_iff, Hh, IH. split.
    + intros [(Hk & Hc & Ht) | (i & pm' & Hn & Hk & Hc & Ht)].
      * exists 0%nat, pm. subst k. split; [ reflexivity | ]. split; [ lia | now split ].
      * exists (S i), pm'. split; [ exact Hn | ]. split; [ lia | now split ].
    + intros ([| i] & pm' & Hn & Hk & Hc & Ht).
      * left. injection Hn as <-. replace (n + 1) with k by lia. now split.
      * right. exists i, pm'. split; [ exact Hn | ]. split; [ lia | now split ].
Qed.

(** X11.  The loop reports a placemark as skipped for want of a timestamp
    exactly when its two coordinates were read and its timestamp was not,
    and the number it quotes is the position of that placemark among those
    found, counted from one.  A placemark without coordinates is left out
    without this line. *)
Theorem skipped_placemarks_are_reported_by_position :
  forall (namespaces : option string) (pms : list node) (k : Z),
    In (Loader.SkippedNoTimestamp k)
       (snd (Loader.process_all float float_of_str namespaces 0 pms))
    <-> exists (i : nat) (pm : node),
          nth_error pms i = Some pm /\ k = Z.of_nat i + 1
          /\ (exists lon lat : float,
                 fst (Loader.get_coordinates float float_of_str namespaces k pm)
                 = (Some lon, Some lat))
          /\ Loader.f_timestamp (fst (Loader.parse_description namespaces k pm)) = None
          /\ fst (Loader.process_placemark float float_of_str namespaces k pm) = None.
Proof.
  intros namespaces pms k. rewrite skipped_from.
  split; intros (i & pm & Hn & Hk & Hc & Ht); exists i, pm.
  - split; [ exact Hn | ]. split; [ lia | ]. split; [ exact Hc | ]. split; [ exact Ht | ].
    rewrite process_placemark_eq. destruct Hc as (lo & la & ->). now rewrite Ht.
  - split; [ exact Hn | ]. split; [ lia | ]. split; [ exact Hc | tauto ].
Qed.

End Warnings.

(** ** Records and placemarks *)

Section Records.

Variable float : Type.
Variable float_of_str : string -> option float.

(** X12.  The records extracted from a document are those of its
    placemarks taken in document order, at most one for each (the number
    a placemark is given in the warnings plays no part in its record);
    the two counts the operator reads are the number of placemarks found
    and, on the last line, the number of records, which never exceeds
    it. *)
Theorem records_follow_the_placemarks :
  forall root : node,
    let found := fst (fst (Loader.find_placemarks root)) in
    let namespaces := snd (fst (Loader.find_placemarks root)) in
    let records := fst (Loader.extract_records float float_of_str root) in
    let printed := snd (Loader.extract_records float float_of_str root) in
    records
    = flat_map (fun pm =>
                  match fst (Loader.process_placemark float float_of_str namespaces 0 pm) with
                  | Some r => [r]
                  | None => []
                  end) found
    /\ (List.length records <= List.length found)%nat
    /\ In (Loader.FoundPlacemarks (List.length found)) printed
    /\ exists before, printed = before ++ [Loader.Extracted (List.length records)].
Proof.
  intros root found namespaces records printed.
  subst found namespaces records printed. unfold Loader.extract_records.
  destruct (Loader.find_placemarks root) as [[pms namespaces] m]. cbn [fst snd].
  pose proof (process_all_records float float_of_str namespaces pms 0) as Hr.
  destruct (Loader.process_all float float_of_str namespaces 0 pms) as [records ms].
  cbn [fst snd] in *.
  split; [ exact Hr | ]. split; [ | split ].
  - rewrite Hr. clear. induction pms as [| pm pms IH]; [ reflexivity | ].
    cbn [flat_map]. rewrite length_app. cbn [List.length].
    destruct (fst (Loader.process_placemark float float_of_str namespaces 0 pm));
      cbn [List.length]; lia.
  - apply in_or_app. right. now left.
  - exists (m ++ [Loader.FoundPlacemarks (List.length pms);
                  Loader.ProcessingPlacemarks (List.length pms)] ++ ms).
    now rewrite <- !app_assoc.
Qed.

End Records.

(** ** Documents whose elements are in no namespace *)

Lemma unqualified_children (ns : option string) (tag : string)
      (m : list (option string * string)) (cs : list node) :
  Notions.unqualified (Element ns tag m cs) = true ->
  ns = None /\ forall c, In c cs -> Notions.unqualified c = true.
Proof.
  cbn [Notions.unqualified]. destruct ns as [u |]; [ discriminate | ].
  intros H. split; [ reflexivity | ]. now apply forallb_forall.
Qed.

Lemma unqualified_descendants (root : node) :
  Notions.unqualified root = true ->
  forall n, In n (descendants_or_self root) -> Notions.unqualified n = true.
Proof.
  induction root as [s | ns tag m cs IH] using node_children_ind; intros Hu n Hin.
  - destruct Hin as [<- | []]. reflexivity.
  - cbn [descendants_or_self] in Hin. destruct Hin as [<- | Hin]; [ exact Hu | ].
    apply in_flat_map in Hin. destruct Hin as (c & Hc & Hn).
    rewrite Forall_forall in IH. apply (IH c Hc); [ | exact Hn ].
    now apply (unqualified_children _ _ _ _ Hu).
Qed.

Lemma unqualified_matches (uri local : string) (n : node) :
  Notions.unqualified n = true -> matches (Some uri) local n = false.
Proof.
  destruct n as [s | [u |] tag m cs]; intros H; try reflexivity. discriminate H.
Qed.

Lemma unqualified_xpath_all (uri local : string) (root : node) :
  Notions.unqualified root = true -> xpath_all (Some uri) local root = [].
Proof.
  intros H. unfold xpath_all.
  pose proof (unqualified_descendants root H) as Hd.
  induction (descendants_or_self root) as [| n l IH]; [ reflexivity | ].
  cbn [filter]. rewrite unqualified_matches by (apply Hd; now left).
  apply IH. intros x Hx. apply Hd. now right.
Qed.

Lemma flat_map_nil {A B : Type} (f : A -> list B) (l : list A) :
  (forall x, In x l -> f x = []) -> flat_map f l = [].
Proof.
  induction l as [| x l IH]; intros H; [ reflexivity | ].
  cbn [flat_map]. rewrite (H x (or_introl eq_refl)), IH; [ reflexivity | ].
  intros y Hy. apply H. now right.
Qed.

Lemma unqualified_text_under (uri a : string) (n : node) :
  Notions.unqualified n = true -> forall below, text_under (Some uri) a below n = [].
Proof.
  induction n as [s | ns tag m cs IH] using node_children_ind; intros Hu below;
    [ reflexivity | ].
  cbn [text_under]. rewrite (unqualified_matches uri a _ Hu), andb_false_r.
  apply flat_map_nil. intros c Hc. destruct c as [s | ns' tag' m' cs']; [ reflexivity | ].
  rewrite Forall_forall in IH. apply (IH _ Hc).
  now apply (unqualified_children _ _ _ _ Hu).
Qed.

Lemma unqualified_text_under2 (uri a b : string) (n : node) :
  Notions.unqualified n = true ->
  forall below in_a, text_under2 (Some uri) a b below in_a n = [].
Proof.
  induction n as [s | ns tag m cs IH] using node_children_ind; intros Hu below in_a;
    [ reflexivity | ].
  cbn [text_under2]. rewrite (unqualified_matches uri b _ Hu), andb_false_r.
  apply flat_map_nil. intros c Hc. destruct c as [s | ns' tag' m' cs']; [ reflexivity | ].
  rewrite Forall_forall in IH. apply (IH _ Hc).
  now apply (unqualified_children _ _ _ _ Hu).
Qed.

Lemma unqualified_named (local : string) (n : node) :
  Notions.unqualified n = true -> matches None local n = Stated.named local n.
Proof.
  destruct n as [s | [u |] tag m cs]; intros H; try reflexivity. discriminate H.
Qed.

Section Unqualified.

Variable float : Type.
Variable float_of_str : string -> option float.

(** On a placemark in no namespace the loop body reads the same whether
    or not a namespace was chosen. *)
Lemma unqualified_placemark (namespaces : option string) (n : Z) (pm : node) :
  Notions.unqualified pm = true ->
  fst (Loader.process_placemark float float_of_str namespaces n pm)
  = fst (Loader.process_placemark float float_of_str None n pm).
Proof.
  intros Hu. destruct namespaces as [uri |]; [ | reflexivity ].
  rewrite !process_placemark_eq.
  assert (Hc : Loader.get_coordinates float float_of_str (Some uri) n pm
               = Loader.get_coordinates float float_of_str None n pm).
  { unfold Loader.get_coordinates, Loader.qualified_then_bare, xpath_text2.
    now rewrite (unqualified_text_under2 uri "Point" "coordinates" pm Hu). }
  assert (Hd : Loader.parse_description (Some uri) n pm = Loader.parse_description None n pm).
  { unfold Loader.parse_description, Loader.get_description, Loader.qualified_then_bare,
      xpath_text1.
    now rewrite (unqualified_text_under uri "description" pm Hu). }
  now rewrite Hc, Hd.
Qed.

(** X13.  A document whose elements are in no namespace is read the same
    whatever it declares: its records are those of all its elements named
    Placemark, in document order, each read through the bare queries. *)
Theorem unqualified_document_is_read_whatever_it_declares :
  forall root : node,
    Notions.unqualified root = true ->
    fst (fst (Loader.find_placemarks root))
    = filter (Stated.named "Placemark") (descendants_or_self root)
    /\ fst (Loader.extract_records float float_of_str root)
       = flat_map (fun pm =>
                     match fst (Loader.process_placemark float float_of_str None 0 pm) with
                     | Some r => [r]
                     | None => []
                     end)
                  (filter (Stated.named "Placemark") (descendants_or_self root)).
Proof.
  intros root Hu.
  assert (Hbare : xpath_all None "Placemark" root
                  = filter (Stated.named "Placemark") (descendants_or_self root)).
  { unfold xpath_all. apply filter_ext_in. intros n Hn.
    apply unqualified_named. now apply (unqualified_descendants root). }
  assert (Hfound : fst (fst (Loader.find_placemarks root))
                   = filter (Stated.named "Placemark") (descendants_or_self root)).
  { unfold Loader.find_placemarks.
    destruct (Loader.choose_namespace (nsmap_of root)) as [[uri |] m0]; cbn [fst].
    - rewrite (unqualified_xpath_all uri "Placemark" root Hu). cbn [Loader.is_nil fst].
      exact Hbare.
    - exact Hbare. }
  split; [ exact Hfound | ].
  unfold Loader.extract_records.
  destruct (Loader.find_placemarks root) as [[pms namespaces] m]. cbn [fst] in Hfound.
  pose proof (process_all_records float float_of_str namespaces pms 0) as Hr.
  destruct (Loader.process_all float float_of_str namespaces 0 pms) as [records ms].
  cbn [fst] in *. rewrite Hr, <- Hfound.
  assert (Hall : forall pm, In pm pms -> Notions.unqualified pm = true).
  { intros pm Hpm. rewrite Hfound in Hpm. apply filter_In in Hpm.
    now apply (unqualified_descendants root Hu). }
  clear - Hall. induction pms as [| pm pms IH]; [ reflexivity | ].
  cbn [flat_map]. rewrite (unqualified_placemark namespaces 0 pm) by (apply Hall; now left).
  rewrite IH; [ reflexivity | ]. intros x Hx. apply Hall. now right.
Qed.

End Unqualified.

(** ** From bytes to a tree *)

Section Parsing.

Variable utf8_decode : list Byte.byte -> option string.
Variable utf8_encode : string -> list Byte.byte.
Variable latin1_decode : list Byte.byte -> string.
Variable latin1_encode : string -> option (list Byte.byte).
Variable etree_fromstring : list Byte.byte -> option node.

(** X14.  The parser is given the markup without its declaration, encoded
    again as it was decoded.  The second encoding is tried only when the
    first attempt gave no tree, and the warning says so; when neither
    attempt gives a tree there is none, with both lines printed. *)
Theorem parser_is_given_the_markup_without_its_declaration :
  forall (kml_content_bytes : list Byte.byte) (ws attrs body : string) (root : node),
    Py.all_chars Py.isspace ws = true ->
    Py.contains "?>" attrs = false ->
    let kml_string := (ws ++ "<?xml" ++ attrs ++ "?>" ++ body)%string in
    let parse_root := Loader.parse_root utf8_decode utf8_encode latin1_decode latin1_encode
                        etree_fromstring in
    let first_attempt_fails :=
      forall s, utf8_decode kml_content_bytes = Some s ->
                etree_fromstring (utf8_encode (Loader.strip_declaration s)) = None in
    (utf8_decode kml_content_bytes = Some kml_string ->
     etree_fromstring (utf8_encode body) = Some root ->
     parse_root kml_content_bytes = (Some root, []))
    /\ (first_attempt_fails ->
        latin1_decode kml_content_bytes = kml_string ->
        (exists encoded, latin1_encode body = Some encoded
                         /\ etree_fromstring encoded = Some root) ->
        parse_root kml_content_bytes = (Some root, [Loader.Utf8Failed]))
    /\ (first_attempt_fails ->
        latin1_decode kml_content_bytes = kml_string ->
        (forall encoded, latin1_encode body = Some encoded ->
                         etree_fromstring encoded = None) ->
        parse_root kml_content_bytes = (None, [Loader.Utf8Failed; Loader.InvalidXml])).
Proof.
  intros b ws attrs body root Hws Ha kml_string parse_root first_attempt_fails.
  subst kml_string parse_root first_attempt_fails. unfold Loader.parse_root.
  pose proof (strip_declaration_body ws attrs body Hws Ha) as Hs.
  split; [ | split ].
  - intros Hd Hp. now rewrite Hd, Hs, Hp.
  - intros Hf Hl (encoded & He & Hp).
    assert (E : match utf8_decode b with
                | Some kml_string =>
                    etree_fromstring (utf8_encode (Loader.strip_declaration kml_string))
                | None => None
                end = None).
    { destruct (utf8_decode b) as [s |]; [ now apply Hf | reflexivity ]. }
    now rewrite E, Hl, Hs, He, Hp.
  - intros Hf Hl Hn.
    assert (E : match utf8_decode b with
                | Some kml_string =>
                    etree_fromstring (utf8_encode (Loader.strip_declaration kml_string))
                | None => None
                end = None).
    { destruct (utf8_decode b) as [s |]; [ now apply Hf | reflexivity ]. }
    rewrite E, Hl, Hs.
    destruct (latin1_encode body) as [encoded |]; [ | reflexivity ].
    now rewrite (Hn encoded eq_refl).
Qed.

End Parsing.

(** ** The run, step by step *)

Lemma firstn_incl {A : Type} (n : nat) (l : list A) (x : A) : In x (firstn n l) -> In x l.
Proof.
  revert n. induction l as [| y l IH]; intros [| n] H; try contradiction.
  cbn [firstn] in H. destruct H as [-> | H]; [ now left | right; now apply (IH n) ].
Qed.

Section Steps.

Variable float : Type.
Variable float_of_str : string -> option float.
Variable utf8_decode : list Byte.byte -> option string.
Variable utf8_encode : string -> list Byte.byte.
Variable latin1_decode : list Byte.byte -> string.
Variable latin1_encode : string -> option (list Byte.byte).
Variable etree_fromstring : list Byte.byte -> option node.

#[local] Abbreviation parse_kml_features :=
  (Loader.parse_kml_features float float_of_str utf8_decode utf8_encode
     latin1_decode latin1_encode etree_fromstring).
#[local] Abbreviation extracted :=
  (Loader.extracted float float_of_str utf8_decode utf8_encode
     latin1_decode latin1_encode etree_fromstring).
#[local] Abbreviation main :=
  (Loader.main float float_of_str utf8_decode utf8_encode
     latin1_decode latin1_encode etree_fromstring).
#[local] Abbreviation quiet := (Forall (fun m => Stated.store_step m = false)).
#[local] Abbreviation STORM := Loader.STORM_NAME_FOR_DB.

Ltac quiet_parts :=
  repeat first [ assumption | apply Forall_nil | apply Forall_cons; [ reflexivity | ]
               | apply Forall_app; split ].

(** A run is what precedes the store session, which prints no line of
    it, followed by the session when something was extracted. *)
Lemma main_cases (archive : option Loader.ZipFile) (fault : Loader.Fault)
      (docs : list (Document float)) :
  (extracted archive = []
   /\ exists m, quiet m /\ main archive fault docs = (docs, m))
  \/ (extracted archive <> []
      /\ exists m, quiet m
         /\ main archive fault docs
            = (fst (Loader.database_operations float fault (extracted archive) docs),
               m ++ snd (Loader.database_operations float fault (extracted archive) docs))).
Proof.
  unfold Loader.extracted, Loader.main.
  pose proof (find_kml_in_kmz_quiet Loader.KMZ_FILE_PATH archive) as Hk.
  destruct (Loader.find_kml_in_kmz Loader.KMZ_FILE_PATH archive) as [[[| b bs] |] m0];
    cbn [fst snd] in *.
  - left. split; [ reflexivity | ]. eexists. split; [ | reflexivity ].
    quiet_parts.
  - pose proof (parse_kml_features_quiet float float_of_str utf8_decode utf8_encode
                  latin1_decode latin1_encode etree_fromstring (b :: bs)) as Hp.
    destruct (parse_kml_features (b :: bs)) as [[| r rs] m1]; cbn [fst snd] in *.
    + left. split; [ reflexivity | ]. eexists. split; [ | reflexivity ].
      quiet_parts.
    + right. split; [ discriminate | ].
      exists ([Loader.ReadingKmz Loader.KMZ_FILE_PATH] ++ m0 ++ [Loader.ParsingKml] ++ m1).
      split.
      * quiet_parts.
      * destruct (Loader.database_operations float fault (r :: rs) docs) as [docs' m2].
        cbn [fst snd]. now rewrite <- !app_assoc.
  - left. split; [ reflexivity | ]. eexists. split; [ | reflexivity ].
    quiet_parts.
Qed.

Lemma batch_of_the_storm (archive : option Loader.ZipFile) (n : nat) :
  Forall (fun d => storm_is STORM d = true)
         (map (Loader.to_document float) (firstn n (extracted archive))).
Proof.
  pose proof (extracted_documents float float_of_str utf8_decode utf8_encode
                latin1_decode latin1_encode etree_fromstring archive) as H.
  rewrite Forall_forall in *. intros d Hd. apply H.
  apply in_map_iff in Hd. destruct Hd as (r & <- & Hr).
  apply in_map. now apply firstn_incl in Hr.
Qed.

Lemma delete_many_batch (docs batch : list (Document float)) :
  Forall (fun d => storm_is STORM d = true) batch ->
  delete_many STORM (insert_many batch (delete_many STORM docs)) = delete_many STORM docs.
Proof. apply delete_many_replaced. Qed.

(** X15.  Whatever the archive holds and wherever the store fails, a run
    leaves the documents of every other storm as they were, in their
    order. *)
Theorem other_storms_are_left_alone :
  forall (archive : option Loader.ZipFile) (fault : Loader.Fault)
         (docs : list (Document float)),
    delete_many Loader.STORM_NAME_FOR_DB
      (fst (Loader.main float float_of_str utf8_decode utf8_encode latin1_decode
              latin1_encode etree_fromstring archive fault docs))
    = delete_many Loader.STORM_NAME_FOR_DB docs.
Proof.
  intros archive fault docs.
  destruct (main_cases archive fault docs) as [(_ & m & _ & ->) | (_ & m & _ & ->)];
    [ reflexivity | ].
  cbn [fst]. unfold Loader.database_operations.
  pose proof (batch_of_the_storm archive) as Hb.
  destruct fault as [| | | | written |]; cbn [fst]; try reflexivity.
  - rewrite <- (firstn_all (extracted archive)). apply delete_many_batch, Hb.
  - apply delete_many_batch, Hb.
  - rewrite <- (firstn_all (extracted archive)). apply delete_many_batch, Hb.
Qed.

(** X16.  A run that has records to write and fails while connecting or
    deleting leaves the collection as it was.  One that fails during the
    insert has already deleted the storm's documents: the collection then
    holds, for the storm, only the records written before the failure,
    as many as were written and no more than were extracted, however
    many it held before.  A failure while the indexes are made leaves the
    whole new batch in place. *)
Theorem failed_run_outcomes :
  forall (archive : option Loader.ZipFile) (docs : list (Document float)),
    Loader.extracted float float_of_str utf8_decode utf8_encode latin1_decode
      latin1_encode etree_fromstring archive <> [] ->
    let run fault :=
      fst (Loader.main float float_of_str utf8_decode utf8_encode latin1_decode
             latin1_encode etree_fromstring archive fault docs) in
    let batch := Loader.extracted float float_of_str utf8_decode utf8_encode latin1_decode
                   latin1_encode etree_fromstring archive in
    run Loader.SelectionTimeout = docs
    /\ run Loader.ConnectFails = docs
    /\ run Loader.DeleteFails = docs
    /\ (forall written : nat,
           run (Loader.InsertFails written)
           = delete_many Loader.STORM_NAME_FOR_DB docs
             ++ map (Loader.to_document float) (firstn written batch)
           /\ count_storm Loader.STORM_NAME_FOR_DB (run (Loader.InsertFails written))
              = Nat.min written (List.length batch))
    /\ run Loader.IndexFails = run Loader.NoFault.
Proof.
  intros archive docs Hne run batch. subst run batch. cbv beta.
  assert (E : forall fault,
             fst (main archive fault docs)
             = fst (Loader.database_operations float fault (extracted archive) docs)).
  { intros fault.
    destruct (main_cases archive fault docs) as [(H & _) | (_ & m & _ & ->)];
      [ contradiction | reflexivity ]. }
  rewrite !E. repeat (split; [ reflexivity | ]). split; [ | reflexivity ].
  intros written. rewrite E. cbn [Loader.database_operations fst]. unfold insert_many.
  split; [ reflexivity | ].
  rewrite count_storm_app, count_storm_deleted.
  rewrite count_storm_all by apply batch_of_the_storm.
  now rewrite length_map, length_firstn.
Qed.

(** X17.  The line that announces a complete load is printed exactly when
    something was extracted and no step of the store session failed; and
    a session that was opened is closed by the last line printed,
    whether it failed or not. *)
Theorem loading_complete_only_after_every_step :
  forall (archive : option Loader.ZipFile) (fault : Loader.Fault)
         (docs : list (Document float)),
    let printed :=
      snd (Loader.main float float_of_str utf8_decode utf8_encode latin1_decode
             latin1_encode etree_fromstring archive fault docs) in
    (In Loader.LoadingComplete printed
     <-> fault = Loader.NoFault
         /\ Loader.extracted float float_of_str utf8_decode utf8_encode latin1_decode
              latin1_encode etree_fromstring archive <> [])
    /\ (In Loader.Connecting printed ->
        exists before, printed = before ++ [Loader.ConnectionClosed]).
Proof.
  intros archive fault docs printed. subst printed.
  destruct (main_cases archive fault docs) as [(He & m & Hq & ->) | (Hne & m & Hq & ->)];
    cbn [snd]; rewrite Forall_forall in Hq.
  - split.
    + split; [ intros H; apply Hq in H; discriminate H | intros [_ H]; contradiction ].
    + intros H. apply Hq in H. discriminate H.
  - split.
    + rewrite in_app_iff. split.
      * intros [H | H]; [ apply Hq in H; discriminate H | ].
        split; [ | exact Hne ].
        destruct fault; cbn in H; try reflexivity;
          repeat (destruct H as [H | H]; [ discriminate H | ]); contradiction.
      * intros [-> _]. right. cbn. tauto.
    + intros _.
      destruct fault; cbn [Loader.database_operations snd];
        match goal with
        | |- exists before, m ++ ?l ++ ?l' = _ =>
            exists (m ++ l ++ removelast l'); rewrite <- !app_assoc; reflexivity
        | |- exists before, m ++ ?l = _ =>
            exists (m ++ removelast l); rewrite <- !app_assoc; reflexivity
        end.
Qed.

(** X18.  Running the load again on the collection it has just filled changes
    nothing: the same documents in the same order, whether or not the
    archive yields records. *)
Theorem second_run_changes_nothing :
  forall (archive : option Loader.ZipFile) (docs : list (Document float)),
    let run := Loader.main float float_of_str utf8_decode utf8_encode latin1_decode
                 latin1_encode etree_fromstring archive Loader.NoFault in
    fst (run (fst (run docs))) = fst (run docs).
Proof.
  intros archive docs run. subst run.
  assert (E : forall l,
             fst (main archive Loader.NoFault l) = l
             \/ fst (main archive Loader.NoFault l)
                = delete_many STORM l ++ map (Loader.to_document float) (extracted archive)).
  { intros l.
    destruct (main_cases archive Loader.NoFault l) as [(_ & m & _ & ->) | (_ & m & _ & ->)];
      [ now left | now right ]. }
  destruct (main_cases archive Loader.NoFault docs) as [(He & m & _ & H) | (Hne & m & _ & H)].
  - rewrite H. cbn [fst]. now rewrite H.
  - rewrite H. cbn [fst Loader.database_operations]. unfold insert_many.
    destruct (main_cases archive Loader.NoFault
                (delete_many STORM docs ++ map (Loader.to_document float) (extracted archive)))
      as [(He & _) | (_ & m' & _ & ->)]; [ contradiction | ].
    cbn [fst Loader.database_operations]. unfold insert_many.
    rewrite <- (firstn_all (extracted archive)) at 1.
    now rewrite (delete_many_replaced float STORM docs _ (batch_of_the_storm archive _)).
Qed.


End Steps.

(** ** The connection, request after request *)

Section Connections.

Variable float : Type.
Variable fromisoformat : string -> option datetime.

#[local] Abbreviation answer c :=
  (fun call : option (Backend.Collection float) * Backend.Request =>
     Backend.get_track_data fromisoformat (Some c) (snd call)).

Lemma serve_connected (c : Backend.Collection float)
      (calls : list (option (Backend.Collection float) * Backend.Request)) :
  Server.serve fromisoformat (Some c) calls = (map (answer c) calls, Some c).
Proof.
  induction calls as [| [connect req] calls IH]; [ reflexivity | ].
  cbn [Server.serve Server.handle Backend.get_db_collection map snd].
  now rewrite IH.
Qed.

(** X20.  The connection is made once.  From the first request that finds
    the store, every request is answered through that same handle and no
    further attempt is consulted; until then each request is refused with
    status 500 and the next one tries again, the failure is not kept. *)
Theorem connection_retried_until_made_then_kept :
  (forall (c : Backend.Collection float)
          (calls : list (option (Backend.Collection float) * Backend.Request)),
      Server.serve fromisoformat (Some c) calls
      = (map (fun call => Backend.get_track_data fromisoformat (Some c) (snd call)) calls,
         Some c))
  /\ (forall (failed rest : list (option (Backend.Collection float) * Backend.Request))
             (c : Backend.Collection float) (req : Backend.Request),
         Forall (fun call => fst call = None) failed ->
         Server.serve fromisoformat None (failed ++ (Some c, req) :: rest)
         = (map (fun _ => Backend.Error 500 "Database connection failed") failed
            ++ Backend.get_track_data fromisoformat (Some c) req
            :: map (fun call => Backend.get_track_data fromisoformat (Some c) (snd call)) rest,
            Some c))
  /\ (forall calls : list (option (Backend.Collection float) * Backend.Request),
         Forall (fun call => fst call = None) calls ->
         Server.serve fromisoformat None calls
         = (map (fun _ => Backend.Error 500 "Database connection failed") calls, None))
  /\ (forall (at_start : option (Backend.Collection float))
             (calls : list (option (Backend.Collection float) * Backend.Request)),
         Server.run fromisoformat at_start calls = Server.serve fromisoformat at_start calls).
Proof.
  split; [ exact serve_connected | ]. split; [ | split ].
  - intros failed rest c req H.
    induction H as [| [connect r] failed Hc _ IH].
    + cbn [app map Server.serve Server.handle Backend.get_db_collection].
      now rewrite serve_connected.
    + cbn [fst] in Hc. subst connect.
      cbn [app map Server.serve Server.handle Backend.get_db_collection].
      now rewrite IH.
  - intros calls H.
    induction H as [| [connect r] calls Hc _ IH]; [ reflexivity | ].
    cbn [fst] in Hc. subst connect.
    cbn [map Server.serve Server.handle Backend.get_db_collection].
    now rewrite IH.
  - intros at_start calls. unfold Server.run. now destruct at_start.
Qed.

End Connections.

(** ** The documents an answer is made of *)

Section Answers.

Variable float : Type.
Variable fromisoformat : string -> option datetime.

#[local] Abbreviation storm_of req :=
  (match Backend.arg_storm_id req with
   | Some s => s
   | None => Backend.DEFAULT_STORM_ID
   end).

Lemma run_find_In (docs : list (Document float)) (f : Filter) (dir : Direction)
      (n : option nat) (d : Document float) :
  In d (run_find docs f dir n) -> In d docs /\ storm_is (f_storm_id f) d = true.
Proof.
  unfold run_find, limit. intros H.
  assert (H' : In d (sort dir (filter (satisfies f) docs))).
  { destruct n as [k |]; [ now apply firstn_incl in H | exact H ]. }
  apply (Permutation_in _ (sort_perm float dir _)) in H'.
  apply filter_In in H'. destruct H' as [Hin Hs]. split; [ exact Hin | ].
  unfold satisfies in Hs. apply andb_true_iff in Hs. destruct Hs as [Hs _].
  now apply andb_true_iff in Hs.
Qed.

Lemma run_find_one (docs : list (Document float)) (f : Filter) (dir : Direction) :
  (List.length (run_find docs f dir (Some 1%nat)) <= 1)%nat.
Proof.
  unfold run_find, limit. rewrite length_firstn. lia.
Qed.

(** The documents selected are documents of the storm asked for. *)
Lemma select_In (docs : list (Document float)) (req : Backend.Request)
      (result : list (Document float)) :
  Backend.select fromisoformat (Backend.serving docs) req = inr result ->
  (forall d, In d result -> In d docs /\ storm_is (storm_of req) d = true)
  /\ (Backend.given (Backend.arg_timestamp req) = true -> (List.length result <= 1)%nat).
Proof.
  unfold Backend.select. cbn [Backend.serving Backend.find].
  destruct (Backend.given (Backend.arg_timestamp req)).
  - destruct (Backend.parse_instant fromisoformat _) as [target |]; [ | discriminate ].
    destruct (run_find docs (mkFilter (storm_of req) None (Some (strftime_iso target)))
                       DESCENDING (Some 1%nat)) as [| d ds] eqn:E.
    + intros H. injection H as <-. split.
      * intros d Hd.
        now apply (run_find_In docs (mkFilter (storm_of req) None None) ASCENDING
                     (Some 1%nat)) in Hd.
      * intros _. apply (run_find_one docs (mkFilter (storm_of req) None None) ASCENDING).
    + intros H. injection H as <-. rewrite <- E. split.
      * intros d' Hd. now apply run_find_In in Hd.
      * intros _. apply run_find_one.
  - destruct (Backend.given (Backend.arg_start req) && Backend.given (Backend.arg_end req)).
    + destruct (Backend.parse_instant fromisoformat (Backend.text (Backend.arg_start req)))
        as [start_time |]; [ | discriminate ].
      destruct (Backend.parse_instant fromisoformat (Backend.text (Backend.arg_end req)))
        as [end_time |]; [ | discriminate ].
      intros H. injection H as <-. split; [ | discriminate ].
      intros d Hd.
      now apply (run_find_In docs (mkFilter (storm_of req) (Some (strftime_iso start_time))
                                            (Some (strftime_iso end_time)))
                   ASCENDING None) in Hd.
    + intros H. injection H as <-. split; [ | discriminate ].
      intros d Hd.
      now apply (run_find_In docs (mkFilter (storm_of req) None None) ASCENDING None) in Hd.
Qed.

(** What is selected is a list of documents or an error body. *)
Lemma select_error (collection : Backend.Collection float) (req : Backend.Request)
      (err : Backend.Response float) :
  Backend.select fromisoformat collection req = inl err ->
  exists status message, err = Backend.Error status message.
Proof.
  unfold Backend.select.
  repeat match goal with
         | |- context [if ?c then _ else _] => destruct c
         | |- context [match ?c with _ => _ end] => destruct c
         end;
    intros H; try discriminate H; injection H as <-; now eexists _, _.
Qed.

Lemma to_features_In (result : list (Document float)) (f : Backend.Feature float) :
  In f (Backend.to_features result)
  <-> exists d, In d result
                /\ d_location d = Some (Backend.geometry f)
                /\ Backend.properties f
                   = Backend.mkProperties (d_timestamp d) (d_wind_kts d) (d_pressure_mb d)
                                          (d_storm_id d).
Proof.
  unfold Backend.to_features. rewrite in_flat_map. split.
  - intros (d & Hd & Hf). exists d. split; [ exact Hd | ].
    destruct (d_location d) as [g |]; [ | contradiction ].
    destruct Hf as [<- | []]. split; reflexivity.
  - intros (d & Hd & Hg & Hp). exists d. split; [ exact Hd | ].
    rewrite Hg. left. destruct f as [g p]. cbn in *. now subst p.
Qed.

(** X21.  Every feature of an answer is a stored document of the storm asked
    for (the default one when none is named), with its location as
    geometry and its timestamp, wind, pressure and storm as properties;
    no document of another storm is ever served.  A request with an exact
    instant is answered by at most one feature, and a storm without
    documents by none. *)
Theorem features_are_documents_of_the_storm :
  forall (docs : list (Document float)) (req : Backend.Request)
         (features : list (Backend.Feature float)),
    Backend.get_track_data fromisoformat (Some (Backend.serving docs)) req
    = Backend.FeatureCollection features ->
    (forall f, In f features ->
       Backend.p_storm_id (Backend.properties f) = Some (storm_of req)
       /\ exists d, In d docs
                    /\ d_storm_id d = Some (storm_of req)
                    /\ d_location d = Some (Backend.geometry f)
                    /\ Backend.properties f
                       = Backend.mkProperties (d_timestamp d) (d_wind_kts d)
                                              (d_pressure_mb d) (d_storm_id d))
    /\ (Backend.given (Backend.arg_timestamp req) = true -> (List.length features <= 1)%nat)
    /\ ((forall d, In d docs -> d_storm_id d <> Some (storm_of req)) -> features = []).
Proof.
  intros docs req features H. unfold Backend.get_track_data in H.
  destruct (Backend.select fromisoformat (Backend.serving docs) req) as [err | result] eqn:E.
  - apply select_error in E. destruct E as (status & message & ->). discriminate H.
  - injection H as <-. destruct (select_In docs req result E) as [Hin Hlen].
    assert (Hdoc : forall f, In f (Backend.to_features result) ->
                     exists d, In d docs
                               /\ d_storm_id d = Some (storm_of req)
                               /\ d_location d = Some (Backend.geometry f)
                               /\ Backend.properties f
                                  = Backend.mkProperties (d_timestamp d) (d_wind_kts d)
                                                         (d_pressure_mb d) (d_storm_id d)).
    { intros f Hf. apply to_features_In in Hf. destruct Hf as (d & Hd & Hg & Hp).
      destruct (Hin d Hd) as [Hdocs Hs]. exists d. split; [ exact Hdocs | ].
      split; [ | now split ].
      unfold storm_is in Hs. destruct (d_storm_id d) as [s |]; [ | discriminate Hs ].
      apply String.eqb_eq in Hs. now subst s. }
    split; [ | split ].
    + intros f Hf. destruct (Hdoc f Hf) as (d & Hd & Hs & Hg & Hp).
      split; [ now rewrite Hp | now exists d ].
    + intros Hg. specialize (Hlen Hg). pose proof (to_features_length float result). lia.
    + intros Hnone. destruct (Backend.to_features result) as [| f fs]; [ reflexivity | ].
      destruct (Hdoc f (or_introl eq_refl)) as (d & Hd & Hs & _).
      now destruct (Hnone d Hd).
Qed.

Lemma filter_own (s : string) (f : Filter) (docs : list (Document float)) :
  f_storm_id f = s ->
  filter (satisfies f) (filter (storm_is s) docs) = filter (satisfies f) docs.
Proof.
  intros <-. induction docs as [| d docs IH]; [ reflexivity | ].
  cbn [filter]. unfold satisfies at 2.
  destruct (storm_is (f_storm_id f) d) eqn:E; cbn [filter andb]; [ | exact IH ].
  unfold satisfies at 1. rewrite E. cbn [andb].
  destruct (bound_ok true (f_gte f) d && bound_ok false (f_lte f) d); now rewrite IH.
Qed.

Lemma run_find_own (docs : list (Document float)) (f : Filter) (dir : Direction)
      (n : option nat) :
  run_find (filter (storm_is (f_storm_id f)) docs) f dir n = run_find docs f dir n.
Proof. unfold run_find. now rewrite filter_own. Qed.

(** X22.  An answer depends on the documents of the storm asked for and on
    nothing else in the collection: with every other document taken
    away it is the same, status and features, whatever the request. *)
Theorem answer_depends_on_the_storm_alone :
  forall (docs : list (Document float)) (req : Backend.Request),
    Backend.get_track_data fromisoformat (Some (Backend.serving docs)) req
    = Backend.get_track_data fromisoformat
        (Some (Backend.serving (filter (storm_is (storm_of req)) docs))) req.
Proof.
  intros docs req. unfold Backend.get_track_data, Backend.select.
  cbn [Backend.serving Backend.find].
  destruct (Backend.given (Backend.arg_timestamp req)).
  - destruct (Backend.parse_instant fromisoformat _) as [target |]; [ | reflexivity ].
    rewrite (run_find_own docs (mkFilter (storm_of req) None (Some (strftime_iso target)))).
    now rewrite (run_find_own docs (mkFilter (storm_of req) None None)).
  - destruct (Backend.given (Backend.arg_start req) && Backend.given (Backend.arg_end req)).
    + destruct (Backend.parse_instant fromisoformat (Backend.text (Backend.arg_start req)))
        as [start_time |]; [ | reflexivity ].
      destruct (Backend.parse_instant fromisoformat (Backend.text (Backend.arg_end req)))
        as [end_time |]; [ | reflexivity ].
      now rewrite (run_find_own docs
                     (mkFilter (storm_of req) (Some (strftime_iso start_time))
                               (Some (strftime_iso end_time)))).
    + now rewrite (run_find_own docs (mkFilter (storm_of req) None None)).
Qed.

(** X23.  The time parameters are read in order of priority.  When an exact
    instant is given, a start and an end sent with it are not read at
    all, well formed or not; when none is given and a start or an end is
    missing or empty, the other one is not read either. *)
Theorem time_parameters_are_read_in_priority_order :
  forall (collection : option (Backend.Collection float)) (req : Backend.Request),
    (Backend.given (Backend.arg_timestamp req) = true ->
     Backend.get_track_data fromisoformat collection req
     = Backend.get_track_data fromisoformat collection
         (Backend.mkRequest (Backend.arg_timestamp req) None None (Backend.arg_storm_id req)))
    /\ (Backend.given (Backend.arg_timestamp req) = false ->
        Backend.given (Backend.arg_start req) && Backend.given (Backend.arg_end req) = false ->
        Backend.get_track_data fromisoformat collection req
        = Backend.get_track_data fromisoformat collection
            (Backend.mkRequest None None None (Backend.arg_storm_id req))).
Proof.
  intros [c |] req; [ | split; reflexivity ].
  unfold Backend.get_track_data, Backend.select.
  cbn [Backend.arg_timestamp Backend.arg_start Backend.arg_end Backend.arg_storm_id].
  split.
  - intros H. now rewrite H.
  - intros H1 H2. now rewrite H1, H2.
Qed.

End Answers.

(** ** A stored timestamp sent back as the instant asked for *)

(** A written timestamp is read by the endpoint as the value it was
    printed from, in UTC. *)
Lemma parse_written (t : datetime) :
  Stated.well_formed t ->
  Backend.parse_instant Backend.fromisoformat_seconds (strftime_iso t)
  = Some (mkdt (year t) (month t) (day t) (hour t) (minute t) (second t) (Some 0)).
Proof.
  intros (Hy & Hm & Hd & Hh & Hi & Hs).
  assert (B : days_in_month (year t) (month t) <= 31).
  { unfold days_in_month.
    repeat match goal with |- context [if ?c then _ else _] => destruct c end; lia. }
  unfold Backend.parse_instant, strftime_iso.
  rewrite replace_pad4. cbn [append Py.replace Ascii.eqb Bool.eqb].
  rewrite replace_pad2. cbn [append Py.replace Ascii.eqb Bool.eqb].
  rewrite replace_pad2. cbn [append Py.replace Ascii.eqb Bool.eqb].
  rewrite replace_pad2. cbn [append Py.replace Ascii.eqb Bool.eqb].
  rewrite replace_pad2. cbn [append Py.replace Ascii.eqb Bool.eqb].
  rewrite replace_pad2. cbn [append Py.replace Ascii.eqb Bool.eqb].
  unfold pad4, pad2. cbn [append]. unfold Backend.fromisoformat_seconds.
  destruct (two_digits_century (year t)) as [Y1 Y2]; [ lia | ].
  rewrite Y1, Y2, !two_digits_pad by lia.
  change (Backend.offset_of "+00:00") with (Some (Some 0)).
  cbv zeta.
  replace (100 * (year t / 100) + year t mod 100) with (year t)
    by (Z.div_mod_to_equations; lia).
  assert (C : (1 <=? year t) && (1 <=? month t) && (month t <=? 12) && (1 <=? day t)
              && (day t <=? days_in_month (year t) (month t)) && (hour t <=? 23)
              && (minute t <=? 59) && (second t <=? 59) = true).
  { repeat (apply andb_true_iff; split); apply Z.leb_le; lia. }
  now rewrite C.
Qed.


(** ** The two scripts together *)

Section ToFeatures.

Variable float : Type.

Lemma to_features_located (l : list (Document float)) :
  Forall (fun d => d_location d <> None) l ->
  List.length (Backend.to_features l) = List.length l.
Proof.
  induction 1 as [| d l Hd _ IH]; [ reflexivity | ].
  unfold Backend.to_features in *. cbn [flat_map]. rewrite length_app, IH.
  destruct (d_location d); [ reflexivity | contradiction ].
Qed.

(** Features come in the order of the documents they are made from. *)
Lemma to_features_sorted (l : list (Document float)) :
  Sorted (fun a b => before ASCENDING a b = true) l ->
  Sorted (fun x y : Backend.Feature float =>
            key_leb (Backend.p_timestamp (Backend.properties x))
                    (Backend.p_timestamp (Backend.properties y)) = true)
         (Backend.to_features l).
Proof.
  intros H. apply Sorted_StronglySorted in H; [ | intros a b c; apply before_trans ].
  apply StronglySorted_Sorted.
  induction H as [| d l _ IH Hall]; [ constructor | ].
  unfold Backend.to_features in *. cbn [flat_map].
  destruct (d_location d) as [g |]; [ | exact IH ].
  cbn [app]. constructor; [ exact IH | ].
  apply Forall_forall. intros f Hf.
  apply in_flat_map in Hf. destruct Hf as (d' & Hd' & Hf).
  rewrite Forall_forall in Hall. specialize (Hall d' Hd').
  destruct (d_location d'); [ | contradiction ]. destruct Hf as [<- | []].
  exact Hall.
Qed.

(** The features of the documents the loader writes. *)
Lemma to_features_records (l : list (Loader.TrackPoint float)) :
  Backend.to_features (map (Loader.to_document float) l)
  = map (fun r => Backend.mkFeature (Loader.location float r)
                    (Backend.mkProperties (Some (Loader.timestamp float r))
                       (Loader.wind_kts float r) (Loader.pressure_mb float r)
                       (Some (Loader.storm_id float r))))
        l.
Proof.
  unfold Backend.to_features.
  induction l as [| r l IH]; [ reflexivity | ].
  cbn [map flat_map Loader.to_document d_location d_timestamp d_wind_kts
       d_pressure_mb d_storm_id app]. now rewrite IH.
Qed.

End ToFeatures.

Section LoadThenServe.

Variable float : Type.
Variable float_of_str : string -> option float.
Variable utf8_decode : list Byte.byte -> option string.
Variable utf8_encode : string -> list Byte.byte.
Variable latin1_decode : list Byte.byte -> string.
Variable latin1_encode : string -> option (list Byte.byte).
Variable etree_fromstring : list Byte.byte -> option node.
Variable fromisoformat : string -> option datetime.


End LoadThenServe.

(** ** A range whose bounds are inverted *)

Section Ranges.

Variable float : Type.
Variable fromisoformat : string -> option datetime.


End Ranges.

(** ** Written timestamps and instants *)

Section Written.

Variable float : Type.
Variable float_of_str : string -> option float.

(** The timestamp of a record is the print of the value read from its
    DTG cell, which is a date and an hour in UTC. *)
Lemma record_timestamp (namespaces : option string) (n : Z) (pm : node)
      (r : Loader.TrackPoint float) :
  fst (Loader.process_placemark float float_of_str namespaces n pm) = Some r ->
  exists t : datetime,
    Loader.f_timestamp (fst (Loader.parse_description namespaces n pm)) = Some t
    /\ Loader.timestamp float r = strftime_iso t
    /\ Stated.well_formed t /\ tzinfo t = Some 0.
Proof.
  rewrite process_placemark_eq.
  destruct (fst (Loader.get_coordinates float float_of_str namespaces n pm))
    as [[lo |] [la |]]; try discriminate.
  assert (Hd : forall t, Loader.f_timestamp (fst (Loader.parse_description namespaces n pm))
                         = Some t -> Stated.well_formed t /\ tzinfo t = Some 0).
  { intros t. unfold Loader.parse_description.
    destruct (Loader.get_description namespaces pm) as [desc |]; [ | discriminate ].
    destruct (Py.truthy desc); [ | discriminate ].
    destruct (Loader.extract_timestamp n desc) as [ts m] eqn:He.
    cbn [fst Loader.f_timestamp]. intros ->.
    now apply extract_timestamp_well_formed in He. }
  destruct (Loader.f_timestamp (fst (Loader.parse_description namespaces n pm))) as [t |];
    [ | discriminate ].
  intros H. injection H as <-. destruct (Hd t eq_refl) as [W U].
  exists t. split; [ reflexivity | ]. split; [ | now split ].
  unfold Loader.make_record. cbn [Loader.timestamp]. unfold astimezone_utc. now rewrite U.
Qed.


End Written.

(** ** The offset of an instant asked for *)

Section Offsets.

Variable float : Type.
Variable fromisoformat : string -> option datetime.

#[local] Abbreviation at_offset t off :=
  (mkdt (year t) (month t) (day t) (hour t) (minute t) (second t) off).

(** X28.  The UTC offset of an instant asked for is not read: two
    requests whose instants have the same date and time of day, whatever
    their offsets, get the same answer, for an exact instant as for the
    two bounds of a range. *)
Theorem offset_of_an_instant_is_not_read :
  forall (collection : option (Backend.Collection float)) (req req' : Backend.Request),
    Backend.arg_storm_id req' = Backend.arg_storm_id req ->
    (forall (t : datetime) (off : option Z),
        Backend.given (Backend.arg_timestamp req) = true ->
        Backend.given (Backend.arg_timestamp req') = true ->
        Backend.parse_instant fromisoformat (Backend.text (Backend.arg_timestamp req))
        = Some t ->
        Backend.parse_instant fromisoformat (Backend.text (Backend.arg_timestamp req'))
        = Some (at_offset t off) ->
        Backend.get_track_data fromisoformat collection req
        = Backend.get_track_data fromisoformat collection req')
    /\ (forall (s e : datetime) (off_s off_e : option Z),
           Backend.given (Backend.arg_timestamp req) = false ->
           Backend.given (Backend.arg_timestamp req') = false ->
           Backend.given (Backend.arg_start req) && Backend.given (Backend.arg_end req)
           = true ->
           Backend.given (Backend.arg_start req') && Backend.given (Backend.arg_end req')
           = true ->
           Backend.parse_instant fromisoformat (Backend.text (Backend.arg_start req))
           = Some s ->
           Backend.parse_instant fromisoformat (Backend.text (Backend.arg_start req'))
           = Some (at_offset s off_s) ->
           Backend.parse_instant fromisoformat (Backend.text (Backend.arg_end req))
           = Some e ->
           Backend.parse_instant fromisoformat (Backend.text (Backend.arg_end req'))
           = Some (at_offset e off_e) ->
           Backend.get_track_data fromisoformat collection req
           = Backend.get_track_data fromisoformat collection req').
Proof.
  intros [c |] req req' Hid; [ | split; reflexivity ].
  unfold Backend.get_track_data, Backend.select. rewrite Hid. split.
  - intros t off Hg Hg' Hp Hp'. rewrite Hg, Hg', Hp, Hp'. reflexivity.
  - intros s e off_s off_e Hg Hg' Hr Hr' Hs Hs' He He'.
    rewrite Hg, Hg', Hr, Hr', Hs, Hs', He, He'. reflexivity.
Qed.

End Offsets.

(** ** The properties above, at work *)

(** A description with two DTG labels: the first cell is the one read. *)
Lemma dtg_read_from_first_cell_witness :
  Loader.dtg_value
    ("<tr><td><B>DTG </B></td><td> 2020112512Z </td></tr>"
     ++ "<tr><td><B>DTG </B></td><td>1999010100Z</td></tr>")%string
  = Some "2020112512Z"
  /\ Loader.extract_timestamp 1
       ("<tr><td><B>DTG </B></td><td> 2020112512Z </td></tr>"
        ++ "<tr><td><B>DTG </B></td><td>1999010100Z</td></tr>")%string
     = Loader.extract_timestamp 1 "DTG </B></td><td> 2020112512Z </td>".
Proof.
  exact (dtg_read_from_first_cell "<tr><td><B>" " 2020112512Z "
           "</tr><tr><td><B>DTG </B></td><td>1999010100Z</td></tr>" 1 eq_refl eq_refl).
Defined.

Lemma wind_read_from_first_cell_witness :
  Loader.extract_wind
    "<tr><td><B>Intensity </B></td><td> 65 </td></tr><tr><td><B>MSLP </B></td><td>987</td></tr>"
  = Some 65.
Proof.
  exact (wind_read_from_first_cell "<tr><td><B>" " 65 "
           "</tr><tr><td><B>MSLP </B></td><td>987</td></tr>" eq_refl eq_refl).
Defined.

(** A value with the unit followed by another cell that has it too, and
    a bare value with nothing of the kind after it. *)
Lemma pressure_read_from_first_cell_witness :
  Loader.extract_pressure
    ("<tr><td><B>MSLP </B></td><td>987 mb</td></tr>"
     ++ "<tr><td><B>POCI </B></td><td>1008 mb</td></tr>")%string
  = Some 987
  /\ Loader.extract_pressure
       "<tr><td><B>MSLP </B></td><td> 1002 </td></tr><tr><td><B>ROCI </B></td><td>120</td></tr>"
     = Some 1002.
Proof.
  split.
  - exact (proj1 pressure_read_from_first_cell "<tr><td><B>" "987"
             "</tr><tr><td><B>POCI </B></td><td>1008 mb</td></tr>" eq_refl eq_refl).
  - exact (proj2 pressure_read_from_first_cell "<tr><td><B>" " 1002 "
             "</tr><tr><td><B>ROCI </B></td><td>120</td></tr>"
             eq_refl eq_refl eq_refl eq_refl).
Defined.

(** A declaration after two blanks, in front of markup that holds the
    two closing characters once more. *)
Lemma declaration_removed_up_to_its_end_witness :
  Loader.strip_declaration "  <?xml version='1.0' encoding='UTF-8'?><kml>a?>b</kml>"
  = "<kml>a?>b</kml>"
  /\ Loader.strip_declaration "<?xml version='1.0'" = "<?xml version='1.0'".
Proof.
  split.
  - exact (proj1 declaration_removed_up_to_its_end "  " " version='1.0' encoding='UTF-8'"
             "<kml>a?>b</kml>" eq_refl eq_refl).
  - exact (proj1 (proj2 declaration_removed_up_to_its_end) "<?xml version='1.0'" eq_refl).
Defined.


Lemma coordinates_are_the_first_two_components_witness :
  Loader.get_coordinates Sample.degrees Sample.degrees_of_str None 1
    (Sample.placemark None Sample.desc_full " 88,12,0 ")
  = (Some 88, Some 12, []).
Proof.
  apply (proj1 (coordinates_are_the_first_two_components Sample.degrees
                  Sample.degrees_of_str None 1
                  (Sample.placemark None Sample.desc_full " 88,12,0 ")
                  " 88,12,0 " [] eq_refl) "88" "12" ",0");
    try reflexivity.
  right. reflexivity.
Defined.

(** The second placemark of the sample track has no DTG cell. *)
Lemma skipped_placemarks_are_reported_by_position_witness :
  In (Loader.SkippedNoTimestamp 2)
     (snd (Loader.process_all Sample.degrees Sample.degrees_of_str None 0
             [ Sample.placemark None Sample.desc_full "88,12,0";
               Sample.placemark None Sample.desc_no_dtg "89,13,0";
               Sample.placemark None Sample.desc_bare "90,14,0" ])).
Proof.
  apply (proj2 (skipped_placemarks_are_reported_by_position Sample.degrees
                  Sample.degrees_of_str None _ 2)).
  exists 1%nat, (Sample.placemark None Sample.desc_no_dtg "89,13,0").
  split; [ reflexivity | ]. split; [ reflexivity | ].
  split; [ exists 89, 13; reflexivity | ]. split; reflexivity.
Defined.

(** The sample track yields two records; the collection held three
    documents of the storm. *)
Lemma failed_run_outcomes_witness :
  let docs := [ Sample.point_at "BESTTRACK_2020" 3; Sample.point_at "OTHER" 4;
                Sample.point_at "BESTTRACK_2020" 5; Sample.point_at "BESTTRACK_2020" 6 ] in
  let run fault := fst (Sample.main (Some Sample.track_kmz) fault docs) in
  run Loader.DeleteFails = docs
  /\ count_storm "BESTTRACK_2020" (run (Loader.InsertFails 1)) = 1%nat
  /\ run Loader.IndexFails = run Loader.NoFault.
Proof.
  cbv zeta.
  destruct (failed_run_outcomes Sample.degrees Sample.degrees_of_str
              (fun b => Some (Sample.decode b)) Sample.encode Sample.decode
              (fun s => Some (Sample.encode s)) (Sample.parse_known Sample.known)
              (Some Sample.track_kmz)
              [ Sample.point_at "BESTTRACK_2020" 3; Sample.point_at "OTHER" 4;
                Sample.point_at "BESTTRACK_2020" 5; Sample.point_at "BESTTRACK_2020" 6 ])
    as (_ & _ & H3 & H4 & H5).
  - vm_compute. discriminate.
  - split; [ exact H3 | ]. split; [ exact (proj2 (H4 1%nat)) | exact H5 ].
Defined.


(** The store is down for the first request, up for the second, down
    again for the third. *)
Lemma connection_retried_until_made_then_kept_witness :
  let c := Backend.serving [ Sample.point_at "BESTTRACK_2020" 12 ] in
  let req := Backend.mkRequest None None None None in
  Server.serve Backend.fromisoformat_seconds None [ (None, req); (Some c, req); (None, req) ]
  = ([ Backend.Error 500 "Database connection failed";
       Backend.FeatureCollection [ Sample.feature_at "BESTTRACK_2020" 12 ];
       Backend.FeatureCollection [ Sample.feature_at "BESTTRACK_2020" 12 ] ],
     Some c).
Proof.
  cbv zeta.
  apply (proj1 (proj2 (connection_retried_until_made_then_kept Sample.degrees
                          Backend.fromisoformat_seconds))
           [ (None, Backend.mkRequest None None None None) ]
           [ (None, Backend.mkRequest None None None None) ]
           (Backend.serving [ Sample.point_at "BESTTRACK_2020" 12 ])
           (Backend.mkRequest None None None None)).
  repeat constructor.
Defined.

Lemma features_are_documents_of_the_storm_witness :
  let docs := [ Sample.point_at "S" 10; Sample.point_at "T" 11 ] in
  let features := [ Sample.feature_at "S" 10 ] in
  (forall f, In f features ->
     Backend.p_storm_id (Backend.properties f) = Some "S"
     /\ exists d, In d docs
                  /\ d_storm_id d = Some "S"
                  /\ d_location d = Some (Backend.geometry f)
                  /\ Backend.properties f
                     = Backend.mkProperties (d_timestamp d) (d_wind_kts d)
                                            (d_pressure_mb d) (d_storm_id d))
  /\ (Backend.given (Some "2020-11-25T10:30:00Z"%string) = true ->
      (List.length features <= 1)%nat)
  /\ ((forall d, In d docs -> d_storm_id d <> Some "S") -> features = []).
Proof.
  cbv zeta.
  apply (features_are_documents_of_the_storm Sample.degrees Backend.fromisoformat_seconds
           [ Sample.point_at "S" 10; Sample.point_at "T" 11 ]
           (Backend.mkRequest (Some "2020-11-25T10:30:00Z") None None (Some "S"))
           [ Sample.feature_at "S" 10 ]).
  reflexivity.
Defined.

(** A malformed start and end sent along with an exact instant. *)
Lemma time_parameters_are_read_in_priority_order_witness :
  Sample.get_track_data (Some (Backend.serving [ Sample.point_at "S" 10 ]))
    (Backend.mkRequest (Some "2020-11-25T10:00:00Z") (Some "yesterday") (Some "tomorrow")
                       (Some "S"))
  = Sample.get_track_data (Some (Backend.serving [ Sample.point_at "S" 10 ]))
      (Backend.mkRequest (Some "2020-11-25T10:00:00Z") None None (Some "S")).
Proof.
  exact (proj1 (time_parameters_are_read_in_priority_order Sample.degrees
                  Backend.fromisoformat_seconds
                  (Some (Backend.serving [ Sample.point_at "S" 10 ]))
                  (Backend.mkRequest (Some "2020-11-25T10:00:00Z") (Some "yesterday")
                                     (Some "tomorrow") (Some "S")))
               eq_refl).
Defined.




(** The mis-declared sample: the root declares a namespace under a prefix
    no element uses. *)
Lemma unqualified_document_is_read_whatever_it_declares_witness :
  let root :=
    Element None "kml" [ (Some "gx"%string, "http://www.google.com/kml/ext/2.2"%string) ]
      [ Element None "Document" []
          [ Sample.placemark None Sample.desc_full "88,12,0";
            Sample.placemark None Sample.desc_no_dtg "89,13,0" ] ] in
  fst (fst (Loader.find_placemarks root))
  = [ Sample.placemark None Sample.desc_full "88,12,0";
      Sample.placemark None Sample.desc_no_dtg "89,13,0" ]
  /\ fst (Loader.extract_records Sample.degrees Sample.degrees_of_str root)
     = [ Loader.make_record Sample.degrees 12 88 (mkdt 2020 11 25 12 0 0 (Some 0))
           (Some 65) (Some 987) ].
Proof.
  cbv zeta.
  exact (unqualified_document_is_read_whatever_it_declares Sample.degrees
           Sample.degrees_of_str
           (Element None "kml"
              [ (Some "gx"%string, "http://www.google.com/kml/ext/2.2"%string) ]
              [ Element None "Document" []
                  [ Sample.placemark None Sample.desc_full "88,12,0";
                    Sample.placemark None Sample.desc_no_dtg "89,13,0" ] ])
           eq_refl).
Defined.

(** A declaration that names an encoding, in front of the sample track. *)
Lemma parser_is_given_the_markup_without_its_declaration_witness :
  Loader.parse_root (fun b => Some (Sample.decode b)) Sample.encode Sample.decode
    (fun s => Some (Sample.encode s)) (Sample.parse_known Sample.known)
    (Sample.encode ("<?xml version='1.0' encoding='ISO-8859-1'?>" ++ Sample.track_src)%string)
  = (Some Sample.track_tree, []).
Proof.
  apply (proj1 (parser_is_given_the_markup_without_its_declaration
                  (fun b => Some (Sample.decode b)) Sample.encode Sample.decode
                  (fun s => Some (Sample.encode s)) (Sample.parse_known Sample.known)
                  (Sample.encode ("<?xml version='1.0' encoding='ISO-8859-1'?>"
                                  ++ Sample.track_src)%string)
                  EmptyString " version='1.0' encoding='ISO-8859-1'" Sample.track_src
                  Sample.track_tree eq_refl eq_refl));
    reflexivity.
Defined.


(** Noon at five hours west of Greenwich is answered as noon UTC. *)
Lemma offset_of_an_instant_is_not_read_witness :
  Sample.get_track_data
    (Some (Backend.serving [ Sample.point_at "S" 12; Sample.point_at "S" 15 ]))
    (Backend.mkRequest (Some "2020-11-25T12:00:00Z") None None (Some "S"))
  = Sample.get_track_data
      (Some (Backend.serving [ Sample.point_at "S" 12; Sample.point_at "S" 15 ]))
      (Backend.mkRequest (Some "2020-11-25T12:00:00-05:00") None None (Some "S")).
Proof.
  exact (proj1 (offset_of_an_instant_is_not_read Sample.degrees Backend.fromisoformat_seconds
                  (Some (Backend.serving [ Sample.point_at "S" 12; Sample.point_at "S" 15 ]))
                  (Backend.mkRequest (Some "2020-11-25T12:00:00Z") None None (Some "S"))
                  (Backend.mkRequest (Some "2020-11-25T12:00:00-05:00") None None (Some "S"))
                  eq_refl)
               (mkdt 2020 11 25 12 0 0 (Some 0)) (Some (-300)) eq_refl eq_refl eq_refl eq_refl).
Defined.
